(** * Brake-pedal calibration backend: model and verified properties

    A shallow embedding of the JavaScript backend
    (models/brakeModel.js, services/serialConnection.js,
    controllers/brakeController.js, routes/brakeRoute.js).

    Conventions of the embedding:
    - a JavaScript number is an exact rational ([Q]); NaN and the
      infinities are outside the model, so every statement is about
      finite readings and finite configuration values;
    - [Date.now()] is an explicit argument [now] of every operation that
      reads the clock;
    - [req.body] is a finite map from property names to JavaScript
      values, a missing property reading as [undefined];
    - console output is not part of the state and is left out. *)

From Stdlib Require Import ZArith QArith Qround Qabs Lia Lqa.
From Stdlib Require Import String Ascii List.
From stdpp Require Import gmap strings.
Import ListNotations.

Local Open Scope string_scope.
Local Open Scope Q_scope.

(* ===================================================================== *)
(** * JavaScript values and the numeric primitives the code calls *)
(* ===================================================================== *)

Module JS.

Inductive val : Type :=
| Undefined
| Null
| Bool (b : bool)
| Num (q : Q)
| Str (s : string).

(** [typeof v === 'number'] *)
Definition is_number (v : val) : bool :=
  match v with Num _ => true | _ => false end.

(** [v !== undefined] *)
Definition is_defined (v : val) : bool :=
  match v with Undefined => false | _ => true end.

(** Property read on a parsed request body: absent keys are
    [undefined]. *)
Definition prop (o : gmap string val) (k : string) : val :=
  match o !! k with Some v => v | None => Undefined end.

(** [a < b] on numbers. *)
Definition ltb (a b : Q) : bool := negb (Qle_bool b a).

Definition Math_abs (x : Q) : Q := Qabs x.

Definition Math_min (a b : Q) : Q := if Qle_bool a b then a else b.

(** [Math.round]: nearest integer, ties towards +infinity. *)
Definition Math_round (x : Q) : Q := inject_Z (Qfloor (x + (1 # 2))).

(** [parseFloat(x.toFixed(2))].  [toFixed] prints the sign, then the
    integer [n] closest to [|x| * 100] (the larger one on a tie) with
    two decimals; from [1e21] on it prints the number itself. *)
Definition toFixed2 (x : Q) : Q :=
  if Qle_bool (inject_Z (10 ^ 21)%Z) (Qabs x) then x
  else
    let n := Qfloor (Qabs x * 100 + (1 # 2)) in
    if ltb x 0 then - (inject_Z n / 100) else inject_Z n / 100.

(** What the rational model keeps of "being a double": from [2^53] on
    every double is an integer. *)
Definition double_like (x : Q) : Prop :=
  inject_Z (2 ^ 53)%Z <= Qabs x -> exists n : Z, x == inject_Z n.

End JS.

(* ===================================================================== *)
(** * models/brakeModel.js *)
(* ===================================================================== *)

Module BrakeModel.
Import JS.

(** The object built by [createBrakeData]: one field per key of
    [brakeSchema]. *)
Record BrakeData : Type := mkBrakeData {
  value : Q;
  percentage : Q;
  force : Q;
  active : bool;
  rawReading : Q;
  maxForce : Q;
  deadZone : Q;
  timestamp : Q;
  sensorType : string
}.

(** An [initialData] argument: the keys it carries. *)
Record Partial : Type := mkPartial {
  p_value : option Q;
  p_percentage : option Q;
  p_force : option Q;
  p_active : option bool;
  p_rawReading : option Q;
  p_maxForce : option Q;
  p_deadZone : option Q;
  p_timestamp : option Q;
  p_sensorType : option string
}.

(** [{}] *)
Definition empty_partial : Partial :=
  mkPartial None None None None None None None None None.

(** The [default] entries of [brakeSchema]; the timestamp default is
    the function [() => Date.now()]. *)
Definition schema_defaults (now : Q) : BrakeData :=
  {| value := 0; percentage := 0; force := 0; active := false;
     rawReading := 0; maxForce := 5; deadZone := 1;
     timestamp := now; sensorType := "HX711" |}.

Definition over {A} (o : option A) (d : A) : A :=
  match o with Some x => x | None => d end.

(** [Object.assign(brakeData, initialData)] *)
Definition assign (d : BrakeData) (p : Partial) : BrakeData :=
  {| value := over (p_value p) (value d);
     percentage := over (p_percentage p) (percentage d);
     force := over (p_force p) (force d);
     active := over (p_active p) (active d);
     rawReading := over (p_rawReading p) (rawReading d);
     maxForce := over (p_maxForce p) (maxForce d);
     deadZone := over (p_deadZone p) (deadZone d);
     timestamp := over (p_timestamp p) (timestamp d);
     sensorType := over (p_sensorType p) (sensorType d) |}.

Definition createBrakeData (initialData : Partial) (now : Q) : BrakeData :=
  assign (schema_defaults now) initialData.

(** ** validateBrakeData *)

Inductive schema_error : Type :=
| BelowMinimum (key : string)
| AboveMaximum (key : string).

Definition check_range (key : string) (v : Q) (mn mx : option Q)
  : list schema_error :=
  (match mn with
   | Some m => if ltb v m then [BelowMinimum key] else []
   | None => []
   end ++
   match mx with
   | Some m => if ltb m v then [AboveMaximum key] else []
   | None => []
   end)%list.

Record Validation : Type := mkValidation {
  isValid : bool;
  errors : list schema_error
}.

(** The fields are typed, so only the range checks of the numeric
    keys can report; the keys are visited in schema order. *)
Definition validateBrakeData (d : BrakeData) : Validation :=
  let errs :=
   (check_range "value" (value d) (Some 0) (Some 1023) ++
    check_range "percentage" (percentage d) (Some 0) (Some 100) ++
    check_range "force" (force d) (Some 0) None ++
    check_range "rawReading" (rawReading d) None None ++
    check_range "maxForce" (maxForce d) (Some (1 # 10)) (Some 50) ++
    check_range "deadZone" (deadZone d) (Some 0) None ++
    check_range "timestamp" (timestamp d) None None)%list in
  {| isValid := match errs with [] => true | _ => false end;
     errors := errs |}.

(** ** updateBrakeData *)

Definition updateBrakeData (currentData : BrakeData) (newReading now : Q)
  : BrakeData :=
  let calculatedForce := Math_abs (newReading / 1000000) in
  let '(force1, active1) :=
    if ltb calculatedForce (deadZone currentData)
    then (0, false)
    else (calculatedForce - deadZone currentData, true) in
  let force2 := Math_min force1 (maxForce currentData) in
  let value1 :=
    if ltb 0 force2
    then Math_round ((force2 / maxForce currentData) * 1023)
    else 0 in
  let percentage1 := Math_round ((value1 / 1023) * 100) in
  {| value := value1;
     percentage := percentage1;
     force := force2;
     active := active1;
     rawReading := newReading;
     maxForce := maxForce currentData;
     deadZone := deadZone currentData;
     timestamp := now;
     sensorType := sensorType currentData |}.

(** ** getBrakeTelemetryData *)

Record Telemetry : Type := mkTelemetry {
  t_value : Q;
  t_percentage : Q;
  t_force : Q;
  t_active : bool;
  t_timestamp : Q
}.

Definition getBrakeTelemetryData (data : BrakeData) : Telemetry :=
  {| t_value := value data;
     t_percentage := percentage data;
     t_force := toFixed2 (force data);
     t_active := active data;
     t_timestamp := timestamp data |}.

End BrakeModel.

(* ===================================================================== *)
(** * services/serialConnection.js *)
(* ===================================================================== *)

(** ** The regular expressions of [parseArduinoData]

    A string is a sequence of code units below 256.  The four patterns
    are matched by hand-written matchers: in each of them a greedy run
    ([\s*], [\d+]) is followed by a character outside the run's class,
    so taking the longest run is what backtracking would settle on. *)

Module Regex.

(** [\d] *)
Definition is_digit (c : ascii) : bool :=
  let n := N_of_ascii c in (48 <=? n)%N && (n <=? 57)%N.

(** [\s] restricted to code units below 256: TAB, LF, VT, FF, CR,
    space and the no-break space. *)
Definition is_space (c : ascii) : bool :=
  let n := N_of_ascii c in
  ((9 <=? n)%N && (n <=? 13)%N) || (n =? 32)%N || (n =? 160)%N.

Fixpoint skip_while (p : ascii -> bool) (s : string) : string :=
  match s with
  | EmptyString => EmptyString
  | String c t => if p c then skip_while p t else s
  end.

Fixpoint take_while (p : ascii -> bool) (s : string) : string :=
  match s with
  | EmptyString => EmptyString
  | String c t => if p c then String c (take_while p t) else EmptyString
  end.

(** A literal at the head of [s]; the rest of [s] on success. *)
Fixpoint literal (lit s : string) : option string :=
  match lit, s with
  | EmptyString, _ => Some s
  | String a lit', String b s' =>
      if Ascii.eqb a b then literal lit' s' else None
  | String _ _, EmptyString => None
  end.

(** [(\d+)] at the head of [s]: the captured digits and the rest. *)
Definition digits1 (s : string) : option (string * string) :=
  match take_while is_digit s with
  | EmptyString => None
  | ds => Some (ds, skip_while is_digit s)
  end.

(** [<label>\s*(\d+)\/1023\s*\((\d+)%\)] anchored at the head of [s];
    the two capture groups on success. *)
Definition pedal_at (label s : string) : option (string * string) :=
  match literal label s with
  | None => None
  | Some s1 =>
    match digits1 (skip_while is_space s1) with
    | None => None
    | Some (g1, s2) =>
      match literal "/1023" s2 with
      | None => None
      | Some s3 =>
        match literal "(" (skip_while is_space s3) with
        | None => None
        | Some s4 =>
          match digits1 s4 with
          | None => None
          | Some (g2, s5) =>
            match literal "%)" s5 with
            | None => None
            | Some _ => Some (g1, g2)
            end
          end
        end
      end
    end
  end.

(** [(ACELERANDO|FRENANDO|EMBRAGUE|LIBERADOS)$] anchored at the head of
    [s]: an alternative followed by the end of the input. *)
Definition status_at (s : string) : option string :=
  if String.eqb s "ACELERANDO" then Some "ACELERANDO"
  else if String.eqb s "FRENANDO" then Some "FRENANDO"
  else if String.eqb s "EMBRAGUE" then Some "EMBRAGUE"
  else if String.eqb s "LIBERADOS" then Some "LIBERADOS"
  else None.

(** [String.prototype.match] with a non-global pattern: the leftmost
    position at which the anchored matcher succeeds. *)
Fixpoint search {A : Type} (anchored : string -> option A) (s : string)
  : option A :=
  match anchored s with
  | Some r => Some r
  | None =>
    match s with
    | EmptyString => None
    | String _ t => search anchored t
    end
  end.

(** [parseInt] of a run of decimal digits. *)
Fixpoint parseInt_from (acc : Z) (s : string) : Z :=
  match s with
  | EmptyString => acc
  | String c t =>
      parseInt_from (10 * acc + (Z.of_N (N_of_ascii c) - 48))%Z t
  end.

Definition parseInt (s : string) : Q := inject_Z (parseInt_from 0 s).

(** [String.prototype.trim] *)
Definition trim (s : string) : string :=
  let front := skip_while is_space s in
  string_of_list_ascii
    (rev (list_ascii_of_string
            (skip_while is_space
               (string_of_list_ascii (rev (list_ascii_of_string front)))))).

End Regex.

Module Serial.
Import Regex.

Record Pedal : Type := mkPedal {
  pd_value : Q;
  pd_percentage : Q;
  pd_active : bool
}.

Record PedalData : Type := mkPedalData {
  throttle : Pedal;
  brake : Pedal;
  clutch : Pedal;
  status : string;
  pd_timestamp : Q;
  rawData : option string
}.

(** [this.port]: the path it was created for and the library's
    [isOpen] flag. *)
Record Port : Type := mkPort {
  path : string;
  isOpen : bool
}.

(** The fields of [ArduinoSerialConnection].  [dataCallback] records
    whether a callback is registered; the callback itself belongs to
    whoever registered it and receives the events returned below. *)
Record Connection : Type := mkConnection {
  port : option Port;
  isConnected : bool;
  currentData : PedalData;
  dataCallback : bool;
  connectionAttempts : nat;
  maxRetries : nat
}.

Definition idle_pedal : Pedal := mkPedal 0 0 false.

(** The constructor. *)
Definition new_connection (now : Q) : Connection :=
  {| port := None;
     isConnected := false;
     currentData :=
       {| throttle := idle_pedal; brake := idle_pedal; clutch := idle_pedal;
          status := "LIBERADOS"; pd_timestamp := now; rawData := None |};
     dataCallback := false;
     connectionAttempts := 0;
     maxRetries := 5 |}.

Definition onDataReceived (a : Connection) : Connection :=
  {| port := port a; isConnected := isConnected a;
     currentData := currentData a; dataCallback := true;
     connectionAttempts := connectionAttempts a;
     maxRetries := maxRetries a |}.

(** What an operation asks of the outside world. *)
Inductive effect : Type :=
| OpenPort (p : string)
| ClosePort
| SetTimeout3000
| DataEvent (d : PedalData).

Definition pedal_of (m : string * string) : Pedal :=
  {| pd_value := parseInt (fst m);
     pd_percentage := parseInt (snd m);
     pd_active := JS.ltb 0 (parseInt (snd m)) |}.

Definition throttleMatch (rawData : string) :=
  search (pedal_at "Acel:") rawData.
Definition brakeMatch (rawData : string) :=
  search (pedal_at "Freno:") rawData.
Definition clutchMatch (rawData : string) :=
  search (pedal_at "Clutch:") rawData.
Definition statusMatch (rawData : string) :=
  search status_at rawData.

Definition parseArduinoData (a : Connection) (raw : string) (now : Q)
  : Connection * list effect :=
  match throttleMatch raw, brakeMatch raw, clutchMatch raw, statusMatch raw with
  | Some t, Some b, Some c, Some s =>
      let d := {| throttle := pedal_of t; brake := pedal_of b;
                  clutch := pedal_of c; status := s;
                  pd_timestamp := now; rawData := Some raw |} in
      ({| port := port a; isConnected := isConnected a;
          currentData := d; dataCallback := dataCallback a;
          connectionAttempts := connectionAttempts a;
          maxRetries := maxRetries a |},
       if dataCallback a then [DataEvent d] else [])
  | _, _, _, _ => (a, [])
  end.

(** The parser's ['data'] listener. *)
Definition on_data (a : Connection) (data : string) (now : Q)
  : Connection * list effect :=
  parseArduinoData a (trim data) now.

(** ** Connection life cycle

    The connection object together with the reconnection timers that
    [attemptReconnection] has handed to [setTimeout] and that have not
    fired yet.  The code keeps no handle on them. *)
Record Runtime : Type := mkRuntime {
  conn : Connection;
  pendingRetries : nat
}.

Definition with_conn (r : Runtime) (a : Connection) : Runtime :=
  {| conn := a; pendingRetries := pendingRetries r |}.

Definition set_isConnected (a : Connection) (b : bool) : Connection :=
  {| port := port a; isConnected := b;
     currentData := currentData a; dataCallback := dataCallback a;
     connectionAttempts := connectionAttempts a;
     maxRetries := maxRetries a |}.

Definition set_port (a : Connection) (p : option Port) : Connection :=
  {| port := p; isConnected := isConnected a;
     currentData := currentData a; dataCallback := dataCallback a;
     connectionAttempts := connectionAttempts a;
     maxRetries := maxRetries a |}.

Definition set_attempts (a : Connection) (n : nat) : Connection :=
  {| port := port a; isConnected := isConnected a;
     currentData := currentData a; dataCallback := dataCallback a;
     connectionAttempts := n;
     maxRetries := maxRetries a |}.

Definition attemptReconnection (r : Runtime) : Runtime * list effect :=
  let a := conn r in
  if (connectionAttempts a <? maxRetries a)%nat
  then ({| conn := set_attempts a (S (connectionAttempts a));
           pendingRetries := S (pendingRetries r) |},
        [SetTimeout3000])
  else (r, []).

(** What [selectPortInteractively] resolves to. *)
Inductive selection : Type :=
| SIMULATION_MODE
| NoPort
| Chosen (p : string).

(** The surroundings of one [connect] call: the answer of the
    interactive prompt, the paths [findArduinoPorts] returns, and
    whether the [SerialPort] constructor throws. *)
Record Env : Type := mkEnv {
  prompt : selection;
  discovered : list string;
  ctor_throws : bool
}.

(** [!targetPort] *)
Definition falsy (p : option string) : bool :=
  match p with
  | None => true
  | Some s => String.eqb s ""
  end.

(** The port [connect] settles on, if it gets that far. *)
Definition targetPort (portPath : option string) (interactive : bool)
  (env : Env) : option string :=
  if falsy portPath then
    if interactive then
      match prompt env with
      | SIMULATION_MODE => None
      | NoPort => None
      | Chosen p => if String.eqb p "" then None else Some p
      end
    else
      match discovered env with
      | [] => None
      | p :: _ => Some p
      end
  else portPath.

(** [connect(portPath, baudRate, interactive)]: the new state, the
    returned boolean and the effects. *)
Definition connect (r : Runtime) (portPath : option string)
  (interactive : bool) (env : Env) : Runtime * bool * list effect :=
  if isConnected (conn r) then (r, false, [])
  else
    match targetPort portPath interactive env with
    | None => (r, false, [])
    | Some target =>
      if ctor_throws env then
        let '(r', effs) :=
          attemptReconnection (with_conn r (set_isConnected (conn r) false)) in
        (r', false, effs)
      else
        (with_conn r (set_port (conn r) (Some (mkPort target false))),
         true, [OpenPort target])
    end.

(** [disconnect()]; [port.close] clears the library's [isOpen] at
    once and reports the ['close'] event later. *)
Definition disconnect (r : Runtime) : Runtime * list effect :=
  let a := conn r in
  match port a with
  | Some p =>
    if isOpen p then
      (with_conn r
         (set_isConnected (set_port a (Some (mkPort (path p) false))) false),
       [ClosePort])
    else (with_conn r (set_isConnected a false), [])
  | None => (with_conn r (set_isConnected a false), [])
  end.

(** What can happen to a connection. *)
Inductive event : Type :=
| PortOpened
| PortError
| PortClosed
| RetryTimer (env : Env)
| Line (data : string) (now : Q)
| Disconnect.

Definition mark_open (a : Connection) (b : bool) : Connection :=
  match port a with
  | Some p => set_port a (Some (mkPort (path p) b))
  | None => a
  end.

(** One turn of the event loop. *)
Definition step (r : Runtime) (e : event) : Runtime * list effect :=
  match e with
  | PortOpened =>
      (with_conn r
         (set_attempts (set_isConnected (mark_open (conn r) true) true) 0),
       [])
  | PortError =>
      attemptReconnection (with_conn r (set_isConnected (conn r) false))
  | PortClosed =>
      attemptReconnection
        (with_conn r (set_isConnected (mark_open (conn r) false) false))
  | RetryTimer env =>
      match pendingRetries r with
      | O => (r, [])
      | S n =>
        let '(r', _, effs) :=
          connect {| conn := conn r; pendingRetries := n |} None true env in
        (r', effs)
      end
  | Line data now =>
      let '(a, effs) := on_data (conn r) data now in
      (with_conn r a, effs)
  | Disconnect => disconnect r
  end.

(** A run of events, with everything it asked of the outside world. *)
Fixpoint run (r : Runtime) (es : list event) : Runtime * list effect :=
  match es with
  | [] => (r, [])
  | e :: es' =>
    let '(r1, effs1) := step r e in
    let '(r2, effs2) := run r1 es' in
    (r2, (effs1 ++ effs2)%list)
  end.

Definition opens_port (effs : list effect) : bool :=
  existsb (fun e => match e with OpenPort _ => true | _ => false end) effs.

End Serial.

(* ===================================================================== *)
(** * controllers/brakeController.js *)
(* ===================================================================== *)

(** What a handler hands to [res]. *)
Module Http.
Import BrakeModel.

Inductive payload : Type :=
| Failure (error : string)
| Updated (message : string) (brake : Telemetry) (validation : Validation)
| Configured (maxForce deadZone : Q) (validation : Validation)
| ResetDone (brake : Telemetry).

Record Response : Type := mkResponse {
  statusCode : nat;
  body : payload
}.

Definition success (r : Response) : bool :=
  match body r with Failure _ => false | _ => true end.

(** [res.status(400).json({success: false, error})] *)
Definition bad_request (error : string) : Response :=
  mkResponse 400 (Failure error).

(** [res.json({success: true, ...})] *)
Definition ok (p : payload) : Response := mkResponse 200 p.

(** [req.body] *)
Abbreviation request := (gmap string JS.val).

End Http.

(** ** The controller with Arduino support *)

Module Controller.
Import JS BrakeModel Http.

Record BrakePedal : Type := mkBrakePedal {
  bp_value : Q;
  bp_percentage : Q;
  bp_active : bool;
  bp_force : Q
}.

Record FullPedalData : Type := mkFullPedalData {
  fp_brake : BrakePedal;
  fp_throttle : Serial.Pedal;
  fp_clutch : Serial.Pedal;
  fp_status : string;
  fp_timestamp : Q;
  fp_source : string
}.

(** The fields of [BrakeController]; [simulationInterval] records
    whether an interval handle is held. *)
Record State : Type := mkState {
  brakeData : BrakeData;
  isSimulating : bool;
  simulationInterval : bool;
  lastDisplayedPercentage : Q;
  arduino : Serial.Connection;
  isArduinoConnected : bool;
  fullPedalData : option FullPedalData
}.

Definition set_brakeData (c : State) (d : BrakeData) : State :=
  {| brakeData := d; isSimulating := isSimulating c;
     simulationInterval := simulationInterval c;
     lastDisplayedPercentage := lastDisplayedPercentage c;
     arduino := arduino c; isArduinoConnected := isArduinoConnected c;
     fullPedalData := fullPedalData c |}.

Definition set_lastDisplayed (c : State) (p : Q) : State :=
  {| brakeData := brakeData c; isSimulating := isSimulating c;
     simulationInterval := simulationInterval c;
     lastDisplayedPercentage := p;
     arduino := arduino c; isArduinoConnected := isArduinoConnected c;
     fullPedalData := fullPedalData c |}.

Definition set_arduino (c : State) (a : Serial.Connection) : State :=
  {| brakeData := brakeData c; isSimulating := isSimulating c;
     simulationInterval := simulationInterval c;
     lastDisplayedPercentage := lastDisplayedPercentage c;
     arduino := a; isArduinoConnected := isArduinoConnected c;
     fullPedalData := fullPedalData c |}.

Definition set_fullPedalData (c : State) (f : FullPedalData) : State :=
  {| brakeData := brakeData c; isSimulating := isSimulating c;
     simulationInterval := simulationInterval c;
     lastDisplayedPercentage := lastDisplayedPercentage c;
     arduino := arduino c; isArduinoConnected := isArduinoConnected c;
     fullPedalData := Some f |}.

(** The constructor, up to the (asynchronous) [connectToArduino]. *)
Definition new_controller (now : Q) : State :=
  {| brakeData := createBrakeData empty_partial now;
     isSimulating := false;
     simulationInterval := false;
     lastDisplayedPercentage := -1;
     arduino := Serial.onDataReceived (Serial.new_connection now);
     isArduinoConnected := false;
     fullPedalData := None |}.

Definition set_maxForce (d : BrakeData) (q : Q) : BrakeData :=
  {| value := value d; percentage := percentage d; force := force d;
     active := active d; rawReading := rawReading d;
     maxForce := q; deadZone := deadZone d;
     timestamp := timestamp d; sensorType := sensorType d |}.

Definition set_deadZone (d : BrakeData) (q : Q) : BrakeData :=
  {| value := value d; percentage := percentage d; force := force d;
     active := active d; rawReading := rawReading d;
     maxForce := maxForce d; deadZone := q;
     timestamp := timestamp d; sensorType := sensorType d |}.

Definition set_timestamp (d : BrakeData) (q : Q) : BrakeData :=
  {| value := value d; percentage := percentage d; force := force d;
     active := active d; rawReading := rawReading d;
     maxForce := maxForce d; deadZone := deadZone d;
     timestamp := q; sensorType := sensorType d |}.

(** [processArduinoData]: the callback registered on the connection.
    It writes the brake channel into [brakeData] field by field. *)
Definition processArduinoData (c : State) (arduinoData : Serial.PedalData)
  (now1 now2 : Q) : State :=
  let b := Serial.brake arduinoData in
  let d := brakeData c in
  let force1 := (Serial.pd_percentage b / 100) * maxForce d in
  let d' :=
    {| value := Serial.pd_value b;
       percentage := Serial.pd_percentage b;
       force := force1;
       active := Serial.pd_active b;
       rawReading := 8388607 + force1 * 1000000;
       maxForce := maxForce d; deadZone := deadZone d;
       timestamp := now1; sensorType := sensorType d |} in
  set_fullPedalData (set_brakeData c d')
    {| fp_brake := mkBrakePedal (Serial.pd_value b) (Serial.pd_percentage b)
                     (Serial.pd_active b) force1;
       fp_throttle := Serial.throttle arduinoData;
       fp_clutch := Serial.clutch arduinoData;
       fp_status := Serial.status arduinoData;
       fp_timestamp := now2;
       fp_source := "arduino" |}.

(** [displayBrakePercentage]: apart from printing, it remembers the
    last percentage shown. *)
Definition displayBrakePercentage (c : State) (percentage force : Q) : State :=
  if ltb (Math_abs (percentage - lastDisplayedPercentage c)) 2 then c
  else set_lastDisplayed c percentage.

Definition updateBrake (c : State) (req : request) (now : Q)
  : State * Response :=
  match prop req "rawReading" with
  | Num rawReading =>
    if isArduinoConnected c then
      (c, bad_request
            "No se pueden hacer actualizaciones manuales con Arduino conectado")
    else
      let c1 := set_brakeData c (updateBrakeData (brakeData c) rawReading now) in
      let c2 := displayBrakePercentage c1 (percentage (brakeData c1))
                  (force (brakeData c1)) in
      (c2, ok (Updated "Datos del freno actualizados manualmente"
                 (getBrakeTelemetryData (brakeData c2))
                 (validateBrakeData (brakeData c2))))
  | _ => (c, bad_request "rawReading debe ser un número")
  end.

(** The [maxForce] block of [configureBrake]: [inr] is the early
    return. *)
Definition configure_maxForce (c : State) (maxForce : val)
  : State + Response :=
  if is_defined maxForce then
    match maxForce with
    | Num q =>
      if Qle_bool q 0
      then inr (bad_request "maxForce debe ser un número positivo")
      else inl (set_brakeData c (set_maxForce (brakeData c) q))
    | _ => inr (bad_request "maxForce debe ser un número positivo")
    end
  else inl c.

(** The [deadZone] block of [configureBrake]. *)
Definition configure_deadZone (c : State) (deadZone : val)
  : State + Response :=
  if is_defined deadZone then
    match deadZone with
    | Num q =>
      if ltb q 0
      then inr (bad_request "deadZone debe ser un número no negativo")
      else inl (set_brakeData c (set_deadZone (brakeData c) q))
    | _ => inr (bad_request "deadZone debe ser un número no negativo")
    end
  else inl c.

Definition configureBrake (c : State) (req : request) (now : Q)
  : State * Response :=
  match configure_maxForce c (prop req "maxForce") with
  | inr r => (c, r)
  | inl c1 =>
    match configure_deadZone c1 (prop req "deadZone") with
    | inr r => (c1, r)
    | inl c2 =>
      let c3 := set_brakeData c2 (set_timestamp (brakeData c2) now) in
      (c3, ok (Configured (maxForce (brakeData c3)) (deadZone (brakeData c3))
                 (validateBrakeData (brakeData c3))))
    end
  end.

Definition resetBrake (c : State) (now : Q) : State * Response :=
  let currentConfig :=
    {| p_value := None; p_percentage := None; p_force := None;
       p_active := None; p_rawReading := None;
       p_maxForce := Some (maxForce (brakeData c));
       p_deadZone := Some (deadZone (brakeData c));
       p_timestamp := None; p_sensorType := None |} in
  let c1 := set_brakeData c (createBrakeData currentConfig now) in
  (c1, ok (ResetDone (getBrakeTelemetryData (brakeData c1)))).

Definition getCurrentData (c : State) : Telemetry :=
  getBrakeTelemetryData (brakeData c).

Definition updateInternalData (c : State) (rawReading now : Q)
  : State * Telemetry :=
  let c' :=
    if isArduinoConnected c then c
    else
      let c1 := set_brakeData c (updateBrakeData (brakeData c) rawReading now) in
      displayBrakePercentage c1 (percentage (brakeData c1))
        (force (brakeData c1)) in
  (c', getCurrentData c').

(** One tick of the stream's 50 ms interval: the snapshot written to
    the subscriber. *)
Definition stream_push (c : State) : Telemetry :=
  getBrakeTelemetryData (brakeData c).

(** The polling read ([getBrakeData]). *)
Definition poll (c : State) : Telemetry :=
  getBrakeTelemetryData (brakeData c).

(** A line arriving on the serial parser: the connection parses it and
    calls the registered callback on a match. *)
Definition deliver (c : State) (effs : list Serial.effect) (now1 now2 : Q)
  : State :=
  fold_left
    (fun c e =>
       match e with
       | Serial.DataEvent d => processArduinoData c d now1 now2
       | _ => c
       end) effs c.

Definition on_serial_line (c : State) (data : string) (now now1 now2 : Q)
  : State :=
  let '(a, effs) := Serial.on_data (arduino c) data now in
  deliver (set_arduino c a) effs now1 now2.

End Controller.

(** ** The controller without Arduino support

    The earlier controller file: no connection, no conflict check; its
    [configureBrake] and [resetBrake] are the ones above, on a smaller
    state. *)

Module Standalone.
Import JS BrakeModel Http.

Record State : Type := mkState {
  brakeData : BrakeData;
  isSimulating : bool;
  simulationInterval : bool
}.

Definition set_brakeData (c : State) (d : BrakeData) : State :=
  {| brakeData := d; isSimulating := isSimulating c;
     simulationInterval := simulationInterval c |}.

Definition updateBrake (c : State) (req : request) (now : Q)
  : State * Response :=
  match prop req "rawReading" with
  | Num rawReading =>
      let c1 := set_brakeData c (updateBrakeData (brakeData c) rawReading now) in
      (c1, ok (Updated "Datos del freno actualizados"
                 (getBrakeTelemetryData (brakeData c1))
                 (validateBrakeData (brakeData c1))))
  | _ => (c, bad_request "rawReading debe ser un número")
  end.

Definition configureBrake (c : State) (req : request) (now : Q)
  : State * Response :=
  let d0 := brakeData c in
  let step1 : BrakeData + Response :=
    match prop req "maxForce" with
    | Undefined => inl d0
    | Num q =>
      if Qle_bool q 0
      then inr (bad_request "maxForce debe ser un número positivo")
      else inl (Controller.set_maxForce d0 q)
    | _ => inr (bad_request "maxForce debe ser un número positivo")
    end in
  match step1 with
  | inr r => (c, r)
  | inl d1 =>
    match prop req "deadZone" with
    | Undefined =>
      let d3 := Controller.set_timestamp d1 now in
      (set_brakeData c d3,
       ok (Configured (maxForce d3) (deadZone d3) (validateBrakeData d3)))
    | Num q =>
      if ltb q 0
      then (set_brakeData c d1,
            bad_request "deadZone debe ser un número no negativo")
      else
        let d3 := Controller.set_timestamp (Controller.set_deadZone d1 q) now in
        (set_brakeData c d3,
         ok (Configured (maxForce d3) (deadZone d3) (validateBrakeData d3)))
    | _ => (set_brakeData c d1,
            bad_request "deadZone debe ser un número no negativo")
    end
  end.

End Standalone.

(* ===================================================================== *)
(** * routes/brakeRoute.js *)
(* ===================================================================== *)

(** The router is a stack of layers tried in registration order.  A
    layer whose verb and path match the request runs; it either answers
    or calls [next()], and only then is the following layer tried. *)

Module Routes.
Import JS BrakeModel Http.

Inductive outcome : Type :=
| Responded (r : Response)
| Next.

Definition layer : Type :=
  Controller.State -> request -> Q -> Controller.State * outcome.

Record Route : Type := mkRoute {
  verb : string;
  route_path : string;
  handle : layer
}.

(** A controller method behind [asyncHandler]: it always answers. *)
Definition answering
  (h : Controller.State -> request -> Q -> Controller.State * Response)
  : layer :=
  fun c req now => let '(c', r) := h c req now in (c', Responded r).

(** [validateConfigParams] *)
Definition validateConfigParams : layer :=
  fun c req _ =>
    let maxForce := prop req "maxForce" in
    let deadZone := prop req "deadZone" in
    let bad_maxForce :=
      is_defined maxForce &&
      match maxForce with
      | Num q => Qle_bool q 0 || ltb 50 q
      | _ => true
      end in
    let bad_deadZone :=
      is_defined deadZone &&
      match deadZone with
      | Num q => ltb q 0 || Qle_bool 10 q
      | _ => true
      end in
    if bad_maxForce then
      (c, Responded (bad_request "maxForce debe ser un número entre 0.1 y 50 kg"))
    else if bad_deadZone then
      (c, Responded (bad_request "deadZone debe ser un número entre 0 y 10 kg"))
    else (c, Next).

(** The layers on the control routes, in the order the file registers
    them: the three handlers first, the validation middleware after. *)
Definition router : list Route :=
  [ mkRoute "PUT" "/update" (answering Controller.updateBrake);
    mkRoute "PUT" "/config" (answering Controller.configureBrake);
    mkRoute "POST" "/reset"
      (answering (fun c _ now => Controller.resetBrake c now));
    mkRoute "PUT" "/config" validateConfigParams ].

Definition matches (r : Route) (v p : string) : bool :=
  String.eqb (verb r) v && String.eqb (route_path r) p.

(** The answer of the first matching layer that does not pass the
    request on; [None] when the stack is exhausted. *)
Fixpoint dispatch (stack : list Route) (v p : string)
  (c : Controller.State) (req : request) (now : Q)
  : Controller.State * option Response :=
  match stack with
  | [] => (c, None)
  | r :: rest =>
    if matches r v p then
      match handle r c req now with
      | (c', Responded resp) => (c', Some resp)
      | (c', Next) => dispatch rest v p c' req now
      end
    else dispatch rest v p c req now
  end.

(** [PUT /api/brake/config] *)
Definition configure (c : Controller.State) (req : request) (now : Q)
  : Controller.State * option Response :=
  dispatch router "PUT" "/config" c req now.

End Routes.

(* ===================================================================== *)
(** * Vocabulary and concrete states used by the statements below *)
(* ===================================================================== *)

Module Scenario.
Import JS BrakeModel Http.

(** The reading in kilograms, as [updateBrakeData] computes it. *)
Definition magnitude (r : Q) : Q := Math_abs (r / 1000000).

(** The default snapshot: [maxForce = 5], [deadZone = 1]. *)
Definition defaults : BrakeData := createBrakeData empty_partial 0.

(** A snapshot configured with [maxForce = 5] and [deadZone = 5]. *)
Definition wide_dead_zone : BrakeData :=
  Controller.set_deadZone defaults 5.

(** The default snapshot after a reading of 3456789 (2.456789 kg of
    force). *)
Definition pressed : BrakeData := updateBrakeData defaults 3456789 7.

(** A controller right after construction, and one that considers the
    Arduino connected. *)
Definition fresh : Controller.State := Controller.new_controller 0.

Definition on_hardware : Controller.State :=
  {| Controller.brakeData := Controller.brakeData fresh;
     Controller.isSimulating := false;
     Controller.simulationInterval := false;
     Controller.lastDisplayedPercentage := -1;
     Controller.arduino := Controller.arduino fresh;
     Controller.isArduinoConnected := true;
     Controller.fullPedalData := None |}.

(** Request bodies. *)
Definition body_maxForce_60 : request := {[ "maxForce" := Num 60 ]}.

Definition body_maxForce_10_deadZone_neg : request :=
  {[ "maxForce" := Num 10; "deadZone" := Num (-1) ]}.

Definition body_reading (r : Q) : request := {[ "rawReading" := Num r ]}.

(** [reset()] called once per clock reading of the list. *)
Definition resets (c : Controller.State) (nows : list Q) : Controller.State :=
  fold_left (fun c now => fst (Controller.resetBrake c now)) nows c.

(** A snapshot with its timestamp blanked. *)
Definition untimed (d : BrakeData) : BrakeData :=
  Controller.set_timestamp d 0.

(** Serial lines. *)
Definition sample_line : string :=
  "Acel: 0/1023 (0%) | Freno: 512/1023 (50%) | Clutch: 0/1023 (0%) | FRENANDO".

Definition line_without_status : string :=
  "Acel: 0/1023 (0%) | Freno: 512/1023 (50%) | Clutch: 0/1023 (0%) |".

(** A connection that is up on COM3, with no retry pending. *)
Definition live : Serial.Runtime :=
  {| Serial.conn :=
       {| Serial.port := Some (Serial.mkPort "COM3" true);
          Serial.isConnected := true;
          Serial.currentData := Serial.currentData (Serial.new_connection 0);
          Serial.dataCallback := true;
          Serial.connectionAttempts := 0;
          Serial.maxRetries := 5 |};
     Serial.pendingRetries := 0 |}.

(** A prompt at which the user picks port [p]. *)
Definition picks (p : string) : Serial.Env :=
  {| Serial.prompt := Serial.Chosen p;
     Serial.discovered := [];
     Serial.ctor_throws := false |}.

End Scenario.

(* ===================================================================== *)
(** * services/serialConnection.js: port discovery *)
(* ===================================================================== *)

Module Ports.
Import Regex.

(** An entry of [SerialPort.list()]; a missing property is [None]. *)
Record PortInfo : Type := mkPortInfo {
  pi_path : string;
  manufacturer : option string;
  vendorId : option string;
  productId : option string
}.

(** [x || fallback] on an optional string: [undefined] and the empty
    string are falsy. *)
Definition or_else (o : option string) (fallback : string) : string :=
  match o with
  | Some EmptyString => fallback
  | Some s => s
  | None => fallback
  end.

(** [toLowerCase] on code units below 256. *)
Definition lower_char (c : ascii) : ascii :=
  let n := N_of_ascii c in
  if ((65 <=? n)%N && (n <=? 90)%N) ||
     ((192 <=? n)%N && (n <=? 222)%N && negb (n =? 215)%N)
  then ascii_of_N (n + 32)
  else c.

Fixpoint toLowerCase (s : string) : string :=
  match s with
  | EmptyString => EmptyString
  | String c t => String (lower_char c) (toLowerCase t)
  end.

(** [s.includes(sub)] *)
Fixpoint includes (s sub : string) : bool :=
  match literal sub s with
  | Some _ => true
  | None =>
    match s with
    | EmptyString => false
    | String _ t => includes t sub
    end
  end.

(** [isArduinoLikePort], which is also the filter of
    [findArduinoPorts]. *)
Definition isArduinoLikePort (port : PortInfo) : bool :=
  let manufacturer := toLowerCase (or_else (manufacturer port) "") in
  let vendorId := toLowerCase (or_else (vendorId port) "") in
  includes manufacturer "arduino" ||
  includes manufacturer "ch340" ||
  includes manufacturer "ftdi" ||
  includes manufacturer "silicon" ||
  String.eqb vendorId "2341" ||
  String.eqb vendorId "1a86" ||
  includes (pi_path port) "ttyUSB" ||
  includes (pi_path port) "ttyACM" ||
  includes (pi_path port) "COM".

(** [findArduinoPorts]; [None] stands for a listing that failed, which
    the [catch] turns into the empty list. *)
Definition findArduinoPorts (listing : option (list PortInfo))
  : list PortInfo :=
  match listing with
  | None => []
  | Some ports =>
    match List.filter isArduinoLikePort ports with
    | [] => ports
    | potentialPorts => potentialPorts
    end
  end.

(** The target mark of [selectPortInteractively]. *)
Definition marked_in_prompt (port : PortInfo) : bool :=
  let manufacturer := or_else (manufacturer port) "Desconocido" in
  let vendorId := or_else (vendorId port) "N/A" in
  includes (toLowerCase manufacturer) "arduino" ||
  includes (toLowerCase manufacturer) "ch340" ||
  includes (toLowerCase manufacturer) "ftdi" ||
  String.eqb vendorId "2341" || String.eqb vendorId "1a86".

(** An entry of [getPortsList]. *)
Record PortEntry : Type := mkPortEntry {
  pe_path : string;
  pe_manufacturer : string;
  pe_vendorId : option string;
  pe_productId : option string;
  pe_isArduinoLike : bool
}.

(** [x || null] *)
Definition or_null (o : option string) : option string :=
  match o with
  | Some EmptyString => None
  | other => other
  end.

Definition getPortsList (listing : option (list PortInfo))
  : list PortEntry :=
  match listing with
  | None => []
  | Some ports =>
    map (fun port =>
           {| pe_path := pi_path port;
              pe_manufacturer := or_else (manufacturer port) "Desconocido";
              pe_vendorId := or_null (vendorId port);
              pe_productId := or_null (productId port);
              pe_isArduinoLike := isArduinoLikePort port |}) ports
  end.

(** The automatic branch of [connect]: the path of the first port
    [findArduinoPorts] returns. *)
Definition automatic_paths (listing : option (list PortInfo)) : list string :=
  map pi_path (findArduinoPorts listing).

End Ports.

(* ===================================================================== *)
(** * services/serialConnection.js: the terminal display and commands *)
(* ===================================================================== *)

Module Display.
Import Serial.

(** A progress bar: so many full cells followed by so many empty
    ones. *)
Record Bar : Type := mkBar {
  filled : Z;
  blank : Z
}.

(** [createBar]; [String.prototype.repeat] throws a [RangeError] on a
    negative count, which is [None] here. *)
Definition createBar (percentage : Q) (length : Z) : option Bar :=
  let filled := Qfloor ((percentage / 100) * inject_Z length + (1 # 2)) in
  if (filled <? 0)%Z then None
  else if (length - filled <? 0)%Z then None
  else Some (mkBar filled (length - filled)).

(** [displayPedalData]: whether it returns ([true]) or throws.  The
    bars are drawn when [Date.now() % 3000 < 100]. *)
Definition displayPedalData (d : PedalData) (clock : Z) : bool :=
  if (Z.rem clock 3000 <? 100)%Z then
    match createBar (pd_percentage (throttle d)) 20,
          createBar (pd_percentage (brake d)) 20,
          createBar (pd_percentage (clutch d)) 20 with
    | Some _, Some _, Some _ => true
    | _, _, _ => false
    end
  else true.

(** [parseArduinoData] with the display call in it: the assignment to
    [currentData] comes first, then the display, then the callback; an
    exception of the display is caught by the surrounding [try] and the
    callback is skipped. *)
Definition parseArduinoData_displaying (a : Connection) (raw : string)
  (now : Q) (clock : Z) : Connection * list effect :=
  match throttleMatch raw, brakeMatch raw, clutchMatch raw, statusMatch raw with
  | Some t, Some b, Some c, Some s =>
      let d := {| throttle := pedal_of t; brake := pedal_of b;
                  clutch := pedal_of c; status := s;
                  pd_timestamp := now; rawData := Some raw |} in
      let a' := {| port := port a; isConnected := isConnected a;
                   currentData := d; dataCallback := dataCallback a;
                   connectionAttempts := connectionAttempts a;
                   maxRetries := maxRetries a |} in
      if displayPedalData d clock then
        (a', if dataCallback a then [DataEvent d] else [])
      else (a', [])
  | _, _, _, _ => (a, [])
  end.

(** The parser's ['data'] listener, display included. *)
Definition on_data_displaying (a : Connection) (data : string)
  (now : Q) (clock : Z) : Connection * list effect :=
  parseArduinoData_displaying a (Regex.trim data) now clock.

(** A percentage too large for a bar of 20 cells: from 102.5 on the
    rounded count of full cells exceeds 20. *)
Definition bar_overflows (p : Pedal) : bool :=
  Qle_bool (205 # 2) (pd_percentage p).

(** No bar of the record overflows. *)
Definition bars_fit (d : PedalData) : bool :=
  negb (bar_overflows (throttle d) || bar_overflows (brake d) ||
        bar_overflows (clutch d)).

(** [isPortConnected] *)
Definition isPortConnected (a : Connection) : bool :=
  isConnected a &&
  match port a with
  | Some p => isOpen p
  | None => false
  end.

(** [sendCommand]: what is written to the port, if anything. *)
Definition sendCommand (a : Connection) (command : string) : option string :=
  if isPortConnected a then Some (command ++ String "010" EmptyString)
  else None.

End Display.

(* ===================================================================== *)
(** * controllers/brakeController.js: simulation and source switching *)
(* ===================================================================== *)

Module Mode.
Import JS BrakeModel Http.
Import Controller.

(** [Math.max] *)
Definition Math_max (a b : Q) : Q := if Qle_bool a b then b else a.

Definition set_simulation (c : State) (running interval : bool) : State :=
  {| brakeData := brakeData c; isSimulating := running;
     simulationInterval := interval;
     lastDisplayedPercentage := lastDisplayedPercentage c;
     arduino := arduino c; isArduinoConnected := isArduinoConnected c;
     fullPedalData := fullPedalData c |}.

Definition set_isArduinoConnected (c : State) (b : bool) : State :=
  {| brakeData := brakeData c; isSimulating := isSimulating c;
     simulationInterval := simulationInterval c;
     lastDisplayedPercentage := lastDisplayedPercentage c;
     arduino := arduino c; isArduinoConnected := b;
     fullPedalData := fullPedalData c |}.

(** What the simulation and connection handlers answer. *)
Inductive reply : Type :=
| Refused (status : nat) (error : string)
| SimulationStarted
| SimulationStopped
| TestApplied (testForce simulatedReading : Q) (result : Telemetry)
| Disconnected
| NoActiveConnection (isSimulating : bool)
| ConnectedTo (port : string)
| ConnectFailed (port : string).

(** [startSimulation(req, res)]; without [res] (the internal calls)
    nothing is answered. *)
Definition startSimulation (c : State) (res : bool)
  : State * option reply :=
  if isArduinoConnected c then
    (c, if res
        then Some (Refused 400
                     "Arduino conectado - La simulación no es necesaria")
        else None)
  else if isSimulating c then
    (c, if res then Some (Refused 400 "La simulación ya está activa")
        else None)
  else
    (set_simulation c true true,
     if res then Some SimulationStarted else None).

Definition stopSimulation (c : State) : State * reply :=
  if negb (isSimulating c) then
    (c, Refused 400 "La simulación no está activa")
  else (set_simulation c false false, SimulationStopped).

(** The reading one tick of the interval produces, given the values of
    [Math.sin(Date.now() / 3000)] and [Math.random()]. *)
Definition simulatedReading (sine random : Q) : Q :=
  let baseReading := 8388607 in
  let forceVariation := sine * 2500000 in
  let noise := (random - (1 # 2)) * 100000 in
  baseReading + Math_max 0 forceVariation + noise.

(** The callback of the 150 ms interval. *)
Definition simulationTick (c : State) (sine random now : Q) : State :=
  let c1 :=
    set_brakeData c
      (updateBrakeData (brakeData c) (simulatedReading sine random) now) in
  if ltb 5 (percentage (brakeData c1))
  then displayBrakePercentage c1 (percentage (brakeData c1))
         (force (brakeData c1))
  else c1.

(** The reading of the earlier controller's 100 ms interval
    ([Math.sin(Date.now() / 1000)], no clamp on the variation). *)
Definition standalone_simulatedReading (sine random : Q) : Q :=
  8388607 + sine * 2000000 + (random - (1 # 2)) * 100000.

Definition standalone_simulationTick (c : Standalone.State)
  (sine random now : Q) : Standalone.State :=
  Standalone.set_brakeData c
    (updateBrakeData (Standalone.brakeData c)
       (standalone_simulatedReading sine random) now).

(** [POST /test] of routes/brakeRoute.js *)
Definition test_route (c : State) (req : request) (now : Q)
  : State * reply :=
  if isArduinoConnected c then
    (c, Refused 400
          "Las pruebas manuales no están disponibles con Arduino conectado. Use los controles físicos.")
  else
    match prop req "force" with
    | Num force =>
      if ltb force 0 || ltb 50 force then
        (c, Refused 400 "force debe ser un número entre 0 y 50 kg")
      else
        let simulatedReading := 8388607 + force * 1000000 in
        let '(c', updatedData) := updateInternalData c simulatedReading now in
        (c', TestApplied force simulatedReading updatedData)
    | _ => (c, Refused 400 "force debe ser un número entre 0 y 50 kg")
    end.

(** A line arriving on the serial parser, display included: the
    connection parses it, draws, and calls the registered callback
    unless the drawing threw. *)
Definition on_serial_line_displaying (c : State) (data : string)
  (now : Q) (clock : Z) (now1 now2 : Q) : State :=
  let '(a, effs) := Display.on_data_displaying (arduino c) data now clock in
  deliver (set_arduino c a) effs now1 now2.

(** The controller together with the reconnection timers of its
    connection. *)
Record System : Type := mkSystem {
  controller : State;
  retries : nat
}.

Definition runtime_of (s : System) : Serial.Runtime :=
  {| Serial.conn := arduino (controller s);
     Serial.pendingRetries := retries s |}.

Definition with_runtime (s : System) (r : Serial.Runtime) : System :=
  {| controller := set_arduino (controller s) (Serial.conn r);
     retries := Serial.pendingRetries r |}.

Definition with_controller (s : System) (c : State) : System :=
  {| controller := c; retries := retries s |}.

(** [POST /disconnect] of routes/brakeRoute.js *)
Definition disconnect_route (s : System)
  : System * reply * list Serial.effect :=
  if Display.isPortConnected (arduino (controller s)) then
    let '(r, effs) := Serial.disconnect (runtime_of s) in
    let s1 := with_runtime s r in
    let c2 := set_isArduinoConnected (controller s1) false in
    let '(c3, _) := startSimulation c2 false in
    (with_controller s1 c3, Disconnected, effs)
  else
    (s, NoActiveConnection (isSimulating (controller s)), []).

(** [POST /connect] of routes/brakeRoute.js from the point where the
    old connection, if any, has been closed and waited for: stop the
    simulation, connect to the given port, record the outcome.
    [port] is the (non-empty) path of the body; [throws] tells whether
    the [SerialPort] constructor rejects the options. *)
Definition connect_route_finish (s : System) (port : string) (throws : bool)
  : System * reply * list Serial.effect :=
  let c1 :=
    if isSimulating (controller s)
    then set_simulation (controller s) false false
    else controller s in
  let s1 := with_controller s c1 in
  let env := {| Serial.prompt := Serial.NoPort;
                Serial.discovered := [];
                Serial.ctor_throws := throws |} in
  let '(r, connected, effs) :=
    Serial.connect (runtime_of s1) (Some port) false env in
  let s2 := with_runtime s1 r in
  let s3 := with_controller s2
              (set_isArduinoConnected (controller s2) connected) in
  (s3, if connected then ConnectedTo port else ConnectFailed port, effs).

(** [connect()] as the reconnection timer and [connectInteractive]
    call it, from the point where the prompt has been answered: the
    [isConnected] guard was passed before the prompt opened. *)
Definition connect_after_prompt (r : Serial.Runtime) (env : Serial.Env)
  : Serial.Runtime * bool * list Serial.effect :=
  match Serial.targetPort None true env with
  | None => (r, false, [])
  | Some target =>
    if Serial.ctor_throws env then
      let '(r', effs) :=
        Serial.attemptReconnection
          (Serial.with_conn r (Serial.set_isConnected (Serial.conn r) false)) in
      (r', false, effs)
    else
      (Serial.with_conn r
         (Serial.set_port (Serial.conn r) (Some (Serial.mkPort target false))),
       true, [Serial.OpenPort target])
  end.

(** [connectToArduino] from the point where the prompt of
    [connectInteractive] has been answered. *)
Definition connectToArduino_resume (s : System) (env : Serial.Env)
  : System * list Serial.effect :=
  let '(r, connected, effs) := connect_after_prompt (runtime_of s) env in
  let s1 := with_runtime s r in
  let c2 := set_isArduinoConnected (controller s1) connected in
  let c3 := if connected then c2 else fst (startSimulation c2 false) in
  (with_controller s1 c3, effs).

(** A serial event reaching the controller's connection; a parsed line
    goes on to [processArduinoData]. *)
Definition serial_event (s : System) (e : Serial.event) (now1 now2 : Q)
  : System :=
  let '(r, effs) := Serial.step (runtime_of s) e in
  let s1 := with_runtime s r in
  with_controller s1 (deliver (controller s1) effs now1 now2).

End Mode.

(* ===================================================================== *)
(** * services/serialConnection.js: reconnection, prompt by prompt *)
(* ===================================================================== *)

(** [connect()] does not run in one turn when it has to ask for the
    port: it tests [isConnected], awaits [selectPortInteractively], and
    goes on when that resolves, without testing [isConnected] again.
    Here the two halves are separate turns.  [suspended] counts the
    [connect()] calls of reconnection timers that wait at the prompt;
    the events are those of the port object [this.port] names. *)

Module Prompted.
Import Serial.

Record Waiting : Type := mkWaiting {
  runtime : Runtime;
  suspended : nat
}.

Inductive turn : Type :=
| TimerFires
| Answered (env : Env)
| Opened
| Errored
| Closed
| LineArrives (data : string) (now : Q) (clock : Z)
| Disconnects.

(** The callback of a reconnection timer, up to the prompt: one
    pending timer is consumed; [connect()] returns at once on a
    connection marked connected and waits at the prompt otherwise. *)
Definition timer_fires (w : Waiting) : Waiting :=
  match pendingRetries (runtime w) with
  | O => w
  | S n =>
    let r := {| conn := conn (runtime w); pendingRetries := n |} in
    if isConnected (conn (runtime w))
    then {| runtime := r; suspended := suspended w |}
    else {| runtime := r; suspended := S (suspended w) |}
  end.

(** A prompt resolves and the suspended [connect()] goes on. *)
Definition answered (w : Waiting) (env : Env) : Waiting * list effect :=
  match suspended w with
  | O => (w, [])
  | S k =>
    let '(r, _, effs) := Mode.connect_after_prompt (runtime w) env in
    ({| runtime := r; suspended := k |}, effs)
  end.

Definition lift (w : Waiting) (x : Runtime * list effect)
  : Waiting * list effect :=
  ({| runtime := fst x; suspended := suspended w |}, snd x).

Definition turn_step (w : Waiting) (t : turn) : Waiting * list effect :=
  match t with
  | TimerFires => (timer_fires w, [])
  | Answered env => answered w env
  | Opened => lift w (step (runtime w) PortOpened)
  | Errored => lift w (step (runtime w) PortError)
  | Closed => lift w (step (runtime w) PortClosed)
  | LineArrives data now clock =>
    let '(a, effs) := Display.on_data_displaying (conn (runtime w)) data
                        now clock in
    ({| runtime := with_conn (runtime w) a; suspended := suspended w |}, effs)
  | Disconnects => lift w (disconnect (runtime w))
  end.

Fixpoint turns (w : Waiting) (ts : list turn) : Waiting * list effect :=
  match ts with
  | [] => (w, [])
  | t :: ts' =>
    let '(w1, effs1) := turn_step w t in
    let '(w2, effs2) := turns w1 ts' in
    (w2, (effs1 ++ effs2)%list)
  end.

(** The connection of [Scenario.live], nothing suspended. *)
Definition live : Waiting :=
  {| runtime := Scenario.live; suspended := 0 |}.

End Prompted.

(* ===================================================================== *)
(** * Vocabulary of the statements on lines, sources and schemas *)
(* ===================================================================== *)

Module Shapes.
Import JS BrakeModel.

(** Every character of [s] satisfies [p]. *)
Definition all_chars (p : ascii -> bool) (s : string) : Prop :=
  forall c, In c (list_ascii_of_string s) -> p c = true.

(** A non-empty run of decimal digits. *)
Definition digits (s : string) : Prop :=
  s <> EmptyString /\
  forall c, In c (list_ascii_of_string s) -> Regex.is_digit c = true.

(** A run of at most 15 decimal digits: a number every double holds
    exactly. *)
Definition numeral (s : string) : Prop :=
  digits s /\ (String.length s <= 15)%nat.

(** One of the four status words. *)
Definition status_word (s : string) : Prop :=
  s = "ACELERANDO" \/ s = "FRENANDO" \/ s = "EMBRAGUE" \/ s = "LIBERADOS".

(** The text of one channel: [<label> <value>/1023 (<percentage>%)]. *)
Definition channel (label v p : string) : string :=
  label ++ " " ++ v ++ "/1023 (" ++ p ++ "%)".

(** A line as the Arduino sketch prints it. *)
Definition pedal_line (tv tp bv bp cv cp st : string) : string :=
  channel "Acel:" tv tp ++ " | " ++ channel "Freno:" bv bp ++ " | " ++
  channel "Clutch:" cv cp ++ " | " ++ st.

(** The configuration bounds of [brakeSchema]. *)
Definition config_in_schema (d : BrakeData) : Prop :=
  (1 # 10) <= maxForce d /\ maxForce d <= 50 /\ 0 <= deadZone d.

(** The bounds [brakeSchema] puts on a snapshot. *)
Definition in_schema (d : BrakeData) : Prop :=
  (0 <= value d /\ value d <= 1023) /\
  (0 <= percentage d /\ percentage d <= 100) /\
  0 <= force d /\
  ((1 # 10) <= maxForce d /\ maxForce d <= 50) /\
  0 <= deadZone d.

(** The two sources are not both switched on, and the simulation flag
    tells whether the interval is held. *)
Definition one_source (c : Controller.State) : Prop :=
  Controller.isSimulating c = Controller.simulationInterval c /\
  (Controller.isSimulating c = true ->
   Controller.isArduinoConnected c = false).

(** The flags an operation on the snapshot leaves alone. *)
Definition same_flags (c c' : Controller.State) : Prop :=
  Controller.isSimulating c' = Controller.isSimulating c /\
  Controller.simulationInterval c' = Controller.simulationInterval c /\
  Controller.isArduinoConnected c' = Controller.isArduinoConnected c.

(** The requests that reach the controller, each an atomic turn of the
    event loop.  [POST /connect] is two turns when a port is connected:
    the disconnect of the connection ([SerialEvent Disconnect]) and,
    after the wait, [ConnectRoute]. *)
Inductive request_kind : Type :=
| StartSimulation (res : bool)
| StopSimulation
| Tick (sine random now : Q)
| Update (req : Http.request) (now : Q)
| Configure (req : Http.request) (now : Q)
| Reset (now : Q)
| Test (req : Http.request) (now : Q)
| DisconnectRoute
| ConnectRoute (port : string) (throws : bool)
| SerialEvent (e : Serial.event) (now1 now2 : Q).

Definition handle (s : Mode.System) (k : request_kind) : Mode.System :=
  let c := Mode.controller s in
  match k with
  | StartSimulation res =>
      Mode.with_controller s (fst (Mode.startSimulation c res))
  | StopSimulation => Mode.with_controller s (fst (Mode.stopSimulation c))
  | Tick sine random now =>
      if Controller.simulationInterval c
      then Mode.with_controller s (Mode.simulationTick c sine random now)
      else s
  | Update req now =>
      Mode.with_controller s (fst (Controller.updateBrake c req now))
  | Configure req now =>
      Mode.with_controller s (fst (Controller.configureBrake c req now))
  | Reset now => Mode.with_controller s (fst (Controller.resetBrake c now))
  | Test req now => Mode.with_controller s (fst (Mode.test_route c req now))
  | DisconnectRoute => fst (fst (Mode.disconnect_route s))
  | ConnectRoute port throws =>
      fst (fst (Mode.connect_route_finish s port throws))
  | SerialEvent e now1 now2 => Mode.serial_event s e now1 now2
  end.

Definition handle_all (s : Mode.System) (ks : list request_kind)
  : Mode.System :=
  fold_left handle ks s.

(** How many timers a list of effects sets. *)
Definition timeouts (effs : list Serial.effect) : nat :=
  length (List.filter (fun e => match e with
                           | Serial.SetTimeout3000 => true
                           | _ => false
                           end) effs).

(** Whether a list of events contains a successful open. *)
Definition has_open (es : list Serial.event) : bool :=
  existsb (fun e => match e with Serial.PortOpened => true | _ => false end)
    es.

End Shapes.

(* ===================================================================== *)
(** * Properties of the numeric primitives *)
(* ===================================================================== *)

Module NumericFacts.
Import JS.

Lemma ltb_true (a b : Q) : ltb a b = true <-> a < b.
Proof.
  unfold ltb. rewrite Bool.negb_true_iff.
  split; intro H.
  - apply Qnot_le_lt. intro Hle.
    apply Qle_bool_iff in Hle. congruence.
  - destruct (Qle_bool b a) eqn:E; [|reflexivity].
    apply Qle_bool_iff in E. exfalso. apply (Qlt_not_le _ _ H E).
Qed.

Lemma ltb_false (a b : Q) : ltb a b = false <-> b <= a.
Proof.
  unfold ltb. rewrite Bool.negb_false_iff. apply Qle_bool_iff.
Qed.

Lemma Math_min_cases (a b : Q) :
  (a <= b /\ Math_min a b = a) \/ (b < a /\ Math_min a b = b).
Proof.
  unfold Math_min. destruct (Qle_bool a b) eqn:E.
  - left. split; [now apply Qle_bool_iff | reflexivity].
  - right. split; [|reflexivity].
    apply Qnot_le_lt. intro H. apply Qle_bool_iff in H. congruence.
Qed.

Lemma Math_round_bounds (n : Z) (x : Q) :
  0 <= x -> x <= inject_Z n ->
  0 <= Math_round x /\ Math_round x <= inject_Z n.
Proof.
  intros H0 Hn. unfold Math_round. split.
  - change 0 with (inject_Z 0). rewrite <- Zle_Qle.
    change 0%Z with (Qfloor (1 # 2)).
    apply Qfloor_resp_le. lra.
  - rewrite <- Zle_Qle.
    assert (Hf := Qfloor_le (x + (1 # 2))).
    assert (Hlt : inject_Z (Qfloor (x + (1 # 2))) < inject_Z (n + 1)).
    { rewrite inject_Z_plus. change (inject_Z 1) with 1. lra. }
    rewrite <- Zlt_Qlt in Hlt. lia.
Qed.

End NumericFacts.

(* ===================================================================== *)
(** * The calibration step *)
(* ===================================================================== *)

Module Calibration.
Import JS BrakeModel NumericFacts Scenario.

(** Split on which argument [Math.min] returned. *)
Ltac case_min a b :=
  let H := fresh "Hmin" in
  destruct (Math_min_cases a b) as [[H ->]|[H ->]].

Lemma magnitude_nonneg (r : Q) : 0 <= magnitude r.
Proof. apply Qabs_nonneg. Qed.

Section Snapshot.

Variable d : BrakeData.
Variables r now : Q.

Local Abbreviation s := (updateBrakeData d r now).

(** The configuration goes through untouched. *)
Lemma updateBrakeData_keeps_config :
  maxForce s = maxForce d /\ deadZone s = deadZone d /\
  rawReading s = r /\ timestamp s = now /\ sensorType s = sensorType d.
Proof.
  unfold updateBrakeData.
  destruct (ltb (Math_abs (r / 1000000)) (deadZone d)); cbn; auto.
Qed.

(** The computed fields, one equation each. *)
Lemma force_eq :
  force s =
  Math_min (if ltb (magnitude r) (deadZone d) then 0
            else magnitude r - deadZone d) (maxForce d).
Proof.
  unfold updateBrakeData, magnitude.
  destruct (ltb (Math_abs (r / 1000000)) (deadZone d)); reflexivity.
Qed.

Lemma active_eq : active s = negb (ltb (magnitude r) (deadZone d)).
Proof.
  unfold updateBrakeData, magnitude.
  destruct (ltb (Math_abs (r / 1000000)) (deadZone d)); reflexivity.
Qed.

Lemma value_eq :
  value s =
  if ltb 0 (force s) then Math_round ((force s / maxForce d) * 1023) else 0.
Proof.
  unfold updateBrakeData.
  destruct (ltb (Math_abs (r / 1000000)) (deadZone d)); reflexivity.
Qed.

Lemma percentage_eq : percentage s = Math_round ((value s / 1023) * 100).
Proof.
  unfold updateBrakeData.
  destruct (ltb (Math_abs (r / 1000000)) (deadZone d)); reflexivity.
Qed.

(** A positive force makes the snapshot active, whatever the
    configuration. *)
Lemma positive_force_active : 0 < force s -> active s = true.
Proof.
  rewrite force_eq, active_eq.
  destruct (ltb (magnitude r) (deadZone d)); [|reflexivity].
  case_min 0 (maxForce d); lra.
Qed.

Section Ranges.

Hypothesis maxForce_pos : 0 < maxForce d.
Hypothesis deadZone_nonneg : 0 <= deadZone d.

Lemma force_range : 0 <= force s /\ force s <= maxForce d.
Proof.
  rewrite force_eq.
  destruct (ltb (magnitude r) (deadZone d)) eqn:E.
  - case_min 0 (maxForce d); lra.
  - apply ltb_false in E.
    case_min (magnitude r - deadZone d) (maxForce d); lra.
Qed.

Lemma value_range : 0 <= value s /\ value s <= 1023.
Proof.
  rewrite value_eq.
  destruct force_range as [Hlo Hhi].
  destruct (ltb 0 (force s)) eqn:E; [|lra].
  apply ltb_true in E.
  apply (Math_round_bounds 1023).
  - apply Qmult_le_0_compat; [|discriminate].
    apply Qle_shift_div_l; lra.
  - assert (Hq : force s / maxForce d <= 1)
      by (apply Qle_shift_div_r; lra).
    change (inject_Z 1023) with 1023. lra.
Qed.

Lemma percentage_range : 0 <= percentage s /\ percentage s <= 100.
Proof.
  rewrite percentage_eq.
  destruct value_range as [Hlo Hhi].
  assert (E : value s / 1023 == value s * (1 # 1023)) by reflexivity.
  apply (Math_round_bounds 100); rewrite E;
    change (inject_Z 100) with 100; lra.
Qed.

(** A reading that clears the dead zone by [maxForce] or more
    saturates, also when the dead zone is wider than [maxForce]. *)
Lemma saturation :
  deadZone d + maxForce d <= magnitude r ->
  force s == maxForce d /\ value s == 1023 /\ percentage s == 100.
Proof.
  intro Hbig.
  assert (Hf : force s == maxForce d).
  { rewrite force_eq.
    destruct (ltb (magnitude r) (deadZone d)) eqn:E.
    - apply ltb_true in E. lra.
    - case_min (magnitude r - deadZone d) (maxForce d); lra. }
  assert (Hv : value s == 1023).
  { rewrite value_eq.
    destruct (ltb 0 (force s)) eqn:E.
    - unfold Math_round.
      assert (Hq : force s / maxForce d * 1023 + (1 # 2) == 2047 # 2).
      { rewrite Hf. field. lra. }
      rewrite Hq. reflexivity.
    - apply ltb_false in E. lra. }
  split; [exact Hf|]. split; [exact Hv|].
  rewrite percentage_eq. unfold Math_round.
  assert (Hp : value s / 1023 * 100 + (1 # 2) == 201 # 2)
    by (rewrite Hv; reflexivity).
  rewrite Hp. reflexivity.
Qed.

End Ranges.
End Snapshot.

End Calibration.

Module CalibrationClaims.
Import JS BrakeModel NumericFacts Scenario Calibration.

(** Worked readings on the default configuration. *)

Example magnitude_3 :
  let s := updateBrakeData defaults 3000000 7 in
  force s == 2 /\ value s == 409 /\ percentage s == 40 /\ active s = true.
Proof. vm_compute. repeat split; reflexivity. Qed.

Example magnitude_half :
  let s := updateBrakeData defaults 500000 7 in
  force s == 0 /\ value s == 0 /\ percentage s == 0 /\ active s = false.
Proof. vm_compute. repeat split; reflexivity. Qed.

Example magnitude_100 :
  let s := updateBrakeData defaults 100000000 7 in
  force s == 5 /\ value s == 1023 /\ percentage s == 100 /\ active s = true.
Proof. vm_compute. repeat split; reflexivity. Qed.

Example negative_reading :
  let s := updateBrakeData defaults (-3000000) 7 in
  force s == 2 /\ value s == 409 /\ active s = true.
Proof. vm_compute. repeat split; reflexivity. Qed.

(** C1.  For every reading and every configuration with
    [maxForce > 0] and [deadZone >= 0], the snapshot produced by
    [updateBrakeData] has [force] in [[0, maxForce]], [value] in
    [[0, 1023]] and [percentage] in [[0, 100]]. *)
Theorem updateBrakeData_ranges (d : BrakeData) (rawReading now : Q) :
  0 < maxForce d -> 0 <= deadZone d ->
  let s := updateBrakeData d rawReading now in
  (0 <= force s /\ force s <= maxForce s) /\
  (0 <= value s /\ value s <= 1023) /\
  (0 <= percentage s /\ percentage s <= 100).
Proof.
  intros Hm Hd s. subst s.
  destruct (updateBrakeData_keeps_config d rawReading now) as [-> _].
  split; [|split].
  - now apply force_range.
  - now apply value_range.
  - now apply percentage_range.
Qed.

Lemma updateBrakeData_ranges_witness :
  0 < maxForce defaults /\ 0 <= deadZone defaults /\
  let s := updateBrakeData defaults 3000000 7 in
  (0 <= force s /\ force s <= maxForce s) /\
  (0 <= value s /\ value s <= 1023) /\
  (0 <= percentage s /\ percentage s <= 100).
Proof.
  split; [reflexivity|]. split; [discriminate|].
  apply (updateBrakeData_ranges defaults 3000000 7);
    [reflexivity | discriminate].
Defined.

(** C2 fails as stated: on the default configuration a reading whose
    magnitude equals the dead zone is active with zero force. *)
Lemma active_with_zero_force :
  let s := updateBrakeData defaults 1000000 7 in
  active s = true /\ force s == 0 /\
  ~ (active s = true <-> 0 < force s).
Proof.
  vm_compute. split; [reflexivity|]. split; [reflexivity|].
  intros [H _]. specialize (H eq_refl). discriminate H.
Qed.

(** C2, amended.  With [maxForce > 0], [active] is true exactly when
    the magnitude of the reading is at least the dead zone, that is:
    when [force > 0], or when the magnitude equals the dead zone (and
    then [force] is zero). *)
Theorem active_iff_force_or_boundary (d : BrakeData) (rawReading now : Q) :
  0 < maxForce d ->
  let s := updateBrakeData d rawReading now in
  (active s = true <-> deadZone d <= magnitude rawReading) /\
  (active s = true <->
   0 < force s \/ (magnitude rawReading == deadZone d /\ force s == 0)).
Proof.
  intros Hm s. subst s. rewrite active_eq, force_eq.
  destruct (ltb (magnitude rawReading) (deadZone d)) eqn:E; cbn [negb].
  - apply ltb_true in E. split.
    + split; [discriminate | intro H; lra].
    + split; [discriminate|].
      destruct (Math_min_cases 0 (maxForce d)) as [[H ->]|[H ->]];
        intros [H1 | [H1 _]]; lra.
  - apply ltb_false in E. split.
    + split; auto.
    + split; [intros _ | reflexivity].
      destruct (Qlt_le_dec (deadZone d) (magnitude rawReading)) as [Hgt|Hle].
      * left.
        destruct (Math_min_cases (magnitude rawReading - deadZone d)
                    (maxForce d)) as [[H ->]|[H ->]]; lra.
      * right.
        assert (Heq : magnitude rawReading == deadZone d)
          by (apply Qle_antisym; assumption).
        split; [exact Heq|].
        destruct (Math_min_cases (magnitude rawReading - deadZone d)
                    (maxForce d)) as [[H ->]|[H ->]]; lra.
Qed.

Lemma active_iff_force_or_boundary_witness :
  0 < maxForce defaults /\
  let s := updateBrakeData defaults 1000000 7 in
  (active s = true <-> deadZone defaults <= magnitude 1000000) /\
  (active s = true <->
   0 < force s \/ (magnitude 1000000 == deadZone defaults /\ force s == 0)).
Proof.
  split; [reflexivity|].
  apply (active_iff_force_or_boundary defaults 1000000 7). reflexivity.
Defined.

(** C5 fails as stated: with [deadZone = maxForce = 5] a reading of
    magnitude 20 normalizes to 1023, not to zero. *)
Lemma violated_invariant_nonzero_value :
  let d := wide_dead_zone in
  let s := updateBrakeData d 20000000 7 in
  maxForce d <= deadZone d /\ value s == 1023 /\ ~ value s == 0.
Proof.
  vm_compute. split; [discriminate|]. split; [reflexivity|]. discriminate.
Qed.

(** Whatever the configuration, a reading that does not exceed the
    dead zone is swallowed: the force is the clamp of zero and the
    normalized value and the percentage are zero. *)
Lemma dead_zone_alone (d : BrakeData) (rawReading now : Q) :
  magnitude rawReading <= deadZone d ->
  let s := updateBrakeData d rawReading now in
  force s == Math_min 0 (maxForce d) /\ value s == 0 /\ percentage s == 0.
Proof.
  intros Hmag s.
  assert (Hf : force s == Math_min 0 (maxForce d)).
  { subst s. rewrite force_eq.
    destruct (ltb (magnitude rawReading) (deadZone d)) eqn:E;
      [reflexivity|].
    apply ltb_false in E.
    destruct (Math_min_cases (magnitude rawReading - deadZone d)
                (maxForce d)) as [[H ->]|[H ->]];
      destruct (Math_min_cases 0 (maxForce d)) as [[H' ->]|[H' ->]]; lra. }
  assert (Hv : value s = 0).
  { subst s. rewrite value_eq. cbv zeta.
    destruct (ltb 0 (force (updateBrakeData d rawReading now))) eqn:E;
      [|reflexivity].
    apply ltb_true in E. rewrite Hf in E.
    destruct (Math_min_cases 0 (maxForce d)) as [[H E']|[H E']];
      rewrite E' in E; lra. }
  split; [exact Hf|]. split; [rewrite Hv; reflexivity|].
  subst s. rewrite percentage_eq, Hv. reflexivity.
Qed.

Lemma Math_round_zero (x : Q) : 0 <= x -> (Math_round x == 0 <-> x < 1 # 2).
Proof.
  intro Hx. unfold Math_round.
  assert (Hlo := Qfloor_le (x + (1 # 2))).
  assert (Hhi := Qlt_floor (x + (1 # 2))).
  rewrite inject_Z_plus in Hhi. change (inject_Z 1) with 1 in Hhi.
  assert (H0 : (0 <= Qfloor (x + (1 # 2)))%Z).
  { change 0%Z with (Qfloor (1 # 2)). apply Qfloor_resp_le. lra. }
  set (n := Qfloor (x + (1 # 2))) in *. clearbody n.
  split; intro H.
  - lra.
  - assert (Hn : inject_Z n < inject_Z 1)
      by (change (inject_Z 1) with 1; lra).
    rewrite <- Zlt_Qlt in Hn.
    assert (En : n = 0%Z) by lia.
    rewrite En. reflexivity.
Qed.

(** The share of [maxForce] below which the joystick value rounds to
    zero. *)
Lemma value_rounds_to_zero (f m : Q) :
  0 < m -> 0 <= f ->
  (Math_round (f / m * 1023) == 0 <-> f < m / 2046).
Proof.
  intros Hm Hf.
  assert (Hq : 0 <= f / m) by (apply Qle_shift_div_l; lra).
  assert (Em : (f / m) * m == f) by (field; lra).
  assert (E : m / 2046 == m * (1 # 2046)) by reflexivity.
  rewrite Math_round_zero by lra.
  set (q := f / m) in *. clearbody q.
  split; intro H.
  - assert (H1 : q < 1 # 2046) by lra.
    assert (H2 : q * m < (1 # 2046) * m)
      by (apply Qmult_lt_compat_r; assumption).
    lra.
  - assert (H1 : q < 1 # 2046).
    { apply Qnot_le_lt. intro Hle.
      assert (H2 : (1 # 2046) * m <= q * m)
        by (apply Qmult_le_compat_r; lra).
      lra. }
    lra.
Qed.

(** C5, amended.  A wide dead zone does not bring every reading to
    zero.  Whatever the configuration, [value] is zero exactly when
    [maxForce <= 0] or the magnitude of the reading is below
    [deadZone + maxForce / 2046]; and a reading whose magnitude is at
    most [deadZone] gives [force = min(0, maxForce)], [value = 0] and
    [percentage = 0].  With [deadZone >= maxForce] this band covers the
    nominal range [[0, maxForce]] and more, and no reading beyond it. *)
Theorem normalizes_to_zero_iff (d : BrakeData) (rawReading now : Q) :
  let s := updateBrakeData d rawReading now in
  (value s == 0 <->
   maxForce d <= 0 \/
   magnitude rawReading < deadZone d + maxForce d / 2046) /\
  (magnitude rawReading <= deadZone d ->
   force s == Math_min 0 (maxForce d) /\ value s == 0 /\ percentage s == 0).
Proof.
  intro s. split; [|intro H; now apply dead_zone_alone].
  assert (E : maxForce d / 2046 == maxForce d * (1 # 2046)) by reflexivity.
  subst s. rewrite value_eq.
  pose proof (force_eq d rawReading now) as Hf.
  destruct (ltb 0 (force (updateBrakeData d rawReading now))) eqn:Epos.
  - apply ltb_true in Epos.
    set (f := force (updateBrakeData d rawReading now)) in *. clearbody f.
    assert (Hm : 0 < maxForce d).
    { assert (Hle : f <= maxForce d); [|lra].
      rewrite Hf.
      match goal with
      | |- Math_min ?a ?b <= _ =>
          destruct (Math_min_cases a b) as [[H1 ->]|[H1 ->]]; lra
      end. }
    rewrite (value_rounds_to_zero f (maxForce d) Hm) by lra.
    destruct (ltb (magnitude rawReading) (deadZone d)) eqn:Edz.
    + destruct (Math_min_cases 0 (maxForce d)) as [[H1 H2]|[H1 H2]];
        rewrite H2 in Hf; subst f; lra.
    + apply ltb_false in Edz.
      destruct (Math_min_cases (magnitude rawReading - deadZone d)
                  (maxForce d)) as [[H1 H2]|[H1 H2]];
        rewrite H2 in Hf; subst f.
      * split; [intro H; right; lra | intros [H|H]; lra].
      * split; [intro H; lra | intros [H|H]; lra].
  - apply ltb_false in Epos.
    set (f := force (updateBrakeData d rawReading now)) in *. clearbody f.
    split; [intros _ | reflexivity].
    destruct (Qlt_le_dec 0 (maxForce d)) as [Hm|Hm]; [right | now left].
    destruct (ltb (magnitude rawReading) (deadZone d)) eqn:Edz.
    + apply ltb_true in Edz. lra.
    + apply ltb_false in Edz.
      destruct (Math_min_cases (magnitude rawReading - deadZone d)
                  (maxForce d)) as [[H1 H2]|[H1 H2]];
        rewrite H2 in Hf; subst f; lra.
Qed.

(** With [deadZone = 8] over [maxForce = 5], a reading of magnitude 7
    lies beyond the nominal range and is swallowed all the same. *)
Example wide_dead_zone_swallows :
  let d := Controller.set_deadZone defaults 8 in
  let s := updateBrakeData d 7000000 7 in
  maxForce d <= deadZone d /\ maxForce d < magnitude 7000000 /\
  force s == 0 /\ value s == 0 /\ percentage s == 0.
Proof. vm_compute. repeat split; discriminate. Qed.

End CalibrationClaims.

(* ===================================================================== *)
(** * The telemetry projection *)
(* ===================================================================== *)

Module Projection.
Import JS BrakeModel NumericFacts.

Lemma toFixed2_close (x : Q) : Qabs (toFixed2 x - x) <= 1 # 200.
Proof.
  unfold toFixed2.
  destruct (Qle_bool (inject_Z (10 ^ 21)) (Qabs x)).
  - apply Qabs_Qle_condition. split; lra.
  - cbv zeta.
    set (n := Qfloor (Qabs x * 100 + (1 # 2))).
    assert (Hlo := Qfloor_le (Qabs x * 100 + (1 # 2))).
    assert (Hhi := Qlt_floor (Qabs x * 100 + (1 # 2))).
    fold n in Hlo, Hhi.
    rewrite inject_Z_plus in Hhi. change (inject_Z 1) with 1 in Hhi.
    assert (E : inject_Z n / 100 == inject_Z n * (1 # 100)) by reflexivity.
    apply Qabs_Qle_condition.
    destruct (ltb x 0) eqn:S.
    + apply ltb_true in S.
      assert (Ha : Qabs x == - x) by (apply Qabs_neg; lra).
      rewrite Ha in Hlo, Hhi. split; lra.
    + apply ltb_false in S.
      assert (Ha : Qabs x == x) by (apply Qabs_pos; assumption).
      rewrite Ha in Hlo, Hhi. split; lra.
Qed.

Lemma toFixed2_two_decimals (x : Q) :
  double_like x -> exists n : Z, toFixed2 x == inject_Z n / 100.
Proof.
  intro Hd. unfold toFixed2.
  destruct (Qle_bool (inject_Z (10 ^ 21)) (Qabs x)) eqn:B.
  - apply Qle_bool_iff in B.
    destruct Hd as [n Hn].
    { apply Qle_trans with (inject_Z (10 ^ 21)); [|exact B].
      rewrite <- Zle_Qle. vm_compute. discriminate. }
    exists (n * 100)%Z. rewrite Hn, inject_Z_mult.
    change (inject_Z 100) with 100. field.
  - cbv zeta. set (n := Qfloor (Qabs x * 100 + (1 # 2))).
    destruct (ltb x 0).
    + exists (- n)%Z. rewrite inject_Z_opp. field.
    + exists n. reflexivity.
Qed.

Example toFixed2_pressed : toFixed2 (force Scenario.pressed) == 246 # 100.
Proof. vm_compute. reflexivity. Qed.

Example toFixed2_negative : toFixed2 (- (5 # 1000)) == - (1 # 100).
Proof. vm_compute. reflexivity. Qed.

(** Every path that serves a snapshot goes through the projection. *)
Lemma served_through_projection (c : Controller.State) (now r : Q) :
  Controller.poll c = getBrakeTelemetryData (Controller.brakeData c) /\
  Controller.stream_push c = getBrakeTelemetryData (Controller.brakeData c) /\
  Controller.getCurrentData c =
    getBrakeTelemetryData (Controller.brakeData c) /\
  (let '(c', resp) := Controller.resetBrake c now in
   Http.body resp =
     Http.ResetDone (getBrakeTelemetryData (Controller.brakeData c'))) /\
  (Controller.isArduinoConnected c = false ->
   let '(c', resp) :=
     Controller.updateBrake c {[ "rawReading" := Num r ]} now in
   exists v,
     Http.body resp =
       Http.Updated "Datos del freno actualizados manualmente"
         (getBrakeTelemetryData (Controller.brakeData c')) v).
Proof.
  repeat split.
  unfold Controller.updateBrake, prop. intros ->.
  rewrite lookup_singleton_eq. cbn. eexists. reflexivity.
Qed.

(** C10.  The telemetry projection rounds [force] to two decimal
    places (it is a whole number of hundredths, within half a
    hundredth of the stored force), passes [value], [percentage],
    [active] and [timestamp] through unchanged, and does not depend on
    the configuration fields [maxForce] and [deadZone]. *)
Theorem telemetry_projection (d : BrakeData) :
  double_like (force d) ->
  let t := getBrakeTelemetryData d in
  (exists n : Z, t_force t == inject_Z n / 100) /\
  Qabs (t_force t - force d) <= 1 # 200 /\
  t_value t = value d /\
  t_percentage t = percentage d /\
  t_active t = active d /\
  t_timestamp t = timestamp d /\
  (forall m z : Q,
     getBrakeTelemetryData
       (Controller.set_maxForce (Controller.set_deadZone d z) m) = t).
Proof.
  intros Hd t. subst t. cbn.
  split; [now apply toFixed2_two_decimals|].
  split; [apply toFixed2_close|].
  repeat split.
Qed.

Lemma telemetry_projection_witness :
  double_like (force Scenario.pressed) /\
  let t := getBrakeTelemetryData Scenario.pressed in
  (exists n : Z, t_force t == inject_Z n / 100) /\
  Qabs (t_force t - force Scenario.pressed) <= 1 # 200 /\
  t_value t = value Scenario.pressed /\
  t_percentage t = percentage Scenario.pressed /\
  t_active t = active Scenario.pressed /\
  t_timestamp t = timestamp Scenario.pressed /\
  (forall m z : Q,
     getBrakeTelemetryData
       (Controller.set_maxForce
          (Controller.set_deadZone Scenario.pressed z) m) = t).
Proof.
  assert (H : double_like (force Scenario.pressed)).
  { intro H. exfalso. vm_compute in H. apply H. reflexivity. }
  split; [exact H|].
  apply (telemetry_projection Scenario.pressed H).
Defined.

End Projection.

(* ===================================================================== *)
(** * Reset, manual update and configuration *)
(* ===================================================================== *)

Module ControllerClaims.
Import JS BrakeModel Http Scenario NumericFacts.
Import Controller.

(** ** Reset *)

Lemma resetBrake_snapshot (c : State) (now : Q) :
  brakeData (fst (resetBrake c now)) =
  {| value := 0; percentage := 0; force := 0; active := false;
     rawReading := 0;
     maxForce := maxForce (brakeData c); deadZone := deadZone (brakeData c);
     timestamp := now; sensorType := "HX711" |}.
Proof. reflexivity. Qed.

Lemma resets_keep_config (nows : list Q) (c : State) :
  maxForce (brakeData (resets c nows)) = maxForce (brakeData c) /\
  deadZone (brakeData (resets c nows)) = deadZone (brakeData c).
Proof.
  revert c. induction nows as [|now nows IH]; intro c.
  - split; reflexivity.
  - change (resets c (now :: nows)) with (resets (fst (resetBrake c now)) nows).
    destruct (IH (fst (resetBrake c now))) as [-> ->]. split; reflexivity.
Qed.

Lemma resets_snoc (c : State) (nows : list Q) (now : Q) :
  resets c (nows ++ [now])%list = fst (resetBrake (resets c nows) now).
Proof. unfold resets. rewrite fold_left_app. reflexivity. Qed.

(** C6.  Reset is idempotent up to the timestamp: a second reset
    leaves the snapshot of the first ([rawReading], [force], [value],
    [percentage] zero, [active] false), and after any number of resets
    [maxForce] and [deadZone] are those from before the first one. *)
Theorem reset_idempotent (c : State) (now1 now2 : Q) (nows : list Q) :
  let c1 := fst (resetBrake c now1) in
  let c2 := fst (resetBrake c1 now2) in
  untimed (brakeData c2) = untimed (brakeData c1) /\
  untimed (brakeData c1) =
    {| value := 0; percentage := 0; force := 0; active := false;
       rawReading := 0;
       maxForce := maxForce (brakeData c); deadZone := deadZone (brakeData c);
       timestamp := 0; sensorType := "HX711" |} /\
  maxForce (brakeData (resets c nows)) = maxForce (brakeData c) /\
  deadZone (brakeData (resets c nows)) = deadZone (brakeData c) /\
  untimed (brakeData (resets c (nows ++ [now1])%list)) =
    untimed (brakeData c1).
Proof.
  cbv zeta. split; [reflexivity|]. split; [reflexivity|].
  destruct (resets_keep_config nows c) as [Hm Hd].
  split; [exact Hm|]. split; [exact Hd|].
  rewrite resets_snoc, !resetBrake_snapshot.
  unfold untimed, set_timestamp. cbn. rewrite Hm, Hd. reflexivity.
Qed.

(** Apart from the snapshot, a reset touches nothing in the
    controller, and what it answers is the projection of the new
    snapshot. *)
Lemma resetBrake_frame (c : State) (now : Q) :
  let '(c', resp) := resetBrake c now in
  isSimulating c' = isSimulating c /\
  isArduinoConnected c' = isArduinoConnected c /\
  arduino c' = arduino c /\
  resp = ok (ResetDone (getBrakeTelemetryData (brakeData c'))).
Proof. cbn. repeat split. Qed.

(** ** Manual update *)

Lemma updateBrake_not_a_number (c : State) (req : request) (now : Q) :
  is_number (prop req "rawReading") = false ->
  updateBrake c req now = (c, bad_request "rawReading debe ser un número").
Proof.
  unfold updateBrake. destruct (prop req "rawReading"); cbn; congruence.
Qed.

Lemma displayBrakePercentage_brakeData (c : State) (p f : Q) :
  brakeData (displayBrakePercentage c p f) = brakeData c /\
  isArduinoConnected (displayBrakePercentage c p f) = isArduinoConnected c /\
  arduino (displayBrakePercentage c p f) = arduino c /\
  isSimulating (displayBrakePercentage c p f) = isSimulating c.
Proof.
  unfold displayBrakePercentage.
  destruct (ltb _ 2); repeat split.
Qed.

(** C7.  With the Arduino connected a manual update is refused (status
    400, for a numeric reading with the conflict message) and the
    controller state is left as it was; without it a numeric reading is
    accepted and the snapshot is recomputed from it by
    [updateBrakeData]. *)
Theorem manual_update_conflict
  (c : State) (req : request) (rawReading now : Q) :
  let any := updateBrake c req now in
  let numeric := updateBrake c (<[ "rawReading" := Num rawReading ]> req) now in
  if isArduinoConnected c then
    fst any = c /\ statusCode (snd any) = 400%nat /\
    success (snd any) = false /\
    numeric =
      (c, bad_request
            "No se pueden hacer actualizaciones manuales con Arduino conectado")
  else
    brakeData (fst numeric) = updateBrakeData (brakeData c) rawReading now /\
    snd numeric =
      ok (Updated "Datos del freno actualizados manualmente"
            (getBrakeTelemetryData (brakeData (fst numeric)))
            (validateBrakeData (brakeData (fst numeric)))) /\
    isArduinoConnected (fst numeric) = false.
Proof.
  cbv zeta.
  assert (Hnum :
    updateBrake c (<[ "rawReading" := Num rawReading ]> req) now =
    if isArduinoConnected c then
      (c, bad_request
            "No se pueden hacer actualizaciones manuales con Arduino conectado")
    else
      let c1 := set_brakeData c (updateBrakeData (brakeData c) rawReading now) in
      let c2 := displayBrakePercentage c1 (percentage (brakeData c1))
                  (force (brakeData c1)) in
      (c2, ok (Updated "Datos del freno actualizados manualmente"
                 (getBrakeTelemetryData (brakeData c2))
                 (validateBrakeData (brakeData c2))))).
  { unfold updateBrake, prop. rewrite lookup_insert_eq. reflexivity. }
  rewrite Hnum. clear Hnum.
  destruct (isArduinoConnected c) eqn:E.
  - unfold updateBrake. rewrite E.
    destruct (prop req "rawReading"); repeat split.
  - cbv zeta. cbn [fst snd].
    match goal with
    | |- context [displayBrakePercentage ?c1 ?p ?f] =>
        destruct (displayBrakePercentage_brakeData c1 p f) as (-> & -> & _)
    end.
    repeat split. exact E.
Qed.

(** The earlier controller has no connection to conflict with: a
    numeric reading is always accepted. *)
Lemma standalone_update_accepted
  (c : Standalone.State) (req : request) (rawReading now : Q) :
  let '(c', resp) :=
    Standalone.updateBrake c (<[ "rawReading" := Num rawReading ]> req) now in
  Standalone.brakeData c' =
    updateBrakeData (Standalone.brakeData c) rawReading now /\
  success resp = true.
Proof.
  unfold Standalone.updateBrake, prop. rewrite lookup_insert_eq.
  split; reflexivity.
Qed.

Example manual_update_on_hardware :
  updateBrake on_hardware (body_reading 3000000) 7 =
  (on_hardware,
   bad_request
     "No se pueden hacer actualizaciones manuales con Arduino conectado").
Proof. vm_compute. reflexivity. Qed.

Example manual_update_in_simulation :
  let '(c', resp) := updateBrake fresh (body_reading 3000000) 7 in
  force (brakeData c') == 2 /\ value (brakeData c') == 409 /\
  statusCode resp = 200%nat.
Proof. vm_compute. repeat split; reflexivity. Qed.

(** ** Configuration *)

(** The validation middleware sits behind a handler that always
    answers, so [PUT /config] is [configureBrake] and nothing else. *)
Lemma configure_is_configureBrake (c : State) (req : request) (now : Q) :
  Routes.configure c req now =
  (fst (configureBrake c req now), Some (snd (configureBrake c req now))).
Proof.
  unfold Routes.configure, Routes.router. cbn.
  unfold Routes.answering.
  destruct (configureBrake c req now). reflexivity.
Qed.

(** Taken alone, the middleware does refuse [maxForce = 60]. *)
Lemma validateConfigParams_rejects_60 (c : State) (now : Q) :
  Routes.validateConfigParams c body_maxForce_60 now =
  (c, Routes.Responded
        (bad_request "maxForce debe ser un número entre 0.1 y 50 kg")).
Proof. reflexivity. Qed.

(** Whatever the middleware lets through, the controller accepts: had
    it run first, no error return of [configureBrake] could be
    reached. *)
Lemma validated_requests_configure (c : State) (req : request) (now : Q) :
  Routes.validateConfigParams c req now = (c, Routes.Next) ->
  success (snd (configureBrake c req now)) = true.
Proof.
  unfold Routes.validateConfigParams, configureBrake,
    configure_maxForce, configure_deadZone.
  destruct (prop req "maxForce") as [| |b|q|s]; cbn; try discriminate.
  - destruct (prop req "deadZone") as [| |b'|q'|s']; cbn; try discriminate.
    + reflexivity.
    + destruct (ltb q' 0); cbn; [discriminate|]. reflexivity.
  - destruct (Qle_bool q 0); cbn; [discriminate|].
    destruct (ltb 50 q); cbn; [discriminate|].
    destruct (prop req "deadZone") as [| |b'|q'|s']; cbn; try discriminate.
    + reflexivity.
    + destruct (ltb q' 0); cbn; [discriminate|]. reflexivity.
Qed.

(** The controller's own check on [maxForce] has no upper bound. *)
Lemma configureBrake_maxForce_unbounded (c : State) (q now : Q) :
  0 < q ->
  maxForce (brakeData (fst (configureBrake c {[ "maxForce" := Num q ]} now)))
  = q /\
  success (snd (configureBrake c {[ "maxForce" := Num q ]} now)) = true.
Proof.
  intro Hq. unfold configureBrake, prop.
  rewrite lookup_singleton_eq, lookup_singleton_ne by discriminate.
  cbn.
  destruct (Qle_bool q 0) eqn:E.
  - apply Qle_bool_iff in E. lra.
  - cbn. split; reflexivity.
Qed.

(** An error return leaves [deadZone] and the timestamp alone, but a
    [maxForce] that passed its own check has been stored by then. *)
Lemma configureBrake_error_state (c : State) (req : request) (now : Q) :
  success (snd (configureBrake c req now)) = false ->
  let d' := brakeData (fst (configureBrake c req now)) in
  deadZone d' = deadZone (brakeData c) /\
  timestamp d' = timestamp (brakeData c) /\
  (maxForce d' = maxForce (brakeData c) \/
   prop req "maxForce" = Num (maxForce d')).
Proof.
  unfold configureBrake, configure_maxForce, configure_deadZone.
  destruct (prop req "maxForce") as [| |b|q|s]; cbn;
    try (intros _; repeat split; left; reflexivity).
  - destruct (prop req "deadZone") as [| |b'|q'|s']; cbn;
      try discriminate;
      try (intros _; repeat split; left; reflexivity).
    destruct (ltb q' 0); cbn; [|discriminate].
    intros _; repeat split; left; reflexivity.
  - destruct (Qle_bool q 0); cbn.
    + intros _; repeat split; left; reflexivity.
    + destruct (prop req "deadZone") as [| |b'|q'|s']; cbn;
        try discriminate;
        try (intros _; repeat split; right; reflexivity).
      destruct (ltb q' 0); cbn; [|discriminate].
      intros _; repeat split; right; reflexivity.
Qed.

(** C3 (the code departs from it).  [PUT /config] with
    [{maxForce: 60}] on a fresh controller is answered with success and
    stores [maxForce = 60]; the only trace of the bound is the failed
    schema validation reported inside the success answer. *)
Theorem configure_accepts_maxForce_60 :
  let '(c', resp) := Routes.configure fresh body_maxForce_60 7 in
  maxForce (brakeData fresh) = 5 /\
  maxForce (brakeData c') = 60 /\
  resp = Some (ok (Configured 60 1
                     {| isValid := false;
                        errors := [AboveMaximum "maxForce"] |})).
Proof. vm_compute. repeat split. Qed.

(** C4 (the code departs from it).  [PUT /config] with
    [{maxForce: 10, deadZone: -1}] on a fresh controller is answered
    with the [deadZone] validation error, and [maxForce] has changed
    from 5 to 10 all the same. *)
Theorem configure_error_after_mutation :
  let '(c', resp) :=
    Routes.configure fresh body_maxForce_10_deadZone_neg 7 in
  resp = Some (bad_request "deadZone debe ser un número no negativo") /\
  maxForce (brakeData fresh) = 5 /\
  maxForce (brakeData c') = 10 /\
  deadZone (brakeData c') = deadZone (brakeData fresh).
Proof. vm_compute. repeat split. Qed.

(** The earlier controller behaves the same on both requests. *)
Example standalone_configure :
  let c := {| Standalone.brakeData := defaults;
              Standalone.isSimulating := false;
              Standalone.simulationInterval := false |} in
  maxForce (Standalone.brakeData
              (fst (Standalone.configureBrake c body_maxForce_60 7))) = 60 /\
  success (snd (Standalone.configureBrake c body_maxForce_60 7)) = true /\
  maxForce (Standalone.brakeData
              (fst (Standalone.configureBrake c
                      body_maxForce_10_deadZone_neg 7))) = 10 /\
  success (snd (Standalone.configureBrake c
                  body_maxForce_10_deadZone_neg 7)) = false.
Proof. vm_compute. repeat split. Qed.

End ControllerClaims.

(* ===================================================================== *)
(** * The serial line parser and the connection life cycle *)
(* ===================================================================== *)

Module SerialClaims.
Import Scenario.
Import Serial.

(** ** Parsing *)

Example sample_line_parses :
  parseArduinoData (Controller.arduino fresh) sample_line 9 =
  let d := {| throttle := mkPedal 0 0 false;
              brake := mkPedal 512 50 true;
              clutch := mkPedal 0 0 false;
              status := "FRENANDO";
              pd_timestamp := 9;
              rawData := Some sample_line |} in
  ({| port := None; isConnected := false; currentData := d;
      dataCallback := true; connectionAttempts := 0; maxRetries := 5 |},
   [DataEvent d]).
Proof. vm_compute. reflexivity. Qed.

Example line_without_status_matches_three :
  throttleMatch line_without_status = Some ("0", "0") /\
  brakeMatch line_without_status = Some ("512", "50") /\
  clutchMatch line_without_status = Some ("0", "0") /\
  statusMatch line_without_status = None.
Proof. vm_compute. repeat split. Qed.

(** The status alternatives are anchored at the end of the line. *)
Example status_not_at_end :
  statusMatch "Acel: 0/1023 (0%) | FRENANDO | Freno: 1/1023 (0%)" = None.
Proof. vm_compute. reflexivity. Qed.

Example on_data_trims :
  fst (on_data (Controller.arduino fresh)
         (sample_line ++ String "013" EmptyString) 9) =
  fst (parseArduinoData (Controller.arduino fresh) sample_line 9).
Proof. vm_compute. reflexivity. Qed.

Lemma parseArduinoData_unmatched (a : Connection) (raw : string) (now : Q) :
  throttleMatch raw = None \/ brakeMatch raw = None \/
  clutchMatch raw = None \/ statusMatch raw = None ->
  parseArduinoData a raw now = (a, []).
Proof.
  unfold parseArduinoData.
  intros [H | [H | [H | H]]]; rewrite H;
    repeat match goal with
           | |- context [match ?m with Some _ => _ | None => _ end] =>
               destruct m
           end; reflexivity.
Qed.

(** C8.  A line on which one of the four patterns fails to match is
    dropped: [parseArduinoData] returns the connection as it was and
    calls no callback, so neither the connection's current data nor the
    controller's snapshot changes. *)
Theorem unmatched_line_discarded
  (c : Controller.State) (data : string) (now now1 now2 : Q) :
  let line := Regex.trim data in
  throttleMatch line = None \/ brakeMatch line = None \/
  clutchMatch line = None \/ statusMatch line = None ->
  parseArduinoData (Controller.arduino c) line now =
    (Controller.arduino c, []) /\
  Controller.on_serial_line c data now now1 now2 = c /\
  forall r : Runtime, step r (Line data now) = (r, []).
Proof.
  intros line H. subst line. split; [|split].
  - now apply parseArduinoData_unmatched.
  - unfold Controller.on_serial_line, on_data.
    rewrite (parseArduinoData_unmatched _ _ now H).
    destruct c; reflexivity.
  - intro r. unfold step, on_data.
    rewrite (parseArduinoData_unmatched _ _ now H).
    destruct r; reflexivity.
Qed.

Lemma unmatched_line_discarded_witness :
  let line := Regex.trim line_without_status in
  (throttleMatch line = None \/ brakeMatch line = None \/
   clutchMatch line = None \/ statusMatch line = None) /\
  parseArduinoData (Controller.arduino fresh) line 9 =
    (Controller.arduino fresh, []) /\
  Controller.on_serial_line fresh line_without_status 9 9 9 = fresh /\
  forall r : Runtime, step r (Line line_without_status 9) = (r, []).
Proof.
  assert (H : let line := Regex.trim line_without_status in
              throttleMatch line = None \/ brakeMatch line = None \/
              clutchMatch line = None \/ statusMatch line = None).
  { right. right. right. vm_compute. reflexivity. }
  split; [exact H|].
  apply (unmatched_line_discarded fresh line_without_status 9 9 9 H).
Defined.

(** ** Disconnecting *)

Lemma disconnect_keeps_pending (r : Runtime) :
  pendingRetries (fst (disconnect r)) = pendingRetries r.
Proof.
  unfold disconnect. destruct (port (conn r)) as [p|]; [|reflexivity].
  destruct (isOpen p); reflexivity.
Qed.

Lemma disconnect_clears (r : Runtime) :
  isConnected (conn (fst (disconnect r))) = false /\
  (forall p, port (conn (fst (disconnect r))) = Some p -> isOpen p = false).
Proof.
  unfold disconnect. destruct (port (conn r)) as [p|] eqn:E.
  - destruct (isOpen p) eqn:O; cbn; (split; [reflexivity|]).
    + intros q [= <-]. reflexivity.
    + rewrite E. intros q [= <-]. exact O.
  - cbn. split; [reflexivity|]. rewrite E. discriminate.
Qed.

Lemma disconnect_idempotent (r : Runtime) :
  disconnect (fst (disconnect r)) = (fst (disconnect r), []).
Proof.
  unfold disconnect. destruct r as [[po ic cd cb ca mr] n]. cbn.
  destruct po as [[pa op]|]; cbn; [destruct op; cbn|]; reflexivity.
Qed.

(** The ['close'] event that follows an explicit disconnect goes
    through the same handler as an unexpected close and schedules a
    retry of its own. *)
Example close_after_disconnect_schedules_retry :
  let '(r1, e1) := step live Disconnect in
  let '(r2, e2) := step r1 PortClosed in
  e1 = [ClosePort] /\ pendingRetries r1 = 0%nat /\
  e2 = [SetTimeout3000] /\ pendingRetries r2 = 1%nat /\
  connectionAttempts (conn r2) = 1%nat.
Proof. vm_compute. repeat split. Qed.

(** Retries are bounded by [maxRetries]. *)
Lemma attemptReconnection_bounded (r : Runtime) :
  (connectionAttempts (conn r) <= maxRetries (conn r))%nat ->
  (connectionAttempts (conn (fst (attemptReconnection r)))
   <= maxRetries (conn r))%nat /\
  maxRetries (conn (fst (attemptReconnection r))) = maxRetries (conn r).
Proof.
  intro H. unfold attemptReconnection.
  destruct (connectionAttempts (conn r) <? maxRetries (conn r))%nat eqn:E;
    cbn; [|auto].
  apply Nat.ltb_lt in E. split; [lia | reflexivity].
Qed.

(** C9 fails as stated: a retry scheduled by a port error survives the
    explicit disconnect and, when it fires, opens the port picked at
    the prompt. *)
Lemma retry_reopens_after_disconnect :
  let '(r1, _) := step live PortError in
  let '(r2, e2) := step r1 Disconnect in
  let '(r3, e3) := step r2 (RetryTimer (picks "COM3")) in
  pendingRetries r1 = 1%nat /\
  e2 = [ClosePort] /\ isConnected (conn r2) = false /\
  pendingRetries r2 = 1%nat /\
  e3 = [OpenPort "COM3"] /\
  port (conn r3) = Some (mkPort "COM3" false).
Proof. vm_compute. repeat split. Qed.

(** C9, amended.  An explicit disconnect closes the port if it is open
    and clears [isConnected], but cancels nothing: the scheduled
    retries stay pending, and one that fires afterwards runs [connect],
    which opens the port picked at the prompt.  Disconnect is
    idempotent: a second one closes nothing and leaves the state as the
    first one left it. *)
Theorem disconnect_leaves_retries (r : Runtime) (p : string) :
  let r' := fst (disconnect r) in
  snd (disconnect r) =
    match port (conn r) with
    | Some q => if isOpen q then [ClosePort] else []
    | None => []
    end /\
  pendingRetries r' = pendingRetries r /\
  isConnected (conn r') = false /\
  (forall q, port (conn r') = Some q -> isOpen q = false) /\
  disconnect r' = (r', []) /\
  (pendingRetries r <> 0%nat -> p <> "" ->
   snd (step r' (RetryTimer (picks p))) = [OpenPort p] /\
   port (conn (fst (step r' (RetryTimer (picks p)))))
     = Some (mkPort p false)).
Proof.
  intro r'. subst r'.
  split.
  { unfold disconnect. destruct (port (conn r)) as [q|]; [|reflexivity].
    destruct (isOpen q); reflexivity. }
  split; [apply disconnect_keeps_pending|].
  destruct (disconnect_clears r) as [Hc Ho].
  split; [exact Hc|]. split; [exact Ho|].
  split; [apply disconnect_idempotent|].
  intros Hn Hp.
  unfold step. rewrite disconnect_keeps_pending.
  destruct (pendingRetries r) as [|n]; [congruence|].
  unfold connect. cbn [conn]. rewrite Hc.
  unfold targetPort, picks. cbn.
  destruct (String.eqb p "") eqn:E.
  - apply String.eqb_eq in E. contradiction.
  - cbn. split; reflexivity.
Qed.

Lemma disconnect_leaves_retries_witness :
  let r := fst (step live PortError) in
  let r' := fst (disconnect r) in
  pendingRetries r <> 0%nat /\ "COM3" <> "" /\
  snd (step r' (RetryTimer (picks "COM3"))) = [OpenPort "COM3"] /\
  port (conn (fst (step r' (RetryTimer (picks "COM3"))))) =
    Some (mkPort "COM3" false).
Proof.
  assert (H1 : pendingRetries (fst (step live PortError)) <> 0%nat)
    by (vm_compute; discriminate).
  assert (H2 : "COM3" <> "") by discriminate.
  split; [exact H1|]. split; [exact H2|].
  destruct (disconnect_leaves_retries (fst (step live PortError)) "COM3")
    as (_ & _ & _ & _ & _ & H).
  exact (H H1 H2).
Defined.

(** On a connection that is up with no retry pending, the same
    disconnect closes the port and a second one changes nothing. *)
Example disconnect_live :
  let '(r1, e1) := disconnect live in
  e1 = [ClosePort] /\ isConnected (conn r1) = false /\
  pendingRetries r1 = 0%nat /\ disconnect r1 = (r1, []).
Proof. vm_compute. repeat split. Qed.

End SerialClaims.


(* ===================================================================== *)
(** * Further properties of models/brakeModel.js *)
(* ===================================================================== *)

Module ModelProperties.
Import JS BrakeModel NumericFacts Scenario Calibration Shapes.

Lemma check_range_nil (key : string) (v : Q) (mn mx : option Q) :
  check_range key v mn mx = [] <->
  (forall m, mn = Some m -> m <= v) /\ (forall m, mx = Some m -> v <= m).
Proof.
  unfold check_range. split.
  - intro H. apply app_eq_nil in H. destruct H as [H1 H2]. split.
    + intros m ->. destruct (ltb v m) eqn:E; [discriminate|].
      now apply ltb_false.
    + intros m ->. destruct (ltb m v) eqn:E; [discriminate|].
      now apply ltb_false.
  - intros [H1 H2].
    destruct mn as [m1|]; destruct mx as [m2|]; cbn;
      repeat match goal with
             | |- context [ltb ?a ?b] =>
                 let E := fresh "E" in
                 destruct (ltb a b) eqn:E;
                 [apply ltb_true in E | clear E]
             end; cbn; try reflexivity; exfalso.
    all: try (specialize (H1 _ eq_refl)); try (specialize (H2 _ eq_refl)); lra.
Qed.

Lemma valid_iff_in_schema (d : BrakeData) :
  (isValid (validateBrakeData d) = true <-> in_schema d) /\
  (isValid (validateBrakeData d) = true <->
   errors (validateBrakeData d) = []).
Proof.
  assert (Hv : isValid (validateBrakeData d) = true <->
               errors (validateBrakeData d) = []).
  { unfold validateBrakeData. cbn [isValid errors].
    set (errs := (check_range "value" _ _ _ ++ _)%list).
    destruct errs; split; congruence. }
  split; [|exact Hv].
  etransitivity; [exact Hv|].
  unfold validateBrakeData. cbn [errors]. unfold in_schema. split.
  - intro H.
    apply app_eq_nil in H. destruct H as [V H].
    apply app_eq_nil in H. destruct H as [P H].
    apply app_eq_nil in H. destruct H as [F H].
    apply app_eq_nil in H. destruct H as [_ H].
    apply app_eq_nil in H. destruct H as [M H].
    apply app_eq_nil in H. destruct H as [D _].
    apply check_range_nil in V, P, F, M, D.
    destruct V as [V1 V2]. destruct P as [P1 P2]. destruct F as [F1 _].
    destruct M as [M1 M2]. destruct D as [D1 _].
    repeat split; auto.
  - intros ((V1 & V2) & (P1 & P2) & F1 & (M1 & M2) & D1).
    rewrite !(proj2 (check_range_nil _ _ _ _)); [reflexivity | ..];
      split; intros m E; inversion E; subst; assumption.
Qed.

(** X1.  [validateBrakeData] reports a snapshot valid exactly when it
    is inside the bounds of [brakeSchema], and then lists no error. *)
Theorem validateBrakeData_valid_iff (d : BrakeData) :
  (isValid (validateBrakeData d) = true <-> in_schema d) /\
  (isValid (validateBrakeData d) = true <->
   errors (validateBrakeData d) = []).
Proof. exact (valid_iff_in_schema d). Qed.

Lemma Math_round_mono (x y : Q) : x <= y -> Math_round x <= Math_round y.
Proof.
  intro H. unfold Math_round. rewrite <- Zle_Qle.
  apply Qfloor_resp_le. lra.
Qed.

Lemma Math_min_mono (a b m : Q) : a <= b -> Math_min a m <= Math_min b m.
Proof.
  intro H. case_min a m; case_min b m; lra.
Qed.

Lemma value_nonneg (d : BrakeData) (r now : Q) :
  0 < maxForce d -> 0 <= value (updateBrakeData d r now).
Proof.
  intro Hm. rewrite value_eq.
  destruct (ltb 0 (force (updateBrakeData d r now))) eqn:E; [|lra].
  apply ltb_true in E.
  change 0 with (Math_round 0) at 1. apply Math_round_mono.
  apply Qmult_le_0_compat; [|discriminate].
  apply Qle_shift_div_l; lra.
Qed.

Lemma monotone_fields (d : BrakeData) (r1 r2 now1 now2 : Q) :
  0 < maxForce d ->
  magnitude r1 <= magnitude r2 ->
  let s1 := updateBrakeData d r1 now1 in
  let s2 := updateBrakeData d r2 now2 in
  force s1 <= force s2 /\ value s1 <= value s2 /\
  percentage s1 <= percentage s2 /\
  (active s1 = true -> active s2 = true).
Proof.
  intros Hm Hmag s1 s2. subst s1 s2.
  assert (Hf : force (updateBrakeData d r1 now1)
               <= force (updateBrakeData d r2 now2)).
  { rewrite !force_eq. apply Math_min_mono.
    destruct (ltb (magnitude r1) (deadZone d)) eqn:E1;
      destruct (ltb (magnitude r2) (deadZone d)) eqn:E2;
      try apply ltb_true in E1; try apply ltb_true in E2;
      try apply ltb_false in E1; try apply ltb_false in E2; lra. }
  assert (Hv : value (updateBrakeData d r1 now1)
               <= value (updateBrakeData d r2 now2)).
  { assert (H2 := value_nonneg d r2 now2 Hm).
    rewrite (value_eq d r1).
    destruct (ltb 0 (force (updateBrakeData d r1 now1))) eqn:E1; [|exact H2].
    apply ltb_true in E1. rewrite (value_eq d r2).
    destruct (ltb 0 (force (updateBrakeData d r2 now2))) eqn:E2.
    - apply Math_round_mono. apply Qmult_le_compat_r; [|discriminate].
      unfold Qdiv. apply Qmult_le_compat_r; [exact Hf|].
      apply Qinv_le_0_compat. lra.
    - apply ltb_false in E2. lra. }
  split; [exact Hf|]. split; [exact Hv|]. split.
  - rewrite !percentage_eq. apply Math_round_mono.
    apply Qmult_le_compat_r; [|discriminate].
    unfold Qdiv. apply Qmult_le_compat_r; [exact Hv|]. discriminate.
  - rewrite !active_eq, !Bool.negb_true_iff. intro E1.
    apply ltb_false in E1. apply ltb_false. lra.
Qed.

(** X2.  A harder press never reads lower: with [maxForce > 0], if the
    magnitude of one reading is at most that of another, then so are
    [force], [value] and [percentage], and an active snapshot stays
    active. *)
Theorem updateBrakeData_monotone (d : BrakeData) (r1 r2 now1 now2 : Q) :
  0 < maxForce d ->
  magnitude r1 <= magnitude r2 ->
  let s1 := updateBrakeData d r1 now1 in
  let s2 := updateBrakeData d r2 now2 in
  force s1 <= force s2 /\ value s1 <= value s2 /\
  percentage s1 <= percentage s2 /\
  (active s1 = true -> active s2 = true).
Proof. exact (monotone_fields d r1 r2 now1 now2). Qed.

Lemma updateBrakeData_monotone_witness :
  0 < maxForce defaults /\ magnitude 2000000 <= magnitude (-3000000) /\
  let s1 := updateBrakeData defaults 2000000 7 in
  let s2 := updateBrakeData defaults (-3000000) 8 in
  force s1 <= force s2 /\ value s1 <= value s2 /\
  percentage s1 <= percentage s2 /\
  (active s1 = true -> active s2 = true).
Proof.
  split; [reflexivity|]. split; [discriminate|].
  apply (updateBrakeData_monotone defaults 2000000 (-3000000) 7 8);
    [reflexivity | discriminate].
Defined.

(** X3.  A snapshot keeps no history: what a reading produces depends
    on the previous snapshot only through [maxForce], [deadZone] and
    [sensorType], so after two readings the snapshot is the one the
    second reading alone would have given. *)
Theorem updateBrakeData_last_reading_wins
  (d : BrakeData) (r1 r2 now1 now2 : Q) :
  updateBrakeData (updateBrakeData d r1 now1) r2 now2 =
  updateBrakeData d r2 now2.
Proof.
  unfold updateBrakeData.
  destruct (ltb (Math_abs (r1 / 1000000)) (deadZone d)); cbn;
    destruct (ltb (Math_abs (r2 / 1000000)) (deadZone d)); reflexivity.
Qed.

(** X4.  Every snapshot computed under a configuration inside the
    schema bounds ([0.1 <= maxForce <= 50], [deadZone >= 0]) passes
    [validateBrakeData] with an empty error list, whatever the reading
    and whatever the previous snapshot held. *)
Theorem updateBrakeData_validates (d : BrakeData) (r now : Q) :
  config_in_schema d ->
  validateBrakeData (updateBrakeData d r now) =
  {| isValid := true; errors := [] |}.
Proof.
  intros (M1 & M2 & D1).
  assert (Hm : 0 < maxForce d) by lra.
  assert (Hs : in_schema (updateBrakeData d r now)).
  { unfold in_schema.
    destruct (updateBrakeData_keeps_config d r now) as (-> & -> & _).
    destruct (force_range d r now Hm) as [F1 _].
    split; [now apply value_range|].
    split; [now apply percentage_range|].
    split; [exact F1|]. split; [split; assumption | exact D1]. }
  destruct (valid_iff_in_schema (updateBrakeData d r now))
    as [Hiff Herr].
  apply Hiff in Hs.
  destruct (validateBrakeData (updateBrakeData d r now)) as [v e].
  cbn in *. apply Herr in Hs as He. now subst.
Qed.

Lemma updateBrakeData_validates_witness :
  config_in_schema defaults /\
  validateBrakeData (updateBrakeData defaults 123456789 7) =
  {| isValid := true; errors := [] |}.
Proof.
  assert (H : config_in_schema defaults)
    by (repeat split; discriminate).
  split; [exact H|].
  apply (updateBrakeData_validates defaults 123456789 7 H).
Defined.

(** X5.  A reset gives a snapshot that passes [validateBrakeData]
    exactly when the configuration it carries over is inside the schema
    bounds ([0.1 <= maxForce <= 50], [deadZone >= 0]); a configuration
    accepted outside them stays flagged after every reset. *)
Theorem resetBrake_validates (c : Controller.State) (now : Q) :
  isValid (validateBrakeData
             (Controller.brakeData (fst (Controller.resetBrake c now))))
    = true
  <-> config_in_schema (Controller.brakeData c).
Proof.
  etransitivity; [apply (proj1 (valid_iff_in_schema _))|].
  unfold in_schema, config_in_schema.
  rewrite ControllerClaims.resetBrake_snapshot.
  cbn [value percentage force maxForce deadZone].
  split.
  - intros (_ & _ & _ & (M1 & M2) & D). auto.
  - intros (M1 & M2 & D). repeat split; try assumption; discriminate.
Qed.

Lemma magnitude_opp (r : Q) : magnitude (- r) == magnitude r.
Proof.
  unfold magnitude, Math_abs.
  assert (E : - r / 1000000 == - (r / 1000000)) by (unfold Qdiv; ring).
  rewrite E. apply Qabs_opp.
Qed.

(** X6.  The sign of the reading does not matter: with [maxForce > 0]
    a reading and its opposite give the same [force], [value],
    [percentage] and [active]. *)
Theorem updateBrakeData_sign (d : BrakeData) (r now : Q) :
  0 < maxForce d ->
  let s1 := updateBrakeData d r now in
  let s2 := updateBrakeData d (- r) now in
  force s1 == force s2 /\ value s1 == value s2 /\
  percentage s1 == percentage s2 /\ active s1 = active s2.
Proof.
  intros Hm s1 s2. subst s1 s2.
  assert (H12 : magnitude r <= magnitude (- r))
    by (rewrite magnitude_opp; lra).
  assert (H21 : magnitude (- r) <= magnitude r)
    by (rewrite magnitude_opp; lra).
  destruct (monotone_fields d r (- r) now now Hm H12)
    as (F1 & V1 & P1 & A1).
  destruct (monotone_fields d (- r) r now now Hm H21)
    as (F2 & V2 & P2 & A2).
  cbv zeta in *.
  repeat split; try (apply Qle_antisym; assumption).
  destruct (active (updateBrakeData d r now)),
    (active (updateBrakeData d (- r) now)); try reflexivity;
    [symmetry; now apply A1 | now apply A2].
Qed.

Lemma updateBrakeData_sign_witness :
  0 < maxForce defaults /\
  let s1 := updateBrakeData defaults 3000000 7 in
  let s2 := updateBrakeData defaults (- 3000000) 7 in
  force s1 == force s2 /\ value s1 == value s2 /\
  percentage s1 == percentage s2 /\ active s1 = active s2.
Proof.
  split; [reflexivity|].
  apply (updateBrakeData_sign defaults 3000000 7). reflexivity.
Defined.

End ModelProperties.

(* ===================================================================== *)
(** * Simulation, test route and configuration *)
(* ===================================================================== *)

Module ModeProperties.
Import JS BrakeModel Http NumericFacts Scenario Calibration Shapes.
Import Controller Mode.

Lemma displayBrakePercentage_cases (c : State) (p f : Q) :
  displayBrakePercentage c p f = c \/
  displayBrakePercentage c p f = set_lastDisplayed c p.
Proof.
  unfold displayBrakePercentage. destruct (ltb _ 2); auto.
Qed.

Lemma simulationTick_brakeData (c : State) (sine random now : Q) :
  brakeData (simulationTick c sine random now) =
  updateBrakeData (brakeData c) (simulatedReading sine random) now.
Proof.
  unfold simulationTick.
  destruct (ltb 5 _); [|reflexivity].
  match goal with
  | |- context [displayBrakePercentage ?c1 ?p ?f] =>
      destruct (displayBrakePercentage_cases c1 p f) as [-> | ->]
  end; reflexivity.
Qed.

Lemma Math_max_lower (a b : Q) : a <= Math_max a b.
Proof.
  unfold Math_max. destruct (Qle_bool a b) eqn:E; [|lra].
  now apply Qle_bool_iff.
Qed.

Lemma magnitude_of_nonneg (r : Q) : 0 <= r -> magnitude r == r * (1 # 1000000).
Proof.
  intro H. unfold magnitude, Math_abs.
  assert (E : r / 1000000 == r * (1 # 1000000)) by reflexivity.
  rewrite E. apply Qabs_pos. lra.
Qed.

Lemma saturated_active (d : BrakeData) (r now : Q) :
  0 < maxForce d -> deadZone d + maxForce d <= magnitude r ->
  active (updateBrakeData d r now) = true.
Proof.
  intros Hm Hbig. rewrite active_eq, Bool.negb_true_iff.
  apply ltb_false. lra.
Qed.

(** X7.  The simulated readings ride on the base reading [8388607]:
    whenever [deadZone + maxForce <= 8.338607] (the default
    configuration has 6) every tick of the simulation yields a
    saturated snapshot, [force = maxForce], [value = 1023],
    [percentage = 100], for every value of the sine and of the random
    noise. *)
Theorem simulation_saturates (c : State) (sine random now : Q) :
  0 <= random ->
  0 < maxForce (brakeData c) ->
  deadZone (brakeData c) + maxForce (brakeData c) <= 8338607 # 1000000 ->
  let d' := brakeData (simulationTick c sine random now) in
  force d' == maxForce (brakeData c) /\ value d' == 1023 /\
  percentage d' == 100 /\ active d' = true.
Proof.
  intros Hr Hm Hcfg d'. subst d'. rewrite simulationTick_brakeData.
  assert (Hlow : 8338607 <= simulatedReading sine random).
  { unfold simulatedReading.
    assert (H := Math_max_lower 0 (sine * 2500000)). lra. }
  assert (Hmag : deadZone (brakeData c) + maxForce (brakeData c)
                 <= magnitude (simulatedReading sine random)).
  { rewrite magnitude_of_nonneg by lra. lra. }
  destruct (saturation _ _ now Hm Hmag) as (Hf & Hv & Hp).
  repeat split; try assumption. now apply saturated_active.
Qed.

Lemma simulation_saturates_witness :
  0 <= 0 /\ 0 < maxForce (brakeData fresh) /\
  deadZone (brakeData fresh) + maxForce (brakeData fresh)
    <= 8338607 # 1000000 /\
  let d' := brakeData (simulationTick fresh (-1) 0 7) in
  force d' == maxForce (brakeData fresh) /\ value d' == 1023 /\
  percentage d' == 100 /\ active d' = true.
Proof.
  split; [discriminate|]. split; [reflexivity|]. split; [discriminate|].
  apply (simulation_saturates fresh (-1) 0 7);
    [discriminate | reflexivity | discriminate].
Defined.

(** X8.  The same holds for the earlier controller, whose variation is
    not clamped: with the sine at least [-1] and
    [deadZone + maxForce <= 6.338607] every tick is saturated. *)
Theorem standalone_simulation_saturates
  (c : Standalone.State) (sine random now : Q) :
  -(1) <= sine -> 0 <= random ->
  0 < maxForce (Standalone.brakeData c) ->
  deadZone (Standalone.brakeData c) + maxForce (Standalone.brakeData c)
    <= 6338607 # 1000000 ->
  let d' := Standalone.brakeData
              (standalone_simulationTick c sine random now) in
  force d' == maxForce (Standalone.brakeData c) /\ value d' == 1023 /\
  percentage d' == 100 /\ active d' = true.
Proof.
  intros Hs Hr Hm Hcfg d'. subst d'. cbn.
  assert (Hlow : 6338607 <= standalone_simulatedReading sine random).
  { unfold standalone_simulatedReading. lra. }
  assert (Hmag : deadZone (Standalone.brakeData c)
                 + maxForce (Standalone.brakeData c)
                 <= magnitude (standalone_simulatedReading sine random)).
  { rewrite magnitude_of_nonneg by lra. lra. }
  destruct (saturation _ _ now Hm Hmag) as (Hf & Hv & Hp).
  repeat split; try assumption. now apply saturated_active.
Qed.

Lemma standalone_simulation_saturates_witness :
  let c := {| Standalone.brakeData := defaults;
              Standalone.isSimulating := true;
              Standalone.simulationInterval := true |} in
  -(1) <= -(1) /\ 0 <= 0 /\
  0 < maxForce (Standalone.brakeData c) /\
  deadZone (Standalone.brakeData c) + maxForce (Standalone.brakeData c)
    <= 6338607 # 1000000 /\
  let d' := Standalone.brakeData (standalone_simulationTick c (-1) 0 7) in
  force d' == maxForce (Standalone.brakeData c) /\ value d' == 1023 /\
  percentage d' == 100 /\ active d' = true.
Proof.
  split; [discriminate|]. split; [discriminate|].
  split; [reflexivity|]. split; [discriminate|].
  apply (standalone_simulation_saturates
           {| Standalone.brakeData := defaults;
              Standalone.isSimulating := true;
              Standalone.simulationInterval := true |} (-1) 0 7);
    [discriminate | discriminate | reflexivity | discriminate].
Defined.

(** X9.  [POST /test] adds the requested force to the base reading
    before calibrating: without the Arduino, a force [f] in [[0, 50]]
    is applied as the reading [8388607 + f * 1000000], so whenever
    [deadZone + maxForce <= 8.388607 + f] (always, on the default
    configuration) the answer is the saturated snapshot with
    [value = 1023] and [percentage = 100], not the force asked for. *)
Theorem test_route_saturates (c : State) (req : request) (f now : Q) :
  isArduinoConnected c = false ->
  0 <= f -> f <= 50 ->
  0 < maxForce (brakeData c) ->
  deadZone (brakeData c) + maxForce (brakeData c)
    <= (8388607 # 1000000) + f ->
  let '(c', answer) := test_route c (<[ "force" := Num f ]> req) now in
  brakeData c' =
    updateBrakeData (brakeData c) (8388607 + f * 1000000) now /\
  answer = TestApplied f (8388607 + f * 1000000)
             (getBrakeTelemetryData (brakeData c')) /\
  force (brakeData c') == maxForce (brakeData c) /\
  value (brakeData c') == 1023 /\ percentage (brakeData c') == 100.
Proof.
  intros Hc H0 H50 Hm Hcfg.
  unfold test_route, prop. rewrite Hc, lookup_insert_eq.
  assert (E1 : ltb f 0 = false) by now apply ltb_false.
  assert (E2 : ltb 50 f = false) by now apply ltb_false.
  rewrite E1, E2. cbn [orb].
  unfold updateInternalData, getCurrentData. rewrite Hc.
  match goal with
  | |- context [displayBrakePercentage ?c1 ?p ?q] =>
      destruct (displayBrakePercentage_cases c1 p q) as [-> | ->]
  end; cbn [brakeData set_brakeData set_lastDisplayed].
  all: split; [reflexivity|]; split; [reflexivity|].
  all: assert (Hmag : deadZone (brakeData c) + maxForce (brakeData c)
                      <= magnitude (8388607 + f * 1000000))
         by (rewrite magnitude_of_nonneg by lra; lra).
  all: destruct (saturation _ _ now Hm Hmag) as (Hf & Hv & Hp);
       repeat split; assumption.
Qed.

Lemma test_route_saturates_witness :
  isArduinoConnected fresh = false /\ 0 <= 0 /\ 0 <= 50 /\
  0 < maxForce (brakeData fresh) /\
  deadZone (brakeData fresh) + maxForce (brakeData fresh)
    <= (8388607 # 1000000) + 0 /\
  let '(c', answer) := test_route fresh (<[ "force" := Num 0 ]> ∅) 7 in
  brakeData c' =
    updateBrakeData (brakeData fresh) (8388607 + 0 * 1000000) 7 /\
  answer = TestApplied 0 (8388607 + 0 * 1000000)
             (getBrakeTelemetryData (brakeData c')) /\
  force (brakeData c') == maxForce (brakeData fresh) /\
  value (brakeData c') == 1023 /\ percentage (brakeData c') == 100.
Proof.
  split; [reflexivity|]. split; [discriminate|]. split; [discriminate|].
  split; [reflexivity|]. split; [discriminate|].
  apply (test_route_saturates fresh ∅ 0 7);
    [reflexivity | discriminate | discriminate | reflexivity | discriminate].
Defined.

(** X10.  A configuration request that succeeds changes the
    configuration and the timestamp only: [force], [value],
    [percentage], [active] and [rawReading] stay as they were until the
    next reading; each field present in the body is stored as sent
    ([maxForce > 0], [deadZone >= 0]) and an absent one keeps its
    value. *)
Theorem configureBrake_success (c : State) (req : request) (now : Q) :
  success (snd (configureBrake c req now)) = true ->
  let d := brakeData c in
  let d' := brakeData (fst (configureBrake c req now)) in
  (force d' = force d /\ value d' = value d /\
   percentage d' = percentage d /\ active d' = active d /\
   rawReading d' = rawReading d) /\
  timestamp d' = now /\
  match prop req "maxForce" with
  | Undefined => maxForce d' = maxForce d
  | Num q => maxForce d' = q /\ 0 < q
  | _ => False
  end /\
  match prop req "deadZone" with
  | Undefined => deadZone d' = deadZone d
  | Num q => deadZone d' = q /\ 0 <= q
  | _ => False
  end.
Proof.
  unfold configureBrake, configure_maxForce, configure_deadZone.
  destruct (prop req "maxForce") as [| |b|q|s]; cbn; try discriminate.
  - destruct (prop req "deadZone") as [| |b'|q'|s']; cbn; try discriminate.
    + intros _. repeat split.
    + destruct (ltb q' 0) eqn:E; cbn; [discriminate|].
      apply ltb_false in E. intros _. repeat split. exact E.
  - destruct (Qle_bool q 0) eqn:Eq; cbn; [discriminate|].
    assert (Hq : 0 < q).
    { apply Qnot_le_lt. intro H. apply Qle_bool_iff in H. congruence. }
    destruct (prop req "deadZone") as [| |b'|q'|s']; cbn; try discriminate.
    + intros _. repeat split. exact Hq.
    + destruct (ltb q' 0) eqn:E; cbn; [discriminate|].
      apply ltb_false in E. intros _. repeat split; assumption.
Qed.

Lemma configureBrake_success_witness :
  success (snd (configureBrake fresh body_maxForce_60 7)) = true /\
  let d := brakeData fresh in
  let d' := brakeData (fst (configureBrake fresh body_maxForce_60 7)) in
  (force d' = force d /\ value d' = value d /\
   percentage d' = percentage d /\ active d' = active d /\
   rawReading d' = rawReading d) /\
  timestamp d' = 7 /\
  match prop body_maxForce_60 "maxForce" with
  | Undefined => maxForce d' = maxForce d
  | Num q => maxForce d' = q /\ 0 < q
  | _ => False
  end /\
  match prop body_maxForce_60 "deadZone" with
  | Undefined => deadZone d' = deadZone d
  | Num q => deadZone d' = q /\ 0 <= q
  | _ => False
  end.
Proof.
  assert (H : success (snd (configureBrake fresh body_maxForce_60 7)) = true)
    by (vm_compute; reflexivity).
  split; [exact H|].
  apply (configureBrake_success fresh body_maxForce_60 7 H).
Defined.

(** ** Which source is on *)

Lemma startSimulation_one_source (c : State) (res : bool) :
  one_source c -> one_source (fst (startSimulation c res)).
Proof.
  unfold one_source, startSimulation. intros [H1 H2].
  destruct (isArduinoConnected c) eqn:Ea; cbn [fst];
    [rewrite ?Ea; split; assumption|].
  destruct (isSimulating c) eqn:Es; cbn [fst];
    [rewrite ?Es, ?Ea; split; assumption|].
  cbn. split; auto.
Qed.

Lemma stopSimulation_one_source (c : State) :
  one_source c -> one_source (fst (stopSimulation c)).
Proof.
  unfold one_source, stopSimulation. intros [H1 H2].
  destruct (isSimulating c) eqn:Es; cbn.
  - split; [reflexivity | discriminate].
  - rewrite Es. split; assumption.
Qed.

Lemma same_flags_one_source (c c' : State) :
  same_flags c c' -> one_source c -> one_source c'.
Proof.
  intros (E1 & E2 & E3) [H1 H2]. unfold one_source.
  rewrite E1, E2, E3. split; assumption.
Qed.

Ltac flags := solve [unfold same_flags; cbn; repeat split; auto].

Ltac display_cases :=
  match goal with
  | |- context [displayBrakePercentage ?c1 ?p ?f] =>
      destruct (displayBrakePercentage_cases c1 p f) as [-> | ->]
  end.

Lemma displayBrakePercentage_flags (c : State) (p f : Q) :
  same_flags c (displayBrakePercentage c p f).
Proof. display_cases; flags. Qed.

Lemma simulationTick_flags (c : State) (sine random now : Q) :
  same_flags c (simulationTick c sine random now).
Proof.
  unfold simulationTick. destruct (ltb 5 _); [|flags].
  display_cases; flags.
Qed.

Lemma updateBrake_flags (c : State) (req : request) (now : Q) :
  same_flags c (fst (updateBrake c req now)).
Proof.
  unfold updateBrake.
  destruct (prop req "rawReading"); try flags.
  destruct (isArduinoConnected c) eqn:E; [flags|].
  cbn [fst]. display_cases; unfold same_flags; cbn; auto.
Qed.

Lemma configureBrake_flags (c : State) (req : request) (now : Q) :
  same_flags c (fst (configureBrake c req now)).
Proof.
  unfold configureBrake, configure_maxForce, configure_deadZone.
  destruct (prop req "maxForce") as [| |b|q|s]; cbn; try flags;
    try (destruct (Qle_bool q 0); cbn; try flags);
    destruct (prop req "deadZone") as [| |b'|q'|s']; cbn; try flags;
    destruct (ltb q' 0); cbn; flags.
Qed.

Lemma test_route_flags (c : State) (req : request) (now : Q) :
  same_flags c (fst (test_route c req now)).
Proof.
  unfold test_route.
  destruct (isArduinoConnected c) eqn:E; [flags|].
  destruct (prop req "force") as [| |b|q|s]; try flags.
  destruct (ltb q 0 || ltb 50 q); [flags|].
  unfold updateInternalData. rewrite E. cbn [fst].
  display_cases; unfold same_flags; cbn; auto.
Qed.

Lemma deliver_flags (effs : list Serial.effect) (c : State) (now1 now2 : Q) :
  same_flags c (deliver c effs now1 now2) /\
  arduino (deliver c effs now1 now2) = arduino c.
Proof.
  revert c. induction effs as [|e effs IH]; intro c; [split; [flags|reflexivity]|].
  cbn. destruct e; try apply IH.
  destruct (IH (processArduinoData c d now1 now2)) as ((E1 & E2 & E3) & E4).
  unfold same_flags, deliver in *. rewrite E1, E2, E3, E4. repeat split.
Qed.

Lemma serial_event_flags (s : System) (e : Serial.event) (now1 now2 : Q) :
  same_flags (controller s) (controller (serial_event s e now1 now2)).
Proof.
  unfold serial_event.
  destruct (Serial.step (runtime_of s) e) as [r effs]. cbn.
  destruct (deliver_flags effs
              (set_arduino (controller s) (Serial.conn r)) now1 now2)
    as ((E1 & E2 & E3) & _).
  unfold same_flags. rewrite E1, E2, E3. repeat split.
Qed.

Lemma serial_event_arduino (s : System) (e : Serial.event) (now1 now2 : Q) :
  arduino (controller (serial_event s e now1 now2)) =
  Serial.conn (fst (Serial.step (runtime_of s) e)).
Proof.
  unfold serial_event.
  destruct (Serial.step (runtime_of s) e) as [r effs]. cbn.
  rewrite (proj2 (deliver_flags effs _ now1 now2)). reflexivity.
Qed.

Lemma port_closed_not_connected (r : Serial.Runtime) :
  Display.isPortConnected
    (Serial.conn (fst (Serial.step r Serial.PortClosed))) = false.
Proof.
  unfold Serial.step, Serial.attemptReconnection.
  cbn [Serial.conn Serial.with_conn].
  destruct (_ <? _)%nat; reflexivity.
Qed.

Lemma disconnect_route_one_source (s : System) :
  one_source (controller s) ->
  one_source (controller (fst (fst (disconnect_route s)))).
Proof.
  intro H. unfold disconnect_route.
  destruct (Display.isPortConnected (arduino (controller s))); [|exact H].
  destruct (Serial.disconnect (runtime_of s)) as [r effs].
  match goal with
  | |- context [startSimulation ?c2 false] =>
      pose proof (startSimulation_one_source c2 false) as Hs;
      destruct (startSimulation c2 false) as [c3 o]
  end.
  cbn in *. apply Hs. destruct H as [H1 H2].
  unfold one_source. cbn. split; auto.
Qed.

Lemma connect_route_one_source (s : System) (port : string) (throws : bool) :
  one_source (controller s) ->
  one_source (controller (fst (fst (connect_route_finish s port throws)))).
Proof.
  unfold one_source, connect_route_finish. intros [H1 H2].
  match goal with
  | |- context [Serial.connect ?r ?p ?i ?e] =>
      destruct (Serial.connect r p i e) as [[r' connected] effs]
  end.
  cbn. destruct (isSimulating (controller s)) eqn:E; cbn.
  - split; [reflexivity | discriminate].
  - rewrite E. split; [exact H1 | discriminate].
Qed.

Lemma handle_one_source (s : System) (k : request_kind) :
  one_source (controller s) -> one_source (controller (handle s k)).
Proof.
  intro H. destruct k; cbn.
  - now apply startSimulation_one_source.
  - now apply stopSimulation_one_source.
  - destruct (simulationInterval (controller s)); [|exact H].
    cbn. eapply same_flags_one_source; [apply simulationTick_flags|exact H].
  - eapply same_flags_one_source; [apply updateBrake_flags|exact H].
  - eapply same_flags_one_source; [apply configureBrake_flags|exact H].
  - exact H.
  - eapply same_flags_one_source; [apply test_route_flags|exact H].
  - now apply disconnect_route_one_source.
  - now apply connect_route_one_source.
  - eapply same_flags_one_source; [apply serial_event_flags|exact H].
Qed.

(** X11.  At most one source is switched on.  Starting from a
    controller in which the simulation flag agrees with the interval
    handle and excludes [isArduinoConnected], the same holds after any
    sequence of: start and stop of the simulation, simulation ticks,
    manual updates, configuration, reset, test requests, the
    disconnect route, the connect route and serial events. *)
Theorem one_source_preserved (ks : list request_kind) (s : System) :
  one_source (controller s) ->
  one_source (controller (handle_all s ks)).
Proof.
  revert s. induction ks as [|k ks IH]; intros s H; [exact H|].
  cbn. apply IH. now apply handle_one_source.
Qed.

Lemma one_source_preserved_witness :
  let s := {| controller := fresh; retries := 0 |} in
  let ks := [StartSimulation true; Tick 0 0 7; ConnectRoute "COM3" false;
             SerialEvent Serial.PortOpened 8 8; StartSimulation true;
             DisconnectRoute] in
  one_source (controller s) /\
  one_source (controller (handle_all s ks)).
Proof.
  assert (H : one_source (controller {| controller := fresh; retries := 0 |}))
    by (split; [reflexivity | discriminate]).
  split; [exact H|].
  apply (one_source_preserved _ _ H).
Defined.

(** The timer and [connectInteractive] call [connect] with no path:
    past the [isConnected] guard it is [connect_after_prompt]. *)
Lemma connect_interactive_phases (r : Serial.Runtime) (env : Serial.Env) :
  Serial.connect r None true env =
  if Serial.isConnected (Serial.conn r) then (r, false, [])
  else connect_after_prompt r env.
Proof. reflexivity. Qed.

(** X12.  The start-up connection does not switch the simulation off.
    If the simulation is running when the prompt of [connectToArduino]
    is answered with a port (it can be started over HTTP while the
    prompt is open), the controller ends up with [isArduinoConnected]
    and [isSimulating] both true and the interval still held. *)
Theorem connectToArduino_keeps_simulation
  (s : System) (p : string) (listed : list string) :
  isSimulating (controller s) = true ->
  p <> "" ->
  let env := {| Serial.prompt := Serial.Chosen p;
                Serial.discovered := listed;
                Serial.ctor_throws := false |} in
  let '(s', effs) := connectToArduino_resume s env in
  effs = [Serial.OpenPort p] /\
  isArduinoConnected (controller s') = true /\
  isSimulating (controller s') = true /\
  simulationInterval (controller s') = simulationInterval (controller s).
Proof.
  intros Hs Hp. cbv zeta.
  unfold connectToArduino_resume, connect_after_prompt, Serial.targetPort.
  cbn. destruct (String.eqb p "") eqn:E.
  - apply String.eqb_eq in E. contradiction.
  - cbn. repeat split. exact Hs.
Qed.

Lemma connectToArduino_keeps_simulation_witness :
  let s := {| controller := fst (startSimulation fresh true); retries := 0 |} in
  isSimulating (controller s) = true /\ "COM3" <> "" /\
  let env := {| Serial.prompt := Serial.Chosen "COM3";
                Serial.discovered := [];
                Serial.ctor_throws := false |} in
  let '(s', effs) := connectToArduino_resume s env in
  effs = [Serial.OpenPort "COM3"] /\
  isArduinoConnected (controller s') = true /\
  isSimulating (controller s') = true /\
  simulationInterval (controller s') = simulationInterval (controller s).
Proof.
  assert (H1 : isSimulating
                 (controller {| controller := fst (startSimulation fresh true);
                                retries := 0 |}) = true) by reflexivity.
  assert (H2 : "COM3" <> "") by discriminate.
  split; [exact H1|]. split; [exact H2|].
  apply (connectToArduino_keeps_simulation _ "COM3" [] H1 H2).
Defined.

(** X13.  Losing the port does not move the controller out of hardware
    mode.  No serial event (open, error, close, retry timer, line,
    disconnect of the connection) changes [isArduinoConnected] or the
    simulation flags; so once the port has closed under a controller
    with [isArduinoConnected] set, starting the simulation is refused,
    manual updates are refused and the disconnect route finds no
    active connection and changes nothing. *)
Theorem hardware_mode_survives_port_loss
  (s : System) (now1 now2 now : Q) (req : request) (res : bool) :
  isArduinoConnected (controller s) = true ->
  let s' := serial_event s Serial.PortClosed now1 now2 in
  (forall (e : Serial.event) (t : System),
     same_flags (controller t) (controller (serial_event t e now1 now2))) /\
  isArduinoConnected (controller s') = true /\
  fst (startSimulation (controller s') res) = controller s' /\
  fst (updateBrake (controller s') req now) = controller s' /\
  disconnect_route s' =
    (s', NoActiveConnection (isSimulating (controller s')), []).
Proof.
  intros Hc s'.
  split; [intros e t; apply serial_event_flags|].
  assert (Hc' : isArduinoConnected (controller s') = true).
  { destruct (serial_event_flags s Serial.PortClosed now1 now2)
      as (_ & _ & E). fold s' in E. rewrite E. exact Hc. }
  split; [exact Hc'|]. split; [|split].
  - unfold startSimulation. rewrite Hc'. reflexivity.
  - unfold updateBrake. rewrite Hc'.
    destruct (prop req "rawReading"); reflexivity.
  - assert (Hp : Display.isPortConnected (arduino (controller s')) = false).
    { subst s'. rewrite serial_event_arduino.
      apply port_closed_not_connected. }
    unfold disconnect_route. rewrite Hp. reflexivity.
Qed.

Lemma hardware_mode_survives_port_loss_witness :
  let s := {| controller := on_hardware; retries := 0 |} in
  isArduinoConnected (controller s) = true /\
  let s' := serial_event s Serial.PortClosed 8 8 in
  (forall (e : Serial.event) (t : System),
     same_flags (controller t) (controller (serial_event t e 8 8))) /\
  isArduinoConnected (controller s') = true /\
  fst (startSimulation (controller s') true) = controller s' /\
  fst (updateBrake (controller s') (body_reading 1) 9) = controller s' /\
  disconnect_route s' =
    (s', NoActiveConnection (isSimulating (controller s')), []).
Proof.
  assert (H : isArduinoConnected
                (controller {| controller := on_hardware; retries := 0 |})
              = true) by reflexivity.
  split; [exact H|].
  apply (hardware_mode_survives_port_loss _ 8 8 9 (body_reading 1) true H).
Defined.

(** X14.  [POST /connect] with a non-empty port, on a controller whose
    simulation flag agrees with its interval handle, always leaves the
    simulation off, and its outcome is decided by two things only:
    whether the connection is still marked connected and whether the
    [SerialPort] constructor throws.  With neither, the port is opened,
    [isArduinoConnected] is set and the answer names the port; with
    either, no port is opened (a throwing constructor sets at most a
    retry timer), [isArduinoConnected] is false, the answer is the
    failure, and the simulation is not started again. *)
Theorem connect_route_outcome (s : System) (port : string) (throws : bool) :
  port <> "" ->
  isSimulating (controller s) = simulationInterval (controller s) ->
  let a := arduino (controller s) in
  let ok := negb (Serial.isConnected a) && negb throws in
  let '(s', answer, effs) := connect_route_finish s port throws in
  isSimulating (controller s') = false /\
  simulationInterval (controller s') = false /\
  isArduinoConnected (controller s') = ok /\
  answer = (if ok then ConnectedTo port else ConnectFailed port) /\
  effs =
    (if Serial.isConnected a then []
     else if throws then
       if (Serial.connectionAttempts a <? Serial.maxRetries a)%nat
       then [Serial.SetTimeout3000] else []
     else [Serial.OpenPort port]).
Proof.
  intros Hport H1. destruct s as [c n]. cbn in H1.
  apply String.eqb_neq in Hport.
  unfold connect_route_finish.
  cbn [controller retries with_controller runtime_of].
  set (c1 := if isSimulating c then set_simulation c false false else c).
  assert (Hc1 : isSimulating c1 = false /\ simulationInterval c1 = false /\
                arduino c1 = arduino c).
  { subst c1. destruct (isSimulating c) eqn:Es; cbn; [auto|].
    rewrite Es. auto. }
  destruct Hc1 as (S1 & S2 & S3). clearbody c1.
  unfold Serial.connect, Serial.targetPort, Serial.falsy,
    Serial.attemptReconnection.
  cbn -[Nat.ltb String.eqb]. rewrite Hport, S3.
  destruct (Serial.isConnected (arduino c));
    [cbn; rewrite S1, S2; repeat split|].
  destruct throws;
    [|cbn; rewrite S1, S2; repeat split].
  destruct (Serial.connectionAttempts (arduino c)
            <? Serial.maxRetries (arduino c))%nat;
    cbn; rewrite S1, S2; repeat split.
Qed.

Lemma connect_route_outcome_witness :
  let s := {| controller := fst (startSimulation fresh true); retries := 0 |} in
  "COM3" <> "" /\
  isSimulating (controller s) = simulationInterval (controller s) /\
  let '(s', answer, effs) := connect_route_finish s "COM3" false in
  isSimulating (controller s') = false /\
  simulationInterval (controller s') = false /\
  isArduinoConnected (controller s') = true /\
  answer = ConnectedTo "COM3" /\
  effs = [Serial.OpenPort "COM3"].
Proof.
  assert (Hp : "COM3" <> "") by discriminate.
  assert (H : isSimulating
                (controller {| controller := fst (startSimulation fresh true);
                               retries := 0 |})
              = simulationInterval
                (controller {| controller := fst (startSimulation fresh true);
                               retries := 0 |}))
    by reflexivity.
  split; [exact Hp|]. split; [exact H|].
  exact (connect_route_outcome _ "COM3" false Hp H).
Defined.

(** Both failure causes, from the simulating controller: a constructor
    that throws, and a connection still marked connected. *)
Example connect_route_constructor_throws :
  let s := {| controller := fst (startSimulation fresh true); retries := 0 |} in
  let '(s', answer, effs) := connect_route_finish s "COM3" true in
  answer = ConnectFailed "COM3" /\ effs = [Serial.SetTimeout3000] /\
  isArduinoConnected (controller s') = false /\
  isSimulating (controller s') = false /\ retries s' = 1%nat.
Proof. repeat split. Qed.

Example connect_route_still_connected :
  let c := fst (startSimulation fresh true) in
  let s := {| controller :=
                set_arduino c (Serial.set_isConnected (arduino c) true);
              retries := 0 |} in
  let '(s', answer, effs) := connect_route_finish s "COM3" false in
  answer = ConnectFailed "COM3" /\ effs = [] /\
  isArduinoConnected (controller s') = false /\
  isSimulating (controller s') = false.
Proof. repeat split. Qed.

(** X15.  [POST /disconnect] with the port connected closes it, clears
    [isArduinoConnected] and falls back to the simulation, which is
    running afterwards; a second request finds no active connection
    and changes nothing. *)
Theorem disconnect_route_falls_back (s : System) :
  Display.isPortConnected (arduino (controller s)) = true ->
  let '(s', answer, effs) := disconnect_route s in
  answer = Disconnected /\ effs = [Serial.ClosePort] /\
  isArduinoConnected (controller s') = false /\
  isSimulating (controller s') = true /\
  Display.isPortConnected (arduino (controller s')) = false /\
  retries s' = retries s /\
  disconnect_route s' = (s', NoActiveConnection true, []).
Proof.
  intro Hp. unfold disconnect_route at 1. rewrite Hp.
  unfold Display.isPortConnected in Hp.
  destruct s as [c n]. destruct c as [bd sim itv last a flag full].
  destruct a as [po ic cd cb ca mr].
  cbn in Hp. destruct ic; [|discriminate].
  destruct po as [[pa op]|]; [|discriminate]. cbn in Hp. subst op.
  unfold Serial.disconnect, startSimulation. cbn.
  destruct sim; cbn; repeat split.
Qed.

Lemma disconnect_route_falls_back_witness :
  let s := {| controller :=
                set_arduino on_hardware (Serial.conn live);
              retries := 0 |} in
  Display.isPortConnected (arduino (controller s)) = true /\
  let '(s', answer, effs) := disconnect_route s in
  answer = Disconnected /\ effs = [Serial.ClosePort] /\
  isArduinoConnected (controller s') = false /\
  isSimulating (controller s') = true /\
  Display.isPortConnected (arduino (controller s')) = false /\
  retries s' = retries s /\
  disconnect_route s' = (s', NoActiveConnection true, []).
Proof.
  assert (H : Display.isPortConnected
                (arduino (controller
                   {| controller := set_arduino on_hardware (Serial.conn live);
                      retries := 0 |})) = true) by reflexivity.
  split; [exact H|].
  apply (disconnect_route_falls_back _ H).
Defined.

End ModeProperties.

(* ===================================================================== *)
(** * The progress bars *)
(* ===================================================================== *)

Module DisplayFacts.
Import JS NumericFacts.
Import Serial Display.

Lemma createBar_cells (p : Q) (b : Bar) :
  createBar p 20 = Some b ->
  (0 <= filled b)%Z /\ (0 <= blank b)%Z /\ (filled b + blank b = 20)%Z.
Proof.
  unfold createBar.
  set (n := Qfloor (p / 100 * inject_Z 20 + (1 # 2))). clearbody n.
  destruct (n <? 0)%Z eqn:E1; [discriminate|].
  destruct (20 - n <? 0)%Z eqn:E2; [discriminate|].
  intros [= <-]. cbn. apply Z.ltb_ge in E1, E2. lia.
Qed.

Lemma createBar_throws (p : Q) :
  0 <= p -> (createBar p 20 = None <-> 205 # 2 <= p).
Proof.
  intro Hp. unfold createBar.
  set (x := p / 100 * inject_Z 20 + (1 # 2)).
  assert (Ex : x == p * (1 # 5) + (1 # 2)).
  { subst x. change (inject_Z 20) with 20. unfold Qdiv.
    change (/ 100) with (1 # 100). ring. }
  clearbody x.
  assert (Hlo := Qfloor_le x). assert (Hhi := Qlt_floor x).
  rewrite inject_Z_plus in Hhi. change (inject_Z 1) with 1 in Hhi.
  assert (H0 : (0 <= Qfloor x)%Z).
  { change 0%Z with (Qfloor 0). apply Qfloor_resp_le. lra. }
  destruct (Qfloor x <? 0)%Z eqn:E1; [apply Z.ltb_lt in E1; lia|].
  destruct (20 - Qfloor x <? 0)%Z eqn:E2.
  - apply Z.ltb_lt in E2. split; [intros _|reflexivity].
    assert (H21 : inject_Z 21 <= inject_Z (Qfloor x))
      by (rewrite <- Zle_Qle; lia).
    change (inject_Z 21) with 21 in H21. lra.
  - apply Z.ltb_ge in E2. split; [discriminate|]. intro H.
    exfalso.
    assert (H21 : inject_Z (Qfloor x) < inject_Z 21).
    { rewrite <- Zlt_Qlt. lia. }
    assert (Hf : (21 <= Qfloor x)%Z).
    { change 21%Z with (Qfloor 21). apply Qfloor_resp_le. lra. }
    lia.
Qed.

Lemma createBar_overflows (p : Q) :
  0 <= p ->
  match createBar p 20 with None => true | Some _ => false end
  = Qle_bool (205 # 2) p.
Proof.
  intro Hp. pose proof (createBar_throws p Hp) as H.
  destruct (createBar p 20) as [b|]; destruct (Qle_bool (205 # 2) p) eqn:E;
    try reflexivity.
  - apply Qle_bool_iff in E. apply H in E. discriminate.
  - assert (E' : Qle_bool (205 # 2) p = true)
      by (apply Qle_bool_iff; now apply H).
    congruence.
Qed.

(** [displayPedalData] throws exactly when the bars are drawn and one
    of them overflows. *)
Lemma displayPedalData_throws (d : PedalData) (clock : Z) :
  0 <= pd_percentage (throttle d) ->
  0 <= pd_percentage (brake d) ->
  0 <= pd_percentage (clutch d) ->
  displayPedalData d clock
  = negb ((Z.rem clock 3000 <? 100)%Z && negb (bars_fit d)).
Proof.
  intros Ht Hb Hc. unfold displayPedalData, bars_fit, bar_overflows.
  rewrite <- (createBar_overflows _ Ht), <- (createBar_overflows _ Hb),
    <- (createBar_overflows _ Hc).
  destruct (Z.rem clock 3000 <? 100)%Z; [|reflexivity].
  destruct (createBar (pd_percentage (throttle d)) 20),
    (createBar (pd_percentage (brake d)) 20),
    (createBar (pd_percentage (clutch d)) 20); reflexivity.
Qed.

Lemma Qle_bool_above (x y : Q) : y < x -> Qle_bool x y = false.
Proof.
  intro H. destruct (Qle_bool x y) eqn:E; [|reflexivity].
  apply Qle_bool_iff in E. lra.
Qed.

End DisplayFacts.

(* ===================================================================== *)
(** * The line parser on well-formed lines *)
(* ===================================================================== *)

Module ParserProperties.
Import Regex Serial Shapes NumericFacts DisplayFacts.
Import Display.

Lemma append_assoc (a b c : string) : (a ++ b) ++ c = a ++ (b ++ c).
Proof.
  induction a as [|x a IH]; [reflexivity|].
  change (String x ((a ++ b) ++ c) = String x (a ++ b ++ c)). now f_equal.
Qed.

Lemma chars_app (a b : string) :
  list_ascii_of_string (a ++ b) =
  (list_ascii_of_string a ++ list_ascii_of_string b)%list.
Proof.
  induction a as [|x a IH]; [reflexivity|].
  change (x :: list_ascii_of_string (a ++ b) =
          x :: (list_ascii_of_string a ++ list_ascii_of_string b)%list).
  now f_equal.
Qed.

Lemma literal_app (lit rest : string) : literal lit (lit ++ rest) = Some rest.
Proof.
  induction lit as [|x lit IH]; [reflexivity|].
  change (literal (String x lit) (String x (lit ++ rest)) = Some rest).
  cbn [literal]. now rewrite Ascii.eqb_refl.
Qed.

Lemma literal_head (x y : ascii) (lit s : string) :
  x <> y -> literal (String x lit) (String y s) = None.
Proof.
  intro H. cbn [literal]. destruct (Ascii.eqb x y) eqn:E; [|reflexivity].
  apply Ascii.eqb_eq in E. contradiction.
Qed.

Lemma all_chars_cons (p : ascii -> bool) (c : ascii) (s : string) :
  all_chars p (String c s) <-> p c = true /\ all_chars p s.
Proof.
  unfold all_chars.
  change (list_ascii_of_string (String c s))
    with (c :: list_ascii_of_string s).
  split.
  - intro H. split; [apply H; now left | intros x Hx; apply H; now right].
  - intros [H1 H2] x [<- | Hx]; auto.
Qed.

Lemma all_chars_app (p : ascii -> bool) (a b : string) :
  all_chars p (a ++ b) <-> all_chars p a /\ all_chars p b.
Proof.
  unfold all_chars. rewrite chars_app. split.
  - intro H. split; intros c Hc; apply H; apply in_or_app; auto.
  - intros [H1 H2] c Hc. apply in_app_or in Hc. destruct Hc; auto.
Qed.

Lemma all_chars_forallb (p : ascii -> bool) (s : string) :
  forallb p (list_ascii_of_string s) = true -> all_chars p s.
Proof.
  intros H c Hc. rewrite forallb_forall in H. now apply H.
Qed.

Lemma skip_while_all (p : ascii -> bool) (s : string) (c : ascii) (t : string) :
  all_chars p s -> p c = false ->
  skip_while p (s ++ String c t) = String c t.
Proof.
  intros Hs Hc. induction s as [|x s IH].
  - simpl. now rewrite Hc.
  - apply all_chars_cons in Hs. destruct Hs as [Hx Hs].
    simpl. rewrite Hx. now apply IH.
Qed.

Lemma take_while_all (p : ascii -> bool) (s : string) (c : ascii) (t : string) :
  all_chars p s -> p c = false ->
  take_while p (s ++ String c t) = s.
Proof.
  intros Hs Hc. induction s as [|x s IH].
  - simpl. now rewrite Hc.
  - apply all_chars_cons in Hs. destruct Hs as [Hx Hs].
    simpl. rewrite Hx. now rewrite IH.
Qed.

Lemma digits_all (s : string) : digits s -> all_chars is_digit s.
Proof. intros [_ H]. exact H. Qed.

Lemma digits1_run (d : string) (c : ascii) (t : string) :
  digits d -> is_digit c = false ->
  digits1 (d ++ String c t) = Some (d, String c t).
Proof.
  intros [Hne Hd] Hc. unfold digits1.
  rewrite (take_while_all _ _ _ _ Hd Hc), (skip_while_all _ _ _ _ Hd Hc).
  destruct d; [contradiction | reflexivity].
Qed.

Lemma digit_not_space (c : ascii) : is_digit c = true -> is_space c = false.
Proof.
  destruct c as [[] [] [] [] [] [] [] []]; vm_compute; congruence.
Qed.

(** One channel is recognised where it starts, whatever follows. *)
Lemma pedal_at_channel (label v p rest : string) :
  digits v -> digits p ->
  pedal_at label (channel label v p ++ rest) = Some (v, p).
Proof.
  intros Hv Hp. unfold channel, pedal_at.
  rewrite !append_assoc, literal_app.
  assert (Hskip : skip_while is_space
                    (" " ++ v ++ "/1023 (" ++ p ++ "%)" ++ rest)
                  = v ++ "/1023 (" ++ p ++ "%)" ++ rest).
  { destruct Hv as [Hne Hd]. destruct v as [|x v]; [contradiction|].
    simpl. rewrite digit_not_space; [reflexivity|].
    apply Hd. now left. }
  rewrite Hskip.
  change (v ++ "/1023 (" ++ p ++ "%)" ++ rest)
    with (v ++ String "/" ("1023 (" ++ p ++ "%)" ++ rest)).
  rewrite (digits1_run v "/"%char _ Hv eq_refl).
  change (String "/" ("1023 (" ++ p ++ "%)" ++ rest))
    with ("/1023" ++ (" (" ++ p ++ "%)" ++ rest)).
  rewrite literal_app.
  change (skip_while is_space (" (" ++ p ++ "%)" ++ rest))
    with (String "(" (p ++ "%)" ++ rest)).
  change (String "(" (p ++ "%)" ++ rest)) with ("(" ++ (p ++ "%)" ++ rest)).
  rewrite literal_app.
  change (p ++ "%)" ++ rest) with (p ++ String "%" (")" ++ rest)).
  rewrite (digits1_run p "%"%char _ Hp eq_refl).
  change (String "%" (")" ++ rest)) with ("%)" ++ rest).
  rewrite literal_app. reflexivity.
Qed.

(** A match cannot start inside a prefix none of whose suffixes the
    anchored matcher accepts. *)
Lemma search_skip {A : Type} (f : string -> option A) (pre rest : string) :
  (forall a b, pre = a ++ b -> b <> EmptyString -> f (b ++ rest) = None) ->
  search f (pre ++ rest) = search f rest.
Proof.
  induction pre as [|x pre IH]; intro H; [reflexivity|].
  assert (H0 : f (String x (pre ++ rest)) = None)
    by (apply (H EmptyString (String x pre) eq_refl); discriminate).
  change (String x pre ++ rest) with (String x (pre ++ rest)).
  simpl. rewrite H0.
  apply IH. intros a b -> Hb. apply (H (String x a) b); [reflexivity|exact Hb].
Qed.

Lemma suffix_head_in (a b : string) (c : ascii) (t : string) :
  b = String c t -> In c (list_ascii_of_string (a ++ b)).
Proof.
  intros ->. rewrite chars_app. apply in_or_app. right. now left.
Qed.

(** A labelled channel cannot start inside a prefix that does not
    contain the first letter of the label. *)
Lemma search_skip_label (x : ascii) (label pre rest : string) :
  all_chars (fun c => negb (Ascii.eqb x c)) pre ->
  search (pedal_at (String x label)) (pre ++ rest) =
  search (pedal_at (String x label)) rest.
Proof.
  intro H. apply search_skip. intros a b -> Hb.
  destruct b as [|c t]; [contradiction|].
  assert (Hc := H c (suffix_head_in a _ c t eq_refl)).
  apply Bool.negb_true_iff in Hc.
  unfold pedal_at.
  change (String c t ++ rest) with (String c (t ++ rest)).
  rewrite literal_head; [reflexivity|].
  intro E. subst. rewrite Ascii.eqb_refl in Hc. discriminate.
Qed.

Lemma search_here {A : Type} (f : string -> option A) (s : string) (r : A) :
  f s = Some r -> search f s = Some r.
Proof. intro H. destruct s; simpl; now rewrite H. Qed.

Lemma digits_avoid (x : ascii) (d : string) :
  is_digit x = false -> digits d ->
  all_chars (fun c => negb (Ascii.eqb x c)) d.
Proof.
  intros Hx [_ Hd] c Hc. apply Bool.negb_true_iff.
  destruct (Ascii.eqb x c) eqn:E; [|reflexivity].
  apply Ascii.eqb_eq in E. subst. rewrite (Hd c Hc) in Hx. discriminate.
Qed.

Lemma channel_avoids (x : ascii) (label v p : string) :
  is_digit x = false -> digits v -> digits p ->
  forallb (fun c => negb (Ascii.eqb x c))
    (list_ascii_of_string (label ++ " /1023 (%)")) = true ->
  all_chars (fun c => negb (Ascii.eqb x c)) (channel label v p).
Proof.
  intros Hx Hv Hp Hl. apply all_chars_forallb in Hl.
  apply all_chars_app in Hl. destruct Hl as [Hlabel Hrest].
  unfold channel. repeat (apply all_chars_app; split);
    try (now apply digits_avoid); try exact Hlabel.
  all: intros c Hc; apply Hrest; cbn in Hc |- *; tauto.
Qed.

Lemma status_at_no_space (s r : string) :
  status_at s = Some r ->
  existsb (Ascii.eqb " ") (list_ascii_of_string s) = false.
Proof.
  unfold status_at.
  repeat match goal with
         | |- context [String.eqb s ?tok] =>
             let E := fresh "E" in
             destruct (String.eqb s tok) eqn:E;
             [apply String.eqb_eq in E; subst; intros _; reflexivity|]
         end.
  discriminate.
Qed.

Lemma suffix_ends (a b P : string) (z : ascii) :
  a ++ b = P ++ String z EmptyString -> b <> EmptyString ->
  exists b', b = b' ++ String z EmptyString.
Proof.
  revert P. induction a as [|x a IH]; intros P H Hb.
  - exists P. exact H.
  - destruct P as [|y P].
    + simpl in H. injection H as _ H.
      destruct a; [simpl in H; contradiction | discriminate].
    + simpl in H. injection H as _ H. now apply (IH P).
Qed.

(** The status word cannot start inside a prefix that ends in a
    space. *)
Lemma search_skip_status (P st : string) :
  search status_at ((P ++ " ") ++ st) = search status_at st.
Proof.
  apply search_skip. intros a b H Hb.
  destruct (suffix_ends a b P " "%char (eq_sym H) Hb) as [b' ->].
  destruct (status_at ((b' ++ " ") ++ st)) as [r|] eqn:E; [|reflexivity].
  apply status_at_no_space in E.
  rewrite !chars_app, !existsb_app in E. simpl in E.
  rewrite Bool.orb_true_r in E. discriminate.
Qed.

Lemma search_status_word (st : string) :
  status_word st -> search status_at st = Some st.
Proof. intros [-> | [-> | [-> | ->]]]; reflexivity. Qed.

Section WellFormed.

Variables tv tp bv bp cv cp st : string.
Hypothesis Htv : digits tv.
Hypothesis Htp : digits tp.
Hypothesis Hbv : digits bv.
Hypothesis Hbp : digits bp.
Hypothesis Hcv : digits cv.
Hypothesis Hcp : digits cp.
Hypothesis Hst : status_word st.

Local Abbreviation line := (pedal_line tv tp bv bp cv cp st).

Lemma throttleMatch_line : throttleMatch line = Some (tv, tp).
Proof.
  unfold throttleMatch, pedal_line. apply search_here.
  now apply pedal_at_channel.
Qed.

Lemma brakeMatch_line : brakeMatch line = Some (bv, bp).
Proof.
  unfold brakeMatch, pedal_line.
  rewrite <- (append_assoc (channel "Acel:" tv tp) " | ").
  rewrite search_skip_label.
  - apply search_here. now apply pedal_at_channel.
  - apply all_chars_app. split.
    + now apply channel_avoids.
    + now apply all_chars_forallb.
Qed.

Lemma clutchMatch_line : clutchMatch line = Some (cv, cp).
Proof.
  unfold clutchMatch, pedal_line.
  replace (channel "Acel:" tv tp ++ " | " ++ channel "Freno:" bv bp ++ " | " ++
           channel "Clutch:" cv cp ++ " | " ++ st)
    with (((channel "Acel:" tv tp ++ " | ") ++
           (channel "Freno:" bv bp ++ " | ")) ++
          channel "Clutch:" cv cp ++ " | " ++ st)
    by (rewrite !append_assoc; reflexivity).
  rewrite search_skip_label.
  - apply search_here. now apply pedal_at_channel.
  - apply all_chars_app. split; apply all_chars_app; split;
      first [ now apply channel_avoids | now apply all_chars_forallb ].
Qed.

Lemma statusMatch_line : statusMatch line = Some st.
Proof.
  unfold statusMatch, pedal_line.
  replace (channel "Acel:" tv tp ++ " | " ++ channel "Freno:" bv bp ++ " | " ++
           channel "Clutch:" cv cp ++ " | " ++ st)
    with (((channel "Acel:" tv tp ++ " | " ++ channel "Freno:" bv bp ++ " | " ++
            channel "Clutch:" cv cp ++ " |") ++ " ") ++ st).
  - rewrite search_skip_status. now apply search_status_word.
  - rewrite !append_assoc. reflexivity.
Qed.

End WellFormed.

Lemma digits_check (s : string) :
  s <> EmptyString ->
  forallb is_digit (list_ascii_of_string s) = true -> digits s.
Proof. intros H1 H2. split; [exact H1 | now apply all_chars_forallb]. Qed.

Lemma parseInt_from_nonneg (s : string) (acc : Z) :
  all_chars is_digit s -> (0 <= acc)%Z -> (0 <= parseInt_from acc s)%Z.
Proof.
  revert acc. induction s as [|c s IH]; intros acc Hs Hacc; [exact Hacc|].
  apply all_chars_cons in Hs. destruct Hs as [Hc Hs].
  simpl. apply IH; [exact Hs|].
  unfold is_digit in Hc. apply andb_prop in Hc. destruct Hc as [Hc _].
  apply N.leb_le in Hc. lia.
Qed.

Lemma parseInt_nonneg (s : string) : digits s -> 0 <= parseInt s.
Proof.
  intros [_ H]. unfold parseInt. change 0 with (inject_Z 0).
  rewrite <- Zle_Qle. now apply parseInt_from_nonneg.
Qed.

(** A line that starts and ends with something else than white space
    is its own trimmed form. *)
Lemma trim_fixed (c z : ascii) (t s' : string) :
  String c t = s' ++ String z EmptyString ->
  is_space c = false -> is_space z = false ->
  trim (String c t) = String c t.
Proof.
  intros E Hc Hz. unfold trim.
  assert (H1 : skip_while is_space (String c t) = String c t)
    by (simpl; now rewrite Hc).
  rewrite H1, E, chars_app, rev_app_distr. simpl.
  rewrite Hz. simpl.
  rewrite list_ascii_of_string_of_list_ascii.
  rewrite rev_involutive.
  change [z] with (list_ascii_of_string (String z EmptyString)).
  rewrite <- chars_app. apply string_of_list_ascii_of_string.
Qed.

Lemma status_word_last (st : string) :
  status_word st ->
  exists s' z, st = s' ++ String z EmptyString /\ is_space z = false.
Proof.
  intros [-> | [-> | [-> | ->]]].
  - exists "ACELERAND", "O"%char. split; reflexivity.
  - exists "FRENAND", "O"%char. split; reflexivity.
  - exists "EMBRAGU", "E"%char. split; reflexivity.
  - exists "LIBERADO", "S"%char. split; reflexivity.
Qed.

Lemma trim_pedal_line (tv tp bv bp cv cp st : string) :
  status_word st ->
  trim (pedal_line tv tp bv bp cv cp st) = pedal_line tv tp bv bp cv cp st.
Proof.
  intro Hst. destruct (status_word_last st Hst) as (s' & z & -> & Hz).
  set (l := pedal_line tv tp bv bp cv cp (s' ++ String z EmptyString)).
  assert (Hhead : exists t, l = String "A" t)
    by (eexists; reflexivity).
  destruct Hhead as [t Ht].
  assert (Hlast : l = (channel "Acel:" tv tp ++ " | " ++
                       channel "Freno:" bv bp ++ " | " ++
                       channel "Clutch:" cv cp ++ " | " ++ s')
                      ++ String z EmptyString)
    by (subst l; unfold pedal_line; rewrite !append_assoc; reflexivity).
  rewrite Ht in Hlast |- *.
  now apply (trim_fixed _ z _ _ Hlast).
Qed.

(** ** What the matchers capture *)

Lemma take_while_holds (p : ascii -> bool) (s : string) :
  all_chars p (take_while p s).
Proof.
  induction s as [|c s IH]; simpl.
  - intros x [].
  - destruct (p c) eqn:E; [|intros x []].
    apply all_chars_cons. now split.
Qed.

Lemma digits1_digits (s ds rest : string) :
  digits1 s = Some (ds, rest) -> digits ds.
Proof.
  unfold digits1. pose proof (take_while_holds is_digit s) as H.
  destruct (take_while is_digit s) as [|c t] eqn:E; [discriminate|].
  intros [= <- _]. split; [discriminate | exact H].
Qed.

Lemma pedal_at_digits (label s : string) (m : string * string) :
  pedal_at label s = Some m -> digits (fst m) /\ digits (snd m).
Proof.
  unfold pedal_at.
  destruct (literal label s) as [s1|]; [|discriminate].
  destruct (digits1 (skip_while is_space s1)) as [[g1 s2]|] eqn:E1;
    [|discriminate].
  destruct (literal "/1023" s2) as [s3|]; [|discriminate].
  destruct (literal "(" (skip_while is_space s3)) as [s4|]; [|discriminate].
  destruct (digits1 s4) as [[g2 s5]|] eqn:E2; [|discriminate].
  destruct (literal "%)" s5); [|discriminate].
  intros [= <-]. split; [eapply digits1_digits, E1 | eapply digits1_digits, E2].
Qed.

Lemma search_found {A : Type} (f : string -> option A) (s : string) (r : A) :
  search f s = Some r -> exists s', f s' = Some r.
Proof.
  induction s as [|c s IH]; simpl.
  - destruct (f EmptyString) eqn:E; [|discriminate].
    intros [= <-]. now exists EmptyString.
  - destruct (f (String c s)) eqn:E.
    + intros [= <-]. now exists (String c s).
    + exact IH.
Qed.

(** Whatever the line, a captured percentage is a number from 0 up. *)
Lemma captured_nonneg (label raw : string) (m : string * string) :
  search (pedal_at label) raw = Some m ->
  0 <= pd_percentage (pedal_of m).
Proof.
  intro H. apply search_found in H. destruct H as [s' H].
  apply pedal_at_digits in H. now apply parseInt_nonneg.
Qed.

(** ** Well-formed lines, display included *)

Lemma parse_displaying_well_formed
  (tv tp bv bp cv cp st : string) (a : Connection) (now : Q) (clock : Z) :
  digits tv -> digits tp -> digits bv -> digits bp ->
  digits cv -> digits cp -> status_word st ->
  let line := pedal_line tv tp bv bp cv cp st in
  let d := {| throttle := pedal_of (tv, tp);
              brake := pedal_of (bv, bp);
              clutch := pedal_of (cv, cp);
              status := st;
              pd_timestamp := now;
              rawData := Some line |} in
  parseArduinoData_displaying a line now clock =
  ({| port := port a; isConnected := isConnected a; currentData := d;
      dataCallback := dataCallback a;
      connectionAttempts := connectionAttempts a;
      maxRetries := maxRetries a |},
   if (Z.rem clock 3000 <? 100)%Z && negb (bars_fit d) then []
   else if dataCallback a then [DataEvent d] else []).
Proof.
  intros Htv Htp Hbv Hbp Hcv Hcp Hst line d.
  unfold parseArduinoData_displaying. fold line.
  unfold line at 1 2 3 4.
  rewrite (throttleMatch_line tv tp bv bp cv cp st Htv Htp),
    (brakeMatch_line tv tp bv bp cv cp st Htv Htp Hbv Hbp),
    (clutchMatch_line tv tp bv bp cv cp st Htv Htp Hbv Hbp Hcv Hcp),
    (statusMatch_line tv tp bv bp cv cp st Hst).
  fold d. rewrite (displayPedalData_throws d clock).
  - destruct ((Z.rem clock 3000 <? 100)%Z && negb (bars_fit d)); reflexivity.
  - now apply parseInt_nonneg.
  - now apply parseInt_nonneg.
  - now apply parseInt_nonneg.
Qed.

(** X16.  Every line of the documented shape is understood.  For
    decimal numerals (at most 15 digits, which [parseInt] reads
    exactly) and one of the four status words, [parseArduinoData]
    stores the three channels with the numbers as
    written ([active] being [percentage > 0]), the status and the raw
    line.  It hands exactly that record to the registered callback,
    except when the bars are drawn ([Date.now() % 3000 < 100]) and one
    of the three percentages is 102.5 or more: then the display throws
    and nothing is handed over. *)
Theorem parseArduinoData_well_formed
  (tv tp bv bp cv cp st : string) (a : Connection) (now : Q) (clock : Z) :
  numeral tv -> numeral tp -> numeral bv -> numeral bp ->
  numeral cv -> numeral cp -> status_word st ->
  let line := pedal_line tv tp bv bp cv cp st in
  let d := {| throttle := pedal_of (tv, tp);
              brake := pedal_of (bv, bp);
              clutch := pedal_of (cv, cp);
              status := st;
              pd_timestamp := now;
              rawData := Some line |} in
  parseArduinoData_displaying a line now clock =
  ({| port := port a; isConnected := isConnected a; currentData := d;
      dataCallback := dataCallback a;
      connectionAttempts := connectionAttempts a;
      maxRetries := maxRetries a |},
   if (Z.rem clock 3000 <? 100)%Z && negb (bars_fit d) then []
   else if dataCallback a then [DataEvent d] else []).
Proof.
  intros [Htv _] [Htp _] [Hbv _] [Hbp _] [Hcv _] [Hcp _] Hst.
  exact (parse_displaying_well_formed tv tp bv bp cv cp st a now clock
           Htv Htp Hbv Hbp Hcv Hcp Hst).
Qed.

Lemma numeral_check (s : string) :
  s <> EmptyString ->
  forallb is_digit (list_ascii_of_string s) = true ->
  (String.length s <=? 15)%nat = true -> numeral s.
Proof.
  intros H1 H2 H3. split; [now apply digits_check | now apply Nat.leb_le].
Qed.

Lemma parseArduinoData_well_formed_witness :
  numeral "0" /\ numeral "0" /\ numeral "512" /\ numeral "50" /\
  numeral "0" /\ numeral "0" /\ status_word "FRENANDO" /\
  let line := pedal_line "0" "0" "512" "50" "0" "0" "FRENANDO" in
  let a := Controller.arduino Scenario.on_hardware in
  let d := {| throttle := pedal_of ("0", "0");
              brake := pedal_of ("512", "50");
              clutch := pedal_of ("0", "0");
              status := "FRENANDO";
              pd_timestamp := 9;
              rawData := Some line |} in
  parseArduinoData_displaying a line 9 6000050 =
  ({| port := port a; isConnected := isConnected a; currentData := d;
      dataCallback := dataCallback a;
      connectionAttempts := connectionAttempts a;
      maxRetries := maxRetries a |},
   if (Z.rem 6000050 3000 <? 100)%Z && negb (bars_fit d) then []
   else if dataCallback a then [DataEvent d] else []).
Proof.
  assert (D0 : numeral "0")
    by (apply numeral_check; [discriminate|reflexivity|reflexivity]).
  assert (D512 : numeral "512")
    by (apply numeral_check; [discriminate|reflexivity|reflexivity]).
  assert (D50 : numeral "50")
    by (apply numeral_check; [discriminate|reflexivity|reflexivity]).
  assert (S : status_word "FRENANDO") by (right; left; reflexivity).
  repeat (split; [assumption|]).
  apply (parseArduinoData_well_formed "0" "0" "512" "50" "0" "0" "FRENANDO"
           (Controller.arduino Scenario.on_hardware) 9 6000050
           D0 D0 D512 D50 D0 D0 S).
Defined.

(** The sample line is delivered while the bars are drawn; the same
    line with 150 for the brake percentage is stored and not
    delivered; between two drawings it is delivered too. *)
Example sample_line_delivered :
  let a := Controller.arduino Scenario.on_hardware in
  dataCallback a = true /\
  (exists d, snd (parseArduinoData_displaying a Scenario.sample_line 9 6000050)
             = [DataEvent d] /\ pd_percentage (brake d) == 50) /\
  snd (parseArduinoData_displaying a
         (pedal_line "0" "0" "1023" "150" "0" "0" "FRENANDO") 9 6000050)
    = [] /\
  (exists d, snd (parseArduinoData_displaying a
                    (pedal_line "0" "0" "1023" "150" "0" "0" "FRENANDO")
                    9 6000100)
             = [DataEvent d] /\ pd_percentage (brake d) == 150).
Proof.
  split; [reflexivity|]. split; [|split].
  - eexists. split; [vm_compute; reflexivity | reflexivity].
  - vm_compute. reflexivity.
  - eexists. split; [vm_compute; reflexivity | reflexivity].
Qed.

End ParserProperties.

(* ===================================================================== *)
(** * From the serial line to the snapshot *)
(* ===================================================================== *)

Module HardwareProperties.
Import JS BrakeModel NumericFacts Shapes DisplayFacts ParserProperties.
Import Controller.

(** X17.  A well-formed line (numerals of at most 15 digits, which
    [parseInt] reads exactly) reaches the snapshot untouched by the
    calibration.  With the callback registered, and unless the display
    throws (the bars are drawn and a percentage is 102.5 or more), the
    brake channel's value and percentage are stored as written,
    [force] is [percentage / 100 * maxForce] (no dead zone, no clamp),
    [active] is [percentage > 0], and the configuration is kept; the
    simulation flags and [isArduinoConnected] are not consulted. *)
Theorem well_formed_line_reaches_snapshot
  (tv tp bv bp cv cp st : string) (c : State) (now : Q) (clock : Z)
  (now1 now2 : Q) :
  numeral tv -> numeral tp -> numeral bv -> numeral bp ->
  numeral cv -> numeral cp -> status_word st ->
  Serial.dataCallback (arduino c) = true ->
  (100 <= Z.rem clock 3000)%Z \/
  (Regex.parseInt tp < 205 # 2 /\ Regex.parseInt bp < 205 # 2 /\
   Regex.parseInt cp < 205 # 2) ->
  let c' := Mode.on_serial_line_displaying c (pedal_line tv tp bv bp cv cp st)
              now clock now1 now2 in
  let d' := brakeData c' in
  value d' = Regex.parseInt bv /\
  percentage d' = Regex.parseInt bp /\
  0 <= percentage d' /\
  force d' = Regex.parseInt bp / 100 * maxForce (brakeData c) /\
  active d' = ltb 0 (Regex.parseInt bp) /\
  rawReading d' = 8388607 + force d' * 1000000 /\
  maxForce d' = maxForce (brakeData c) /\
  deadZone d' = deadZone (brakeData c) /\
  timestamp d' = now1 /\
  Serial.brake (Serial.currentData (arduino c')) = Serial.pedal_of (bv, bp).
Proof.
  intros [Htv _] [Htp _] [Hbv _] [Hbp _] [Hcv _] [Hcp _] Hst Hcb Hshow c' d'.
  subst d' c'.
  unfold Mode.on_serial_line_displaying, Display.on_data_displaying.
  rewrite (trim_pedal_line _ _ _ _ _ _ _ Hst).
  rewrite (parse_displaying_well_formed tv tp bv bp cv cp st (arduino c)
             now clock Htv Htp Hbv Hbp Hcv Hcp Hst).
  match goal with
  | |- context [andb ?w (negb ?f)] =>
      assert (Hno : andb w (negb f) = false)
  end.
  { destruct Hshow as [Hout | (Ht & Hb & Hc)].
    - apply Z.ltb_ge in Hout. rewrite Hout. reflexivity.
    - unfold Display.bars_fit, Display.bar_overflows.
      cbn [Serial.throttle Serial.brake Serial.clutch Serial.pedal_of
           Serial.pd_percentage fst snd].
      rewrite (Qle_bool_above _ _ Ht), (Qle_bool_above _ _ Hb),
        (Qle_bool_above _ _ Hc).
      apply Bool.andb_false_r. }
  rewrite Hno, Hcb. cbn.
  repeat split. now apply parseInt_nonneg.
Qed.

Lemma well_formed_line_reaches_snapshot_witness :
  numeral "0" /\ numeral "0" /\ numeral "1023" /\ numeral "150" /\
  numeral "0" /\ numeral "0" /\ status_word "FRENANDO" /\
  Serial.dataCallback (arduino Scenario.on_hardware) = true /\
  ((100 <= Z.rem 6000100 3000)%Z \/
   (Regex.parseInt "0" < 205 # 2 /\ Regex.parseInt "150" < 205 # 2 /\
    Regex.parseInt "0" < 205 # 2)) /\
  let c' := Mode.on_serial_line_displaying Scenario.on_hardware
              (pedal_line "0" "0" "1023" "150" "0" "0" "FRENANDO")
              7 6000100 8 9 in
  let d' := brakeData c' in
  value d' = Regex.parseInt "1023" /\
  percentage d' = Regex.parseInt "150" /\
  0 <= percentage d' /\
  force d' = Regex.parseInt "150" / 100 * maxForce (brakeData Scenario.on_hardware) /\
  active d' = ltb 0 (Regex.parseInt "150") /\
  rawReading d' = 8388607 + force d' * 1000000 /\
  maxForce d' = maxForce (brakeData Scenario.on_hardware) /\
  deadZone d' = deadZone (brakeData Scenario.on_hardware) /\
  timestamp d' = 8 /\
  Serial.brake (Serial.currentData (arduino c'))
    = Serial.pedal_of ("1023", "150").
Proof.
  assert (D0 : numeral "0")
    by (apply numeral_check; [discriminate|reflexivity|reflexivity]).
  assert (D1 : numeral "1023")
    by (apply numeral_check; [discriminate|reflexivity|reflexivity]).
  assert (D2 : numeral "150")
    by (apply numeral_check; [discriminate|reflexivity|reflexivity]).
  assert (S : status_word "FRENANDO") by (right; left; reflexivity).
  assert (C : Serial.dataCallback (arduino Scenario.on_hardware) = true)
    by reflexivity.
  assert (W : (100 <= Z.rem 6000100 3000)%Z \/
              (Regex.parseInt "0" < 205 # 2 /\
               Regex.parseInt "150" < 205 # 2 /\
               Regex.parseInt "0" < 205 # 2))
    by (left; vm_compute; discriminate).
  repeat (split; [assumption|]).
  apply (well_formed_line_reaches_snapshot
           "0" "0" "1023" "150" "0" "0" "FRENANDO" Scenario.on_hardware
           7 6000100 8 9 D0 D0 D1 D2 D0 D0 S C W).
Defined.

(** The same line arriving while the bars are drawn changes
    [currentData] of the connection and nothing of the snapshot. *)
Lemma overflowing_line_leaves_snapshot
  (tv tp bv bp cv cp st : string) (c : State) (now : Q) (clock : Z)
  (now1 now2 : Q) :
  digits tv -> digits tp -> digits bv -> digits bp ->
  digits cv -> digits cp -> status_word st ->
  (Z.rem clock 3000 < 100)%Z ->
  205 # 2 <= Regex.parseInt tp \/ 205 # 2 <= Regex.parseInt bp \/
  205 # 2 <= Regex.parseInt cp ->
  let c' := Mode.on_serial_line_displaying c (pedal_line tv tp bv bp cv cp st)
              now clock now1 now2 in
  brakeData c' = brakeData c /\
  fullPedalData c' = fullPedalData c /\
  Serial.brake (Serial.currentData (arduino c')) = Serial.pedal_of (bv, bp).
Proof.
  intros Htv Htp Hbv Hbp Hcv Hcp Hst Hin Hover c'. subst c'.
  unfold Mode.on_serial_line_displaying, Display.on_data_displaying.
  rewrite (trim_pedal_line _ _ _ _ _ _ _ Hst).
  rewrite (parse_displaying_well_formed tv tp bv bp cv cp st (arduino c)
             now clock Htv Htp Hbv Hbp Hcv Hcp Hst).
  match goal with
  | |- context [andb ?w (negb ?f)] =>
      assert (Hyes : andb w (negb f) = true)
  end.
  { apply Z.ltb_lt in Hin. rewrite Hin.
    unfold Display.bars_fit, Display.bar_overflows.
    cbn [Serial.throttle Serial.brake Serial.clutch Serial.pedal_of
         Serial.pd_percentage fst snd].
    rewrite Bool.negb_involutive. cbn [andb].
    destruct Hover as [H | [H | H]]; apply Qle_bool_iff in H; rewrite H;
      rewrite ?Bool.orb_true_r; reflexivity. }
  rewrite Hyes. cbn. repeat split.
Qed.

(** X18.  On the hardware path [active] does mean [force > 0].  For
    an event whose brake channel has [active = (percentage > 0)], as
    the parser builds it, and a percentage in [[0, 100]], the snapshot
    written by [processArduinoData] under [maxForce > 0] has [force] in
    [[0, maxForce]] and is active exactly when its force is
    positive. *)
Theorem processArduinoData_force
  (c : State) (e : Serial.PedalData) (now1 now2 : Q) :
  0 < maxForce (brakeData c) ->
  0 <= Serial.pd_percentage (Serial.brake e) ->
  Serial.pd_percentage (Serial.brake e) <= 100 ->
  Serial.pd_active (Serial.brake e)
    = ltb 0 (Serial.pd_percentage (Serial.brake e)) ->
  let d' := brakeData (processArduinoData c e now1 now2) in
  (0 <= force d' /\ force d' <= maxForce d') /\
  (active d' = true <-> 0 < force d') /\
  maxForce d' = maxForce (brakeData c) /\
  deadZone d' = deadZone (brakeData c).
Proof.
  intros Hm H0 H100 Hact d'. subst d'. cbn.
  set (p := Serial.pd_percentage (Serial.brake e)) in *.
  set (m := maxForce (brakeData c)) in *.
  assert (E : p / 100 == p * (1 # 100)) by reflexivity.
  assert (Hlo : 0 <= p / 100 * m).
  { apply Qmult_le_0_compat; [rewrite E|]; lra. }
  assert (Hhi : p / 100 * m <= m).
  { assert (H1 : p / 100 * m <= 1 * m)
      by (apply Qmult_le_compat_r; [rewrite E|]; lra).
    lra. }
  repeat split; try assumption.
  - rewrite Hact. intro H. apply ltb_true in H.
    apply Qmult_lt_0_compat; [rewrite E|]; lra.
  - rewrite Hact. intro H. apply ltb_true.
    destruct (Qlt_le_dec 0 p) as [Hp|Hp]; [exact Hp|].
    assert (Hz : p == 0) by lra.
    rewrite Hz in H. exfalso. apply (Qlt_irrefl 0).
    assert (Z0 : 0 / 100 * m == 0) by (unfold Qdiv; ring).
    rewrite Z0 in H. exact H.
Qed.

Lemma processArduinoData_force_witness :
  let c := Scenario.on_hardware in
  let e := Serial.currentData
             (fst (Serial.parseArduinoData (arduino c)
                     Scenario.sample_line 7)) in
  0 < maxForce (brakeData c) /\
  0 <= Serial.pd_percentage (Serial.brake e) /\
  Serial.pd_percentage (Serial.brake e) <= 100 /\
  Serial.pd_active (Serial.brake e)
    = ltb 0 (Serial.pd_percentage (Serial.brake e)) /\
  let d' := brakeData (processArduinoData c e 8 9) in
  (0 <= force d' /\ force d' <= maxForce d') /\
  (active d' = true <-> 0 < force d') /\
  maxForce d' = maxForce (brakeData c) /\
  deadZone d' = deadZone (brakeData c).
Proof.
  split; [reflexivity|]. split; [vm_compute; discriminate|].
  split; [vm_compute; discriminate|]. split; [vm_compute; reflexivity|].
  apply (processArduinoData_force Scenario.on_hardware _ 8 9);
    [reflexivity | vm_compute; discriminate | vm_compute; discriminate
    | vm_compute; reflexivity].
Defined.

End HardwareProperties.

(* ===================================================================== *)
(** * The display, the retry budget and the ports *)
(* ===================================================================== *)

Module ConnectionProperties.
Import JS NumericFacts Shapes DisplayFacts ParserProperties.
Import Serial Display.

(** X19.  The display never changes what is stored, and it keeps an
    event from the callback in one situation only: the bars are drawn
    ([Date.now() % 3000 < 100]) and one of the three percentages just
    stored is 102.5 or more, so that a bar throws.  In every other
    situation the parser with the display call in it behaves as
    [parseArduinoData] does. *)
Theorem display_is_transparent
  (a : Connection) (raw : string) (now : Q) (clock : Z) :
  let stored := fst (parseArduinoData a raw now) in
  parseArduinoData_displaying a raw now clock =
  (stored,
   if (Z.rem clock 3000 <? 100)%Z && negb (bars_fit (currentData stored))
   then []
   else snd (parseArduinoData a raw now)).
Proof.
  unfold parseArduinoData_displaying, parseArduinoData.
  destruct (throttleMatch raw) as [t|] eqn:Et;
    [|cbn; now destruct (_ && _)].
  destruct (brakeMatch raw) as [b|] eqn:Eb;
    [|cbn; now destruct (_ && _)].
  destruct (clutchMatch raw) as [c|] eqn:Ec;
    [|cbn; now destruct (_ && _)].
  destruct (statusMatch raw) as [s|];
    [|cbn; now destruct (_ && _)].
  cbn [fst snd currentData].
  rewrite displayPedalData_throws.
  - destruct (_ && _); reflexivity.
  - exact (captured_nonneg _ _ _ Et).
  - exact (captured_nonneg _ _ _ Eb).
  - exact (captured_nonneg _ _ _ Ec).
Qed.

(** X20.  A brake percentage of 103 or more is stored but not
    delivered while the bars are drawn.  On a well-formed line whose
    brake percentage is at least 102.5, parsed at a moment with
    [Date.now() % 3000 < 100], [currentData] takes the new values but
    the callback is not called, so the controller's snapshot does not
    follow. *)
Theorem overflowing_bar_skips_callback
  (tv tp bv bp cv cp st : string) (a : Connection) (now : Q) (clock : Z) :
  digits tv -> digits tp -> digits bv -> digits bp ->
  digits cv -> digits cp -> status_word st ->
  (Z.rem clock 3000 < 100)%Z ->
  205 # 2 <= Regex.parseInt bp ->
  let line := pedal_line tv tp bv bp cv cp st in
  let '(a', effs) := parseArduinoData_displaying a line now clock in
  effs = [] /\
  brake (currentData a') = pedal_of (bv, bp) /\
  rawData (currentData a') = Some line.
Proof.
  intros Htv Htp Hbv Hbp Hcv Hcp Hst Hclock Hbig line. subst line.
  unfold parseArduinoData_displaying.
  rewrite (throttleMatch_line tv tp bv bp cv cp st Htv Htp),
    (brakeMatch_line tv tp bv bp cv cp st Htv Htp Hbv Hbp),
    (clutchMatch_line tv tp bv bp cv cp st Htv Htp Hbv Hbp Hcv Hcp),
    (statusMatch_line tv tp bv bp cv cp st Hst).
  unfold displayPedalData.
  apply Z.ltb_lt in Hclock. rewrite Hclock.
  cbn [throttle brake clutch pedal_of pd_percentage fst snd].
  assert (Hb : createBar (Regex.parseInt bp) 20 = None).
  { apply createBar_throws; [now apply parseInt_nonneg | exact Hbig]. }
  rewrite Hb.
  destruct (createBar (Regex.parseInt tp) 20); cbn; repeat split.
Qed.

Lemma overflowing_bar_skips_callback_witness :
  digits "0" /\ digits "0" /\ digits "1023" /\ digits "150" /\
  digits "0" /\ digits "0" /\ status_word "FRENANDO" /\
  (Z.rem 6000050 3000 < 100)%Z /\
  205 # 2 <= Regex.parseInt "150" /\
  let a := Controller.arduino Scenario.fresh in
  let line := pedal_line "0" "0" "1023" "150" "0" "0" "FRENANDO" in
  let '(a', effs) := parseArduinoData_displaying a line 7 6000050 in
  effs = [] /\
  brake (currentData a') = pedal_of ("1023", "150") /\
  rawData (currentData a') = Some line.
Proof.
  assert (D0 : digits "0") by (apply digits_check; [discriminate|reflexivity]).
  assert (D1 : digits "1023")
    by (apply digits_check; [discriminate|reflexivity]).
  assert (D2 : digits "150")
    by (apply digits_check; [discriminate|reflexivity]).
  assert (S : status_word "FRENANDO") by (right; left; reflexivity).
  assert (C : (Z.rem 6000050 3000 < 100)%Z) by reflexivity.
  assert (B : 205 # 2 <= Regex.parseInt "150") by (vm_compute; discriminate).
  repeat (split; [assumption|]).
  apply (overflowing_bar_skips_callback
           "0" "0" "1023" "150" "0" "0" "FRENANDO"
           (Controller.arduino Scenario.fresh) 7 6000050
           D0 D0 D1 D2 D0 D0 S C B).
Defined.

(** ** The retry budget *)

Lemma timeouts_app (e1 e2 : list effect) :
  timeouts (e1 ++ e2)%list = (timeouts e1 + timeouts e2)%nat.
Proof. unfold timeouts. now rewrite List.filter_app, List.length_app. Qed.

Lemma attemptReconnection_counts (r : Runtime) :
  let '(r', effs) := attemptReconnection r in
  (timeouts effs + connectionAttempts (conn r)
   = connectionAttempts (conn r'))%nat /\
  maxRetries (conn r') = maxRetries (conn r) /\
  ((connectionAttempts (conn r) <= maxRetries (conn r))%nat ->
   (connectionAttempts (conn r') <= maxRetries (conn r))%nat).
Proof.
  unfold attemptReconnection.
  destruct (connectionAttempts (conn r) <? maxRetries (conn r))%nat eqn:E;
    cbn; [|auto].
  apply Nat.ltb_lt in E. repeat split; lia.
Qed.

Lemma mark_open_fields (a : Connection) (b : bool) :
  connectionAttempts (mark_open a b) = connectionAttempts a /\
  maxRetries (mark_open a b) = maxRetries a.
Proof. unfold mark_open. destruct (port a); split; reflexivity. Qed.

Lemma step_counts (r : Runtime) (e : event) :
  e <> PortOpened ->
  let '(r', effs) := step r e in
  (timeouts effs + connectionAttempts (conn r)
   = connectionAttempts (conn r'))%nat /\
  maxRetries (conn r') = maxRetries (conn r) /\
  ((connectionAttempts (conn r) <= maxRetries (conn r))%nat ->
   (connectionAttempts (conn r') <= maxRetries (conn r))%nat).
Proof.
  intro He. destruct e as [| | |env|data now|]; [contradiction| | | | |].
  - unfold step.
    apply (attemptReconnection_counts
             (with_conn r (set_isConnected (conn r) false))).
  - unfold step.
    pose proof (attemptReconnection_counts
                  (with_conn r
                     (set_isConnected (mark_open (conn r) false) false))) as H.
    cbn [conn with_conn set_isConnected connectionAttempts maxRetries] in H.
    destruct (mark_open_fields (conn r) false) as [E1 E2].
    rewrite E1, E2 in H. exact H.
  - unfold step. destruct (pendingRetries r) as [|n]; [cbn; auto|].
    unfold connect. cbn [conn].
    destruct (isConnected (conn r)); [cbn; auto|].
    destruct (targetPort None true env); [|cbn; auto].
    destruct (ctor_throws env); [|cbn; auto].
    pose proof (attemptReconnection_counts
                  (with_conn {| conn := conn r; pendingRetries := n |}
                     (set_isConnected (conn r) false))) as H.
    cbn [conn with_conn] in *.
    destruct (attemptReconnection _) as [r' effs]. exact H.
  - unfold step, on_data, parseArduinoData.
    destruct (throttleMatch (Regex.trim data)),
      (brakeMatch (Regex.trim data)), (clutchMatch (Regex.trim data)),
      (statusMatch (Regex.trim data)); cbn; auto.
    destruct (dataCallback (conn r)); cbn; auto.
  - unfold step, disconnect.
    destruct (port (conn r)) as [p|]; [destruct (isOpen p)|]; cbn; auto.
Qed.

(** X21.  The retry budget holds.  Along any sequence of events
    without a successful open, every timer set raises
    [connectionAttempts] by one and the counter never passes
    [maxRetries]; so at most [maxRetries - connectionAttempts]
    reconnection timers are set, five on a new connection. *)
Theorem retries_bounded (es : list event) (r : Runtime) :
  has_open es = false ->
  (connectionAttempts (conn r) <= maxRetries (conn r))%nat ->
  let '(r', effs) := run r es in
  (timeouts effs + connectionAttempts (conn r)
   = connectionAttempts (conn r'))%nat /\
  (connectionAttempts (conn r') <= maxRetries (conn r))%nat /\
  (timeouts effs <= maxRetries (conn r) - connectionAttempts (conn r))%nat.
Proof.
  revert r. induction es as [|e es IH]; intros r Ho Hb.
  - cbn. repeat split; lia.
  - cbn [has_open existsb] in Ho. apply Bool.orb_false_iff in Ho.
    destruct Ho as [He Ho].
    assert (Hne : e <> PortOpened) by (intros ->; discriminate).
    cbn [run].
    pose proof (step_counts r e Hne) as Hs.
    destruct (step r e) as [r1 effs1].
    destruct Hs as (S1 & S2 & S3). specialize (S3 Hb).
    assert (Hb1 : (connectionAttempts (conn r1) <= maxRetries (conn r1))%nat)
      by (rewrite S2; exact S3).
    specialize (IH r1 Ho Hb1).
    destruct (run r1 es) as [r2 effs2].
    destruct IH as (I1 & I2 & I3).
    rewrite timeouts_app. rewrite S2 in I2, I3. repeat split; lia.
Qed.

Lemma retries_bounded_witness :
  let es := [PortError; PortClosed; PortError; PortError; PortClosed;
             PortError; PortError] in
  let r := Scenario.live in
  has_open es = false /\
  (connectionAttempts (conn r) <= maxRetries (conn r))%nat /\
  let '(r', effs) := run r es in
  (timeouts effs + connectionAttempts (conn r)
   = connectionAttempts (conn r'))%nat /\
  (connectionAttempts (conn r') <= maxRetries (conn r))%nat /\
  (timeouts effs <= maxRetries (conn r) - connectionAttempts (conn r))%nat.
Proof.
  assert (H1 : has_open [PortError; PortClosed; PortError; PortError;
                         PortClosed; PortError; PortError] = false)
    by reflexivity.
  assert (H2 : (connectionAttempts (conn Scenario.live)
                <= maxRetries (conn Scenario.live))%nat)
    by (vm_compute; lia).
  split; [exact H1|]. split; [exact H2|].
  apply (retries_bounded _ Scenario.live H1 H2).
Defined.

(** ** Reconnection, prompt by prompt *)

Lemma attemptReconnection_opens_nothing (r : Runtime) :
  opens_port (snd (attemptReconnection r)) = false.
Proof. unfold attemptReconnection. now destruct (_ <? _)%nat. Qed.

Lemma parse_displaying_opens_nothing
  (a : Connection) (raw : string) (now : Q) (clock : Z) :
  opens_port (snd (parseArduinoData_displaying a raw now clock)) = false.
Proof.
  unfold parseArduinoData_displaying.
  destruct (throttleMatch raw), (brakeMatch raw), (clutchMatch raw),
    (statusMatch raw); try reflexivity.
  destruct (displayPedalData _ _); [|reflexivity].
  now destruct (dataCallback a).
Qed.

Lemma answered_opens (w : Prompted.Waiting) (env : Env) :
  opens_port (snd (Prompted.answered w env)) = true <->
  Prompted.suspended w <> 0%nat /\
  (exists p, prompt env = Chosen p /\ p <> "") /\
  ctor_throws env = false.
Proof.
  unfold Prompted.answered, Mode.connect_after_prompt, targetPort, falsy.
  destruct (Prompted.suspended w) as [|k].
  - cbn. split; [discriminate | intros [H _]; now destruct H].
  - destruct (prompt env) as [| |p]; cbn.
    + split; [discriminate | intros (_ & (q & [=] & _) & _)].
    + split; [discriminate | intros (_ & (q & [=] & _) & _)].
    + destruct (String.eqb p "") eqn:Ep; cbn.
      * apply String.eqb_eq in Ep.
        split; [discriminate | intros (_ & (q & [= <-] & Hq) & _)].
        now destruct Hq.
      * apply String.eqb_neq in Ep.
        destruct (ctor_throws env); cbn.
        -- pose proof (attemptReconnection_opens_nothing
                         (with_conn (Prompted.runtime w)
                            (set_isConnected
                               (conn (Prompted.runtime w)) false))) as H.
           destruct (attemptReconnection _) as [r' effs]. cbn in H |- *.
           rewrite H. split; [discriminate | intros (_ & _ & [=])].
        -- split; [intros _ | reflexivity].
           split; [discriminate|]. split; [now exists p | reflexivity].
Qed.

(** X22.  Calls of [connect()] from outside apart, a port is opened
    in one kind of turn only: a prompt of a suspended [connect()] is
    answered with a port path and the
    [SerialPort] constructor accepts it.  The [isConnected] flag is not
    looked at in that turn.  It is looked at when a reconnection timer
    fires: a [connect()] call comes to wait at the prompt exactly when
    a pending timer fires on a connection that is not marked
    connected.  No other event opens a port or a prompt. *)
Theorem port_opened_only_by_answered_prompt
  (w : Prompted.Waiting) (t : Prompted.turn) :
  (opens_port (snd (Prompted.turn_step w t)) = true <->
   exists env p,
     t = Prompted.Answered env /\ Prompted.suspended w <> 0%nat /\
     prompt env = Chosen p /\ p <> "" /\ ctor_throws env = false) /\
  ((Prompted.suspended w
    < Prompted.suspended (fst (Prompted.turn_step w t)))%nat <->
   t = Prompted.TimerFires /\
   pendingRetries (Prompted.runtime w) <> 0%nat /\
   isConnected (conn (Prompted.runtime w)) = false).
Proof.
  split.
  - destruct t as [|env| | | |data now clock|];
      cbn [Prompted.turn_step Prompted.lift snd step].
    + split; [discriminate | intros (e & p & [=] & _)].
    + rewrite answered_opens. split.
      * intros (H1 & (p & H2 & H3) & H4). now exists env, p.
      * intros (e & p & [= <-] & H1 & H2 & H3 & H4).
        split; [exact H1|]. split; [now exists p | exact H4].
    + split; [discriminate | intros (e & p & [=] & _)].
    + rewrite attemptReconnection_opens_nothing.
      split; [discriminate | intros (e & p & [=] & _)].
    + rewrite attemptReconnection_opens_nothing.
      split; [discriminate | intros (e & p & [=] & _)].
    + unfold on_data_displaying.
      pose proof (parse_displaying_opens_nothing (conn (Prompted.runtime w))
                    (Regex.trim data) now clock) as H.
      destruct (parseArduinoData_displaying _ _ _ _) as [a effs].
      cbn in H |- *. rewrite H.
      split; [discriminate | intros (e & p & [=] & _)].
    + assert (H : opens_port (snd (disconnect (Prompted.runtime w))) = false).
      { unfold disconnect.
        destruct (port (conn (Prompted.runtime w))) as [q|];
          [destruct (isOpen q)|]; reflexivity. }
      rewrite H. split; [discriminate | intros (e & p & [=] & _)].
  - destruct t as [|env| | | |data now clock|];
      cbn [Prompted.turn_step Prompted.lift fst Prompted.suspended].
    + unfold Prompted.timer_fires.
      destruct (pendingRetries (Prompted.runtime w)) as [|n].
      * split; [lia | intros (_ & H & _); now destruct H].
      * destruct (isConnected (conn (Prompted.runtime w)));
          cbn [Prompted.suspended].
        -- split; [lia | intros (_ & _ & [=])].
        -- split; [intros _ | lia].
           split; [reflexivity|]. split; [discriminate | reflexivity].
    + unfold Prompted.answered.
      destruct (Prompted.suspended w) as [|k] eqn:Ek.
      * cbn. rewrite Ek. split; [lia | intros ([=] & _)].
      * destruct (Mode.connect_after_prompt _ _) as [[r b] effs]. cbn.
        split; [lia | intros ([=] & _)].
    + split; [lia | intros ([=] & _)].
    + split; [lia | intros ([=] & _)].
    + split; [lia | intros ([=] & _)].
    + destruct (on_data_displaying _ _ _ _) as [a effs]. cbn.
      split; [lia | intros ([=] & _)].
    + split; [lia | intros ([=] & _)].
Qed.

(** An error followed by the close of the port sets two timers.  Both
    fire while the connection is down, so two prompts are waiting.
    The first answer opens COM3 and its ['open'] event marks the
    connection connected; the second answer opens COM4 over it. *)
Example second_prompt_opens_over_live_connection :
  let before :=
    fst (Prompted.turns Prompted.live
           [Prompted.Errored; Prompted.Closed;
            Prompted.TimerFires; Prompted.TimerFires;
            Prompted.Answered (Scenario.picks "COM3"); Prompted.Opened]) in
  isConnected (conn (Prompted.runtime before)) = true /\
  port (conn (Prompted.runtime before)) = Some (mkPort "COM3" true) /\
  Prompted.suspended before = 1%nat /\
  let '(after, effs) :=
    Prompted.turn_step before (Prompted.Answered (Scenario.picks "COM4")) in
  effs = [OpenPort "COM4"] /\
  port (conn (Prompted.runtime after)) = Some (mkPort "COM4" false) /\
  isConnected (conn (Prompted.runtime after)) = true.
Proof. repeat split. Qed.

(** X23.  Nothing is written to a port that is not up: after an
    explicit disconnect, a close or an error, [sendCommand] writes
    nothing, whatever the command; on a connection that reports
    connected with its port open it writes the command followed by a
    line feed. *)
Theorem sendCommand_needs_open_port (r : Runtime) (command : string) :
  sendCommand (conn (fst (disconnect r))) command = None /\
  sendCommand (conn (fst (step r PortClosed))) command = None /\
  sendCommand (conn (fst (step r PortError))) command = None /\
  (if isPortConnected (conn r)
   then sendCommand (conn r) command
        = Some (command ++ String "010" EmptyString)
   else sendCommand (conn r) command = None).
Proof.
  unfold sendCommand. repeat split.
  - unfold disconnect, isPortConnected.
    destruct (port (conn r)) as [p|]; [destruct (isOpen p)|]; reflexivity.
  - unfold step, attemptReconnection, isPortConnected.
    cbn [conn with_conn]. destruct (_ <? _)%nat; reflexivity.
  - unfold step, attemptReconnection, isPortConnected.
    cbn [conn with_conn]. destruct (_ <? _)%nat; reflexivity.
  - destruct (isPortConnected (conn r)); reflexivity.
Qed.

End ConnectionProperties.

(* ===================================================================== *)
(** * Port discovery *)
(* ===================================================================== *)

Module PortProperties.
Import Ports.

Lemma filter_nil_existsb {A : Type} (f : A -> bool) (l : list A) :
  List.filter f l = [] <-> existsb f l = false.
Proof.
  induction l as [|x l IH]; simpl; [tauto|].
  destruct (f x); simpl; [split; discriminate | exact IH].
Qed.

Lemma forallb_filter {A : Type} (f : A -> bool) (l : list A) :
  forallb f (List.filter f l) = true.
Proof.
  induction l as [|x l IH]; simpl; [reflexivity|].
  destruct (f x) eqn:E; simpl; [rewrite E|]; exact IH.
Qed.

Lemma filter_getPortsList (ports : list PortInfo) :
  map pe_path (List.filter pe_isArduinoLike (getPortsList (Some ports))) =
  map pi_path (List.filter isArduinoLikePort ports).
Proof.
  unfold getPortsList. induction ports as [|p ports IH]; [reflexivity|].
  simpl. destruct (isArduinoLikePort p); simpl; now rewrite IH.
Qed.

(** X24.  [findArduinoPorts] returns ports of the listing only, in
    listing order: the Arduino-like ones when there is at least one,
    the whole listing otherwise, so the result is empty only for an
    empty (or failed) listing.  The automatic branch of [connect] takes
    the first of them, and the ports [getPortsList] flags as
    Arduino-like are the ones the filter keeps. *)
Theorem findArduinoPorts_spec (ports : list PortInfo) :
  let found := findArduinoPorts (Some ports) in
  incl found ports /\
  (found = [] <-> ports = []) /\
  (if existsb isArduinoLikePort ports
   then found = List.filter isArduinoLikePort ports /\
        forallb isArduinoLikePort found = true
   else found = ports) /\
  findArduinoPorts None = [] /\
  Serial.targetPort None false
    {| Serial.prompt := Serial.NoPort;
       Serial.discovered := automatic_paths (Some ports);
       Serial.ctor_throws := false |}
  = match found with
    | [] => None
    | first :: _ => Some (pi_path first)
    end /\
  map pe_path (List.filter pe_isArduinoLike (getPortsList (Some ports)))
  = map pi_path (List.filter isArduinoLikePort ports).
Proof.
  cbv zeta.
  assert (Hcases :
    (existsb isArduinoLikePort ports = true /\
     findArduinoPorts (Some ports) = List.filter isArduinoLikePort ports /\
     List.filter isArduinoLikePort ports <> []) \/
    (existsb isArduinoLikePort ports = false /\
     findArduinoPorts (Some ports) = ports)).
  { unfold findArduinoPorts.
    destruct (List.filter isArduinoLikePort ports) as [|x l] eqn:E.
    - right. split; [now apply filter_nil_existsb | reflexivity].
    - left. split; [|split; [reflexivity | discriminate]].
      destruct (existsb isArduinoLikePort ports) eqn:Ex; [reflexivity|].
      apply filter_nil_existsb in Ex. congruence. }
  destruct Hcases as [(Ex & -> & Hne) | (Ex & ->)]; rewrite Ex.
  - split; [apply List.incl_filter|]. split.
    + split; [intro H; contradiction|].
      intros ->. simpl in Hne. contradiction.
    + split; [split; [reflexivity | apply forallb_filter]|].
      split; [reflexivity|]. split; [|apply filter_getPortsList].
      unfold Serial.targetPort, automatic_paths, findArduinoPorts. simpl.
      destruct (List.filter isArduinoLikePort ports); [contradiction|].
      reflexivity.
  - split; [apply incl_refl|]. split; [tauto|]. split; [reflexivity|].
    split; [reflexivity|]. split; [|apply filter_getPortsList].
    unfold Serial.targetPort, automatic_paths, findArduinoPorts. simpl.
    apply filter_nil_existsb in Ex. rewrite Ex.
    destruct ports; reflexivity.
Qed.

Lemma manufacturer_mark (m : option string) (sub : string) :
  includes "desconocido" sub = false ->
  includes (toLowerCase (or_else m "Desconocido")) sub = true ->
  includes (toLowerCase (or_else m "")) sub = true.
Proof.
  intros Hd H. destruct m as [[|c s]|]; cbn [or_else] in *; try exact H.
  - change (toLowerCase "Desconocido") with "desconocido" in H. congruence.
  - change (toLowerCase "Desconocido") with "desconocido" in H. congruence.
Qed.

Lemma vendor_mark (v : option string) (t : string) :
  toLowerCase t = t -> t <> "N/A" ->
  String.eqb (or_else v "N/A") t = true ->
  String.eqb (toLowerCase (or_else v "")) t = true.
Proof.
  intros Ht Hna H. apply String.eqb_eq in H. apply String.eqb_eq.
  destruct v as [[|d v]|]; cbn [or_else] in *;
    try (symmetry in H; contradiction).
  subst t. exact Ht.
Qed.

(** X25.  The target mark of the interactive prompt is the stricter
    test: every port it marks is Arduino-like for [isArduinoLikePort]
    (and so for [findArduinoPorts] and [getPortsList]); the converse
    fails, the prompt knowing neither the Silicon Labs name nor the
    device paths nor upper-case vendor ids. *)
Theorem prompt_mark_implies_arduino_like (port : PortInfo) :
  marked_in_prompt port = true -> isArduinoLikePort port = true.
Proof.
  unfold marked_in_prompt, isArduinoLikePort. intro H.
  repeat (apply Bool.orb_true_iff in H; destruct H as [H|H]).
  - apply manufacturer_mark in H; [|reflexivity]. rewrite H. reflexivity.
  - apply manufacturer_mark in H; [|reflexivity]. rewrite H.
    rewrite !Bool.orb_true_r. reflexivity.
  - apply manufacturer_mark in H; [|reflexivity]. rewrite H.
    rewrite !Bool.orb_true_r. reflexivity.
  - apply vendor_mark in H; [|reflexivity|discriminate]. rewrite H.
    rewrite !Bool.orb_true_r. reflexivity.
  - apply vendor_mark in H; [|reflexivity|discriminate]. rewrite H.
    rewrite !Bool.orb_true_r. reflexivity.
Qed.

Lemma prompt_mark_implies_arduino_like_witness :
  let port := {| pi_path := "/dev/cu.usbmodem1";
                 manufacturer := Some "Arduino LLC";
                 vendorId := Some "2341";
                 productId := None |} in
  marked_in_prompt port = true /\ isArduinoLikePort port = true.
Proof.
  assert (H : marked_in_prompt
                {| pi_path := "/dev/cu.usbmodem1";
                   manufacturer := Some "Arduino LLC";
                   vendorId := Some "2341";
                   productId := None |} = true) by reflexivity.
  split; [exact H|].
  apply (prompt_mark_implies_arduino_like _ H).
Defined.

(** Ports the filter keeps and the prompt does not mark. *)
Example arduino_like_unmarked :
  let by_name := {| pi_path := "/dev/cu.SLAB"; manufacturer := Some "Silicon Labs";
                    vendorId := Some "10c4"; productId := None |} in
  let by_path := {| pi_path := "COM7"; manufacturer := None;
                    vendorId := None; productId := None |} in
  let by_id := {| pi_path := "/dev/cu.wch"; manufacturer := None;
                  vendorId := Some "1A86"; productId := None |} in
  (isArduinoLikePort by_name = true /\ marked_in_prompt by_name = false) /\
  (isArduinoLikePort by_path = true /\ marked_in_prompt by_path = false) /\
  (isArduinoLikePort by_id = true /\ marked_in_prompt by_id = false).
Proof. vm_compute. repeat split. Qed.

End PortProperties.
